(** * Geodesy: Vincenty direct solution, Cartesian/geodetic conversion,
      datum and reference-frame transforms

    A shallow embedding of the JavaScript (and, for the inverse-based
    wrappers, Visual Basic) sources of the geodesy toolkit.

    - A JavaScript [Number] is an IEEE 754 binary64 value: Rocq's primitive
      [float], whose [+ - * / sqrt abs] and comparisons are the machine's.
    - The remainder operator [%] is written out exactly ([JS.rem]).
    - [Math.sin], [Math.cos], [Math.tan] and [Math.atan2] are
      implementation-approximated in ECMAScript: they are the fields of the
      class [Math.Lib]; theorems hold for every instance and are run on the
      instance [Ref.math].
    - A thrown exception is the [Throw] alternative of [result]; a setter
      that assigns before it throws returns the assigned object together
      with the exception. *)

From Stdlib Require Import ZArith Bool List String Ascii Lia Floats.
Import ListNotations.

Set Warnings "-inexact-float".
Local Open Scope string_scope.
Local Open Scope float_scope.

(* ================================================================== *)
(** ** JavaScript numbers *)

Module JS.

(** [isNaN(x)] on a Number. *)
Definition isNaN (x : float) : bool := PrimFloat.is_nan x.

(** [x == y] on Numbers: IEEE equality ([NaN] equals nothing, [-0 == 0]). *)
Definition eq (x y : float) : bool := (x =? y).

(** [x != y] on Numbers. *)
Definition neq (x y : float) : bool := negb (x =? y).

(** [x > y] on Numbers ([false] when either is [NaN]). *)
Definition gt (x y : float) : bool := (y <? x).

(** ToBoolean of a Number: [0], [-0] and [NaN] are falsy. *)
Definition truthy (x : float) : bool := negb (isNaN x || (x =? 0)).

(** The remainder [x % y]: truncating, exact, with the sign of [x]. *)
Definition rem (x y : float) : float :=
  match Prim2SF x, Prim2SF y with
  | S754_nan, _ | _, S754_nan => nan
  | S754_infinity _, _ => nan
  | _, S754_zero _ => nan
  | S754_zero _, _ => x
  | S754_finite _ _ _, S754_infinity _ => x
  | S754_finite sx mx ex, S754_finite _ my ey =>
      let e := Z.min ex ey in
      let r := Z.modulo (Z.shiftl (Zpos mx) (ex - e))
                        (Z.shiftl (Zpos my) (ey - e)) in
      if Z.eqb r 0 then (if sx then neg_zero else zero)
      else SF2Prim (binary_normalize prec emax
                      (if sx then Z.opp r else r) e false)
  end.

(** [Math.PI]. *)
Definition PI : float := 3.141592653589793.

(** [Number.prototype.toRadians] and [toDegrees]. *)
Definition toRadians (x : float) : float := x * PI / 180.
Definition toDegrees (x : float) : float := x * 180 / PI.

(** [Math.abs], [Math.sqrt]. *)
Definition abs (x : float) : float := PrimFloat.abs x.
Definition sqrt (x : float) : float := PrimFloat.sqrt x.

End JS.

Infix "%%" := JS.rem (at level 40, left associativity) : float_scope.

(** The transcendental functions of [Math]. *)
Module Math.
Class Lib : Type := {
  sin : float -> float;
  cos : float -> float;
  tan : float -> float;
  atan2 : float -> float -> float
}.
End Math.

(* ================================================================== *)
(** ** A reference [Math]

    Argument reduction followed by Taylor polynomials; the special values
    ([sin 0 = 0], [cos 0 = 1], [atan2] on zeros, infinities and [NaN]) are
    those ECMAScript fixes. *)

Module Ref.

(** [sum_{k<n} (-1)^k x^(2k+i) / (2k+i)!], from the term [t] of index [i]. *)
Fixpoint taylor (n : nat) (x2 t : float) (i : float) (acc : float) : float :=
  match n with
  | O => acc
  | S n' =>
      let t' := - (t * x2) / ((i + 1) * (i + 2)) in
      taylor n' x2 t' (i + 2) (acc + t)
  end.

Definition sin_core (x : float) : float := taylor 16 (x * x) x 1 0.
Definition cos_core (x : float) : float := taylor 16 (x * x) 1 0 0.

(** [Math.PI] is the double nearest to pi; [PI_lo] is the rest of pi. *)
Definition PI_lo : float := 1.2246467991473532e-16.

(** Reduction of a finite [x] to [(-PI, PI]]. *)
Definition reduce (x : float) : float :=
  let r := x %% (2 * JS.PI) in
  if JS.PI <? r then r - 2 * JS.PI
  else if r <? - JS.PI then r + 2 * JS.PI else r.

Definition sin (x : float) : float :=
  if negb (is_finite x) then nan
  else if x =? 0 then x
  else
    let r := reduce x in
    if JS.PI / 2 <? r then sin_core ((JS.PI - r) + PI_lo)
    else if r <? - (JS.PI / 2) then sin_core ((- JS.PI - r) - PI_lo)
    else sin_core r.

Definition cos (x : float) : float :=
  if negb (is_finite x) then nan
  else
    let r := reduce x in
    if JS.PI / 2 <? r then - sin_core ((r - JS.PI / 2) - PI_lo / 2)
    else if JS.PI / 4 <? r then sin_core ((JS.PI / 2 - r) + PI_lo / 2)
    else if r <? - (JS.PI / 4) then sin_core ((r + JS.PI / 2) + PI_lo / 2)
    else cos_core r.

Definition tan (x : float) : float := sin x / cos x.

(** [sum_k (-1)^k x^(2k+1)/(2k+1)] for small [x]. *)
Fixpoint atan_series (n : nat) (x2 p : float) (i : float) (acc : float)
  : float :=
  match n with
  | O => acc
  | S n' => atan_series n' x2 (- (p * x2)) (i + 2) (acc + p / i)
  end.

Definition halve (x : float) : float := x / (1 + JS.sqrt (1 + x * x)).

(** Arc tangent of [0 <= x <= 1]. *)
Definition atan_unit (x : float) : float :=
  let y := halve (halve x) in
  4 * atan_series 24 (y * y) y 1 0.

(** Arc tangent of [0 <= x], [x] possibly infinite. *)
Definition atan_pos (x : float) : float :=
  if x <=? 1 then atan_unit x else JS.PI / 2 - atan_unit (1 / x).

Definition atan2 (y x : float) : float :=
  if is_nan y || is_nan x then nan
  else
    let neg := get_sign y in
    let ay := JS.abs y in
    let ax := JS.abs x in
    let a :=
      if ay =? 0 then (if get_sign x then JS.PI else 0)
      else if ax =? 0 then JS.PI / 2
      else if is_infinity ay && is_infinity ax
           then (if get_sign x then 3 * JS.PI / 4 else JS.PI / 4)
      else if get_sign x then JS.PI - atan_pos (ay / ax)
      else atan_pos (ay / ax) in
    if neg then - a else a.

(** The reference instance. *)
Definition math : Math.Lib :=
  {| Math.sin := sin; Math.cos := cos; Math.tan := tan;
     Math.atan2 := atan2 |}.

End Ref.

(* ================================================================== *)
(** ** Exceptions and results *)

(** The exception classes the sources throw, each with the fixed text of
    its message (a value interpolated into the message is left out). *)
Inductive exn : Type :=
| TypeError (msg : string)
| RangeError (msg : string)
| EvalError (msg : string)
| Error (msg : string).

(** The outcome of a call: a returned value or a thrown exception. *)
Inductive result (A : Type) : Type :=
| Ok (a : A)
| Throw (e : exn).
Arguments Ok {A} a.
Arguments Throw {A} e.

Definition bind {A B : Type} (r : result A) (k : A -> result B) : result B :=
  match r with
  | Ok a => k a
  | Throw e => Throw e
  end.

Notation "'let*' x ':=' r 'in' k" := (bind r (fun x => k))
  (at level 10, x name, r at level 100, k at level 200).

Definition isTypeError {A : Type} (r : result A) : bool :=
  match r with Throw (TypeError _) => true | _ => false end.
Definition isRangeError {A : Type} (r : result A) : bool :=
  match r with Throw (RangeError _) => true | _ => false end.
Definition isEvalError {A : Type} (r : result A) : bool :=
  match r with Throw (EvalError _) => true | _ => false end.
Definition isOk {A : Type} (r : result A) : bool :=
  match r with Ok _ => true | Throw _ => false end.

(* ================================================================== *)
(** ** dms.js: wrapping of degrees *)

Module Dms.

(** [Dms.wrap90]: triangle wave, inputs in range returned as they are. *)
Definition wrap90 (degrees : float) : float :=
  if (-90 <=? degrees) && (degrees <=? 90) then degrees
  else
    let x := degrees in let a := 90 in let p := 360 in
    4 * a / p * JS.abs ((((x - p / 4) %% p) + p) %% p - p / 2) - a.

(** [Dms.wrap180]: sawtooth wave, inputs in range returned as they are. *)
Definition wrap180 (degrees : float) : float :=
  if (-180 <=? degrees) && (degrees <=? 180) then degrees
  else
    let x := degrees in let a := 180 in let p := 360 in
    (((2 * a * x / p - p / 2) %% p) + p) %% p - a.

(** [Dms.wrap360]: sawtooth wave with offset. *)
Definition wrap360 (degrees : float) : float :=
  if (0 <=? degrees) && (degrees <? 360) then degrees
  else
    let x := degrees in let a := 180 in let p := 360 in
    (((2 * a * x / p) %% p) + p) %% p.

(** [Dms.parse] on an argument that is already a Number: a finite number
    is returned directly; [NaN] and the infinities reach the string
    branch, where the texts [NaN] and [Infinity] hold no digit and give
    [NaN]. *)
Definition parse (dms : float) : float :=
  if is_finite dms then dms else nan.

End Dms.

(* ================================================================== *)
(** ** latlon-ellipsoidal.js: ellipsoids, datums, points *)

Module Ellipsoid.
(** An ellipsoid object [{ a, b, f }]. *)
Record t : Type := mk { a : float; b : float; f : float }.
End Ellipsoid.

(** A datum object as the sources meet it: an entry of the frozen table
    [datums] of latlon-ellipsoidal-datum.js (written there with the
    properties [a], [b], [f] and no others), the entry [datums.WGS84] of
    latlon-ellipsoidal.js ([{ ellipsoid: ellipsoids.WGS84 }]), or any other
    object, with its identity and its properties [ellipsoid] and
    [transform] ([None] when undefined). *)
Inductive Datum : Type :=
| DatumEntry (key : string)
| BaseWGS84
| DatumObject (id : nat) (ellipsoid : option Ellipsoid.t)
              (transform : option (list float)).

(** A reference-frame object [{ name, epoch, ellipsoid }]; [epoch] and
    [ellipsoid] are [None] when undefined. *)
Module Frame.
Record t : Type := mk {
  name : string;
  epoch : option float;
  ellipsoid : option Ellipsoid.t
}.
End Frame.

Module LatLonEllipsoidal.

(** [const ellipsoids] of latlon-ellipsoidal.js. *)
Definition ellipsoids_WGS84 : Ellipsoid.t :=
  Ellipsoid.mk 6378137 6356752.314245 (1 / 298.257223563).

(** A point: the fields the constructor sets, and those a subclass or a
    caller adds ([_datum], [_referenceFrame], [_epoch]). *)
Record t : Type := mk {
  _lat : float;
  _lon : float;
  _height : float;
  _datum : option Datum;
  _referenceFrame : option Frame.t;
  _epoch : option float
}.

(** [constructor(lat, lon, height = 0)] on Numbers. *)
Definition new (lat lon height : float) : result t :=
  if JS.isNaN lat then Throw (TypeError "invalid lat")
  else if JS.isNaN lon then Throw (TypeError "invalid lon")
  else if JS.isNaN height then Throw (TypeError "invalid height")
  else Ok (mk (Dms.wrap90 lat) (Dms.wrap180 lon) height None None None).

(** Getters. *)
Definition lat (p : t) : float := _lat p.
Definition lon (p : t) : float := _lon p.
Definition height (p : t) : float := _height p.
Definition datum (p : t) : option Datum := _datum p.

Definition with_lat (p : t) (v : float) : t :=
  mk v (_lon p) (_height p) (_datum p) (_referenceFrame p) (_epoch p).
Definition with_lon (p : t) (v : float) : t :=
  mk (_lat p) v (_height p) (_datum p) (_referenceFrame p) (_epoch p).
Definition with_height (p : t) (v : float) : t :=
  mk (_lat p) (_lon p) v (_datum p) (_referenceFrame p) (_epoch p).
Definition with_datum (p : t) (d : option Datum) : t :=
  mk (_lat p) (_lon p) (_height p) d (_referenceFrame p) (_epoch p).

(** [set lat(lat)] on a Number ([set latitude] differs in the text of its
    message only): the field is assigned first, then a [NaN] result
    throws; the pair is the object after the call and the exception
    thrown, if any. *)
Definition set_lat (p : t) (lat : float) : t * option exn :=
  let v := if JS.isNaN lat then Dms.wrap90 (Dms.parse lat)
           else Dms.wrap90 lat in
  let p' := with_lat p v in
  if JS.isNaN v then (p', Some (TypeError "invalid lat")) else (p', None).

(** [set lon(lon)] on a Number ([set lng] and [set longitude] differ in
    the text of their message only). *)
Definition set_lon (p : t) (lon : float) : t * option exn :=
  let v := if JS.isNaN lon then Dms.wrap180 (Dms.parse lon)
           else Dms.wrap180 lon in
  let p' := with_lon p v in
  if JS.isNaN v then (p', Some (TypeError "invalid lon")) else (p', None).

(** [set height(height)] on a Number. *)
Definition set_height (p : t) (height : float) : t * option exn :=
  let p' := with_height p height in
  if JS.isNaN height then (p', Some (TypeError "invalid height"))
  else (p', None).

(** [set datum(datum)]. *)
Definition set_datum (p : t) (d : option Datum) : t := with_datum p d.

End LatLonEllipsoidal.

(** Property access on a datum object. *)
Module DatumProps.

Definition ellipsoid (d : Datum) : option Ellipsoid.t :=
  match d with
  | DatumEntry _ => None
  | BaseWGS84 => Some LatLonEllipsoidal.ellipsoids_WGS84
  | DatumObject _ e _ => e
  end.

Definition transform (d : Datum) : option (list float) :=
  match d with
  | DatumEntry _ => None
  | BaseWGS84 => None
  | DatumObject _ _ t => t
  end.

(** [d1 == d2] on objects: identity. *)
Definition same (d1 d2 : Datum) : bool :=
  match d1, d2 with
  | DatumEntry k1, DatumEntry k2 => String.eqb k1 k2
  | BaseWGS84, BaseWGS84 => true
  | DatumObject i _ _, DatumObject j _ _ => Nat.eqb i j
  | _, _ => false
  end.

End DatumProps.

(* ================================================================== *)
(** ** vector3d.js and the class Cartesian of latlon-ellipsoidal.js *)

Module Cartesian.

(** A Cartesian point; [_datum], [_referenceFrame] and [_epoch] are the
    fields the subclasses [Cartesian_Datum] and
    [Cartesian_ReferenceFrame] add. *)
Record t : Type := mk {
  x : float;
  y : float;
  z : float;
  _datum : option Datum;
  _referenceFrame : option Frame.t;
  _epoch : option float
}.

(** [new Cartesian(x, y, z)]: the check is [Vector3d]'s. *)
Definition new (x y z : float) : result t :=
  if JS.isNaN x || JS.isNaN y || JS.isNaN z
  then Throw (TypeError "invalid vector")
  else Ok (mk x y z None None None).

End Cartesian.

Section Conversions.

Context {M : Math.Lib}.

(** [LatLonEllipsoidal.prototype.toCartesian]. *)
Definition toCartesian (this : LatLonEllipsoidal.t) : result Cartesian.t :=
  let ellipsoid :=
    match LatLonEllipsoidal._datum this with
    | Some d => DatumProps.ellipsoid d
    | None =>
        match LatLonEllipsoidal._referenceFrame this with
        | Some rf => Frame.ellipsoid rf
        | None => Some LatLonEllipsoidal.ellipsoids_WGS84
        end
    end in
  let φ := JS.toRadians (LatLonEllipsoidal.lat this) in
  let λ := JS.toRadians (LatLonEllipsoidal.lon this) in
  let h := LatLonEllipsoidal.height this in
  match ellipsoid with
  | None => Throw (TypeError "cannot destructure undefined")
  | Some el =>
      let a := Ellipsoid.a el in
      let f := Ellipsoid.f el in
      let sinφ := Math.sin φ in
      let cosφ := Math.cos φ in
      let sinλ := Math.sin λ in
      let cosλ := Math.cos λ in
      let eSq := 2 * f - f * f in
      let ν := a / JS.sqrt (1 - eSq * sinφ * sinφ) in
      let x := (ν + h) * cosφ * cosλ in
      let y := (ν + h) * cosφ * sinλ in
      let z := (ν * (1 - eSq) + h) * sinφ in
      Cartesian.new x y z
  end.

(** [Cartesian.prototype.toLatLon(ellipsoid = ellipsoids.WGS84)]; the
    argument is [None] when it is omitted or undefined, and then
    defaults. *)
Definition toLatLon (this : Cartesian.t) (ellipsoid : option Ellipsoid.t)
  : result LatLonEllipsoidal.t :=
  let el := match ellipsoid with
            | Some e => e
            | None => LatLonEllipsoidal.ellipsoids_WGS84
            end in
  if negb (JS.truthy (Ellipsoid.a el))
  then Throw (TypeError "invalid ellipsoid")
  else
    let x := Cartesian.x this in
    let y := Cartesian.y this in
    let z := Cartesian.z this in
    let a := Ellipsoid.a el in
    let b := Ellipsoid.b el in
    let f := Ellipsoid.f el in
    let e2 := 2 * f - f * f in
    let ε2 := e2 / (1 - e2) in
    let p := JS.sqrt (x * x + y * y) in
    let R := JS.sqrt (p * p + z * z) in
    let tanβ := (b * z) / (a * p) * (1 + ε2 * b / R) in
    let sinβ := tanβ / JS.sqrt (1 + tanβ * tanβ) in
    let cosβ := sinβ / tanβ in
    let φ :=
      if JS.isNaN cosβ then 0
      else Math.atan2 (z + ε2 * b * sinβ * sinβ * sinβ)
                      (p - e2 * a * cosβ * cosβ * cosβ) in
    let λ := Math.atan2 y x in
    let sinφ := Math.sin φ in
    let cosφ := Math.cos φ in
    let ν := a / JS.sqrt (1 - e2 * sinφ * sinφ) in
    let h := p * cosφ + z * sinφ - (a * a / ν) in
    LatLonEllipsoidal.new (JS.toDegrees φ) (JS.toDegrees λ) h.

End Conversions.

(* ================================================================== *)
(** ** The Vincenty direct solution (class LatLonEllipsoidal_Vincenty)

    The class extends [LatLonEllipsoidal], which it imports under the path
    latlon_ellipsoidal.js; the one class of that name among the sources is
    that of latlon-ellipsoidal.js, modelled above. *)

Module Vincenty.

(** The object [{ point, finalBearing, iterations }] that [direct]
    returns. *)
Record DirectResult : Type := mkResult {
  point : LatLonEllipsoidal.t;
  finalBearing : float;
  iterations : nat
}.

(** The variables of the do-while loop; [count] is the source's
    [iterations]. [sinσ], [cosσ], [cos2σₘ] and [σʹ] are [null] before the
    first pass, which writes them before anything reads them, so their
    start value is immaterial. *)
Record Loop : Type := mkLoop {
  σ : float;
  sinσ : float;
  cosσ : float;
  cos2σₘ : float;
  σʹ : float;
  count : nat
}.

(** The iteration cap of the direct solution. *)
Definition cap : nat := 100.

Section Direct.

Context {M : Math.Lib}.

(** The constants the loop reads: [s], [b], [A], [B] and [σ1]. *)
Variables (s b A B σ1 : float).

(** One pass of the loop body. *)
Definition pass (st : Loop) : Loop :=
  let cos2σₘ := Math.cos (2 * σ1 + σ st) in
  let sinσ := Math.sin (σ st) in
  let cosσ := Math.cos (σ st) in
  let Δσ :=
    B * sinσ * (cos2σₘ + B / 4 *
      (cosσ * (-1 + 2 * cos2σₘ * cos2σₘ) -
       B / 6 * cos2σₘ * (-3 + 4 * sinσ * sinσ) *
         (-3 + 4 * cos2σₘ * cos2σₘ))) in
  mkLoop (s / (b * A) + Δσ) sinσ cosσ cos2σₘ
         (σ st) (count st).

(** [Math.abs(σ - σʹ) > 1e-12], the left operand of the loop
    condition. *)
Definition unconverged (st : Loop) : bool :=
  JS.gt (JS.abs (σ st - σʹ st)) 1e-12.

(** [++iterations]. *)
Definition bump (st : Loop) : Loop :=
  mkLoop (σ st) (sinσ st) (cosσ st) (cos2σₘ st)
         (σʹ st) (S (count st)).

(** [do body while (unconverged && ++iterations < 100)], run for at
    most [fuel] passes: [None] when the fuel is used up before the
    loop leaves. *)
Fixpoint loop (fuel : nat) (st : Loop) : option Loop :=
  match fuel with
  | O => None
  | S fuel' =>
      let st1 := pass st in
      if unconverged st1 then
        let st2 := bump st1 in
        if Nat.ltb (count st2) cap then loop fuel' st2 else Some st2
      else Some st1
  end.

(** The state after [k] passes of which none converged: pass [k+1],
    if it is run, yields [pass (passes k st)]. *)
Fixpoint passes (k : nat) (st : Loop) : Loop :=
  match k with
  | O => st
  | S k' => passes k' (bump (pass st))
  end.

End Direct.

(** The loop state before the first pass. *)
Definition start (σ0 : float) : Loop := mkLoop σ0 0 0 0 0 0.

Section DirectCall.

Context {M : Math.Lib}.

(** The values fixed before the loop. *)
Record Setup : Type := mkSetup {
  su_f : float; su_b : float; su_A : float; su_B : float;
  su_s : float; su_σ1 : float; su_α1 : float;
  su_sinα1 : float; su_cosα1 : float;
  su_sinU1 : float; su_cosU1 : float;
  su_sinα : float; su_cosSqα : float;
  su_λ1 : float
}.

(** The guards of [direct] and the computation up to the loop: the
    exception a guard throws, or the setup. *)
Definition prepare (this : LatLonEllipsoidal.t)
           (distance initialBearing : float) : result (option Setup) :=
  if JS.isNaN distance then Throw (TypeError "invalid distance")
  else if JS.eq distance 0 then Ok None
  else if JS.isNaN initialBearing then Throw (TypeError "invalid bearing")
  else if JS.neq (LatLonEllipsoidal.height this) 0
  then Throw (RangeError "point must be on the surface of the ellipsoid")
  else
    let φ1 := JS.toRadians (LatLonEllipsoidal.lat this) in
    let λ1 := JS.toRadians (LatLonEllipsoidal.lon this) in
    let α1 := JS.toRadians initialBearing in
    let s := distance in
    let ellipsoid :=
      match LatLonEllipsoidal.datum this with
      | Some d => DatumProps.ellipsoid d
      | None => Some LatLonEllipsoidal.ellipsoids_WGS84
      end in
    match ellipsoid with
    | None => Throw (TypeError "cannot destructure undefined")
    | Some el =>
        let a := Ellipsoid.a el in
        let b := Ellipsoid.b el in
        let f := Ellipsoid.f el in
        let sinα1 := Math.sin α1 in
        let cosα1 := Math.cos α1 in
        let tanU1 := (1 - f) * Math.tan φ1 in
        let cosU1 := 1 / JS.sqrt (1 + tanU1 * tanU1) in
        let sinU1 := tanU1 * cosU1 in
        let σ1 := Math.atan2 tanU1 cosα1 in
        let sinα := cosU1 * sinα1 in
        let cosSqα := 1 - sinα * sinα in
        let uSq := cosSqα * (a * a - b * b) / (b * b) in
        let A := 1 + uSq / 16384 *
                     (4096 + uSq * (-768 + uSq * (320 - 175 * uSq))) in
        let B := uSq / 1024 *
                 (256 + uSq * (-128 + uSq * (74 - 47 * uSq))) in
        Ok (Some (mkSetup f b A B s σ1 α1 sinα1 cosα1
                          sinU1 cosU1 sinα cosSqα λ1))
    end.

(** The loop of [direct] on a setup, with [fuel] passes allowed. *)
Definition iterate (fuel : nat) (su : Setup) : option Loop :=
  loop (su_s su) (su_b su) (su_A su) (su_B su) (su_σ1 su) fuel
       (start (su_s su / (su_b su * su_A su))).

(** The part of [direct] after the loop. *)
Definition finish (this : LatLonEllipsoidal.t) (su : Setup) (st : Loop)
  : result DirectResult :=
  if Nat.leb cap (count st)
  then Throw (EvalError "Vincenty formula failed to converge")
  else
    let f := su_f su in
    let sinU1 := su_sinU1 su in
    let cosU1 := su_cosU1 su in
    let sinα1 := su_sinα1 su in
    let cosα1 := su_cosα1 su in
    let sinα := su_sinα su in
    let cosSqα := su_cosSqα su in
    let σ := σ st in
    let sinσ := sinσ st in
    let cosσ := cosσ st in
    let cos2σₘ := cos2σₘ st in
    let x := sinU1 * sinσ - cosU1 * cosσ * cosα1 in
    let φ2 :=
      Math.atan2 (sinU1 * cosσ + cosU1 * sinσ * cosα1)
                 ((1 - f) * JS.sqrt (sinα * sinα + x * x)) in
    let λ :=
      Math.atan2 (sinσ * sinα1)
                 (cosU1 * cosσ - sinU1 * sinσ * cosα1) in
    let C := f / 16 * cosSqα * (4 + f * (4 - 3 * cosSqα)) in
    let L := λ - (1 - C) * f * sinα *
               (σ + C * sinσ *
                  (cos2σₘ + C * cosσ *
                     (-1 + 2 * cos2σₘ * cos2σₘ))) in
    let λ2 := su_λ1 su + L in
    let α2 := Math.atan2 sinα (- x) in
    (* new LatLonEllipsoidal_Vincenty(φ2°, λ2°, 0, this.datum): the
       class declares no constructor, so the inherited one runs, and
       it has the three parameters lat, lon and height. *)
    let* destinationPoint :=
      LatLonEllipsoidal.new (JS.toDegrees φ2) (JS.toDegrees λ2) 0 in
    Ok (mkResult destinationPoint
                 (Dms.wrap360 (JS.toDegrees α2))
                 (count st)).

(** [direct(distance, initialBearing)] with [fuel] passes allowed for
    its loop: [None] when the loop has not left within the fuel. *)
Definition direct_fuel (fuel : nat) (this : LatLonEllipsoidal.t)
           (distance initialBearing : float)
  : option (result DirectResult) :=
  match prepare this distance initialBearing with
  | Throw e => Some (Throw e)
  | Ok None => Some (Ok (mkResult this nan 0))
  | Ok (Some su) =>
      match iterate fuel su with
      | None => None
      | Some st => Some (finish this su st)
      end
  end.

(** [direct(distance, initialBearing)]: the loop is given [cap] passes,
    which [direct_fuel_cap] below shows to be enough. *)
Definition direct (this : LatLonEllipsoidal.t)
           (distance initialBearing : float) : result DirectResult :=
  match direct_fuel cap this distance initialBearing with
  | Some r => r
  | None => Throw (Error "loop still running")
  end.

(** [destinationPoint(distance, initialBearing)]. *)
Definition destinationPoint (this : LatLonEllipsoidal.t)
           (distance initialBearing : float)
  : result LatLonEllipsoidal.t :=
  let* d := direct this distance initialBearing in Ok (point d).

End DirectCall.

End Vincenty.

(* ================================================================== *)
(** ** latlon-ellipsoidal-datum.js: Cartesian_Datum *)

Module DatumModule.

(** [const ellipsoids] of latlon-ellipsoidal-datum.js. *)
Definition ellipsoids : list (string * Ellipsoid.t) :=
  [ ("WGS84", Ellipsoid.mk 6378137 6356752.314245 (1 / 298.257223563));
    ("Airy1830", Ellipsoid.mk 6377563.396 6356256.909 (1 / 299.3249646));
    ("AiryModified", Ellipsoid.mk 6377340.189 6356034.448 (1 / 299.3249646));
    ("Bessel1841", Ellipsoid.mk 6377397.155 6356078.962822 (1 / 299.15281285));
    ("Clarke1866", Ellipsoid.mk 6378206.4 6356583.8 (1 / 294.978698214));
    ("Clarke1880IGN", Ellipsoid.mk 6378249.2 6356515.0 (1 / 293.466021294));
    ("GRS80", Ellipsoid.mk 6378137 6356752.314140 (1 / 298.257222101));
    ("Intl1924", Ellipsoid.mk 6378388 6356911.946128 (1 / 297));
    ("WGS72", Ellipsoid.mk 6378135 6356750.52 (1 / 298.26)) ].

(** [const datums] of latlon-ellipsoidal-datum.js, as it is written: every
    entry is an object [{ a, b, f }]; none has a property [ellipsoid] or
    [transform], which [DatumProps] reads as undefined on a
    [DatumEntry]. *)
Definition datums : list (string * Ellipsoid.t) := ellipsoids.

(** [datums.WGS84]. *)
Definition datums_WGS84 : Datum := DatumEntry "WGS84".

(** [datum.ellipsoid == undefined] for a possibly undefined [datum]
    ([!datum || datum.ellipsoid == undefined]). *)
Definition unrecognised (datum : option Datum) : bool :=
  match datum with
  | None => true
  | Some d => match DatumProps.ellipsoid d with None => true | Some _ => false end
  end.

(** [new Cartesian_Datum(x, y, z, datum = undefined)]. *)
Definition new (x y z : float) (datum : option Datum) : result Cartesian.t :=
  match datum with
  | Some d =>
      match DatumProps.ellipsoid d with
      | None => Throw (TypeError "unrecognised datum")
      | Some _ =>
          let* c := Cartesian.new x y z in
          Ok (Cartesian.mk (Cartesian.x c) (Cartesian.y c) (Cartesian.z c)
                           (Some d) None None)
      end
  | None => Cartesian.new x y z
  end.

(** [set datum(datum)]. *)
Definition set_datum (this : Cartesian.t) (datum : option Datum)
  : result Cartesian.t :=
  if unrecognised datum then Throw (TypeError "unrecognised datum")
  else Ok (Cartesian.mk (Cartesian.x this) (Cartesian.y this)
                        (Cartesian.z this) datum
                        (Cartesian._referenceFrame this)
                        (Cartesian._epoch this)).

(** [t[i]] on an array of Numbers: an index past the end reads undefined,
    which the arithmetic that follows turns into [NaN]. *)
Definition at_ (t : list float) (i : nat) : float := nth i t nan.

(** [applyTransform(t)]; [t] is [None] when undefined. *)
Definition applyTransform (this : Cartesian.t) (t : option (list float))
  : result Cartesian.t :=
  match t with
  | None => Throw (TypeError "cannot read properties of undefined")
  | Some t =>
      let x1 := Cartesian.x this in
      let y1 := Cartesian.y this in
      let z1 := Cartesian.z this in
      let tx := at_ t 0 in
      let ty := at_ t 1 in
      let tz := at_ t 2 in
      let s := at_ t 3 / 1e6 + 1 in
      let rx := JS.toRadians (at_ t 4 / 3600) in
      let ry := JS.toRadians (at_ t 5 / 3600) in
      let rz := JS.toRadians (at_ t 6 / 3600) in
      let x2 := tx + x1 * s - y1 * rz + z1 * ry in
      let y2 := ty + x1 * rz + y1 * s - z1 * rx in
      let z2 := tz - x1 * ry + y1 * rx + z1 * s in
      new x2 y2 z2 None
  end.

(** [transform.map(p => -p)]. *)
Definition negate (t : list float) : list float := map (fun p => - p) t.

(** [convertDatum(toDatum)], with [fuel] bounding the depth of the calls
    it makes to itself: [None] when the depth is used up. *)
Fixpoint convertDatum_fuel (fuel : nat) (this : Cartesian.t)
         (toDatum : option Datum) : option (result Cartesian.t) :=
  match fuel with
  | O => None
  | S fuel' =>
      match toDatum with
      | None => Some (Throw (TypeError "unrecognised datum"))
      | Some toD =>
          if unrecognised toDatum
          then Some (Throw (TypeError "unrecognised datum"))
          else
            match Cartesian._datum this with
            | None => Some (Throw (TypeError "cartesian coordinate has no datum"))
            | Some thisD =>
                (* first if: this.datum == datums.WGS84 *)
                let st1 : option Cartesian.t * option (list float) :=
                  if DatumProps.same thisD datums_WGS84
                  then (Some this, DatumProps.transform toD)
                  else (None, None) in
                (* second if: toDatum == datums.WGS84 *)
                let st2 : result (option Cartesian.t * option (list float)) :=
                  if DatumProps.same toD datums_WGS84
                  then match DatumProps.transform thisD with
                       | None =>
                           Throw (TypeError "cannot read properties of undefined")
                       | Some t => Ok (Some this, Some (negate t))
                       end
                  else Ok st1 in
                match st2 with
                | Throw e => Some (Throw e)
                | Ok (oldC, transform) =>
                    (* third if: transform == null *)
                    let st3 : option (result (option Cartesian.t
                                              * option (list float))) :=
                      match transform with
                      | Some _ => Some (Ok (oldC, transform))
                      | None =>
                          match convertDatum_fuel fuel' this
                                  (Some datums_WGS84) with
                          | None => None
                          | Some (Throw e) => Some (Throw e)
                          | Some (Ok c) =>
                              Some (Ok (Some c, DatumProps.transform toD))
                          end
                      end in
                    match st3 with
                    | None => None
                    | Some (Throw e) => Some (Throw e)
                    | Some (Ok (None, _)) =>
                        Some (Throw (TypeError "cannot read properties of null"))
                    | Some (Ok (Some oldCartesian, transform)) =>
                        Some (let* newCartesian :=
                                applyTransform oldCartesian transform in
                              set_datum newCartesian toDatum)
                    end
                end
            end
      end
  end.

(** [convertDatum(toDatum)]: depth 2 is enough ([convertDatum_depth]). *)
Definition convertDatum (this : Cartesian.t) (toDatum : option Datum)
  : result Cartesian.t :=
  match convertDatum_fuel 2 this toDatum with
  | Some r => r
  | None => Throw (Error "call still running")
  end.

End DatumModule.
(* ================================================================== *)
(** ** latlon-ellipsoidal-referenceframe.js: Cartesian_ReferenceFrame *)

Module JSString.

(** [s.split(sep)] for a separator that is not empty. *)
Fixpoint split_fuel (fuel : nat) (sep s : string) : list string :=
  match fuel with
  | O => [s]
  | S fuel' =>
      match String.index 0 sep s with
      | None => [s]
      | Some i =>
          let k := (i + String.length sep)%nat in
          String.substring 0 i s
            :: split_fuel fuel' sep
                 (String.substring k (String.length s - k) s)
      end
  end.

Definition split (sep s : string) : list string :=
  split_fuel (String.length s) sep s.

(** [s.startsWith(p)]. *)
Definition startsWith (p s : string) : bool := String.prefix p s.

(** String concatenation with a value that may be undefined. *)
Definition text (o : option string) : string :=
  match o with Some s => s | None => "undefined" end.

(** ToBoolean of a string that may be undefined. *)
Definition truthy (o : option string) : bool :=
  match o with
  | Some s => negb (String.eqb s "")
  | None => false
  end.

(** [a == b] on strings that may be undefined. *)
Definition same (a b : option string) : bool :=
  match a, b with
  | Some x, Some y => String.eqb x y
  | None, None => true
  | _, _ => false
  end.

End JSString.

Module ReferenceFrameModule.

(** An entry of the table of transform parameters. *)
Record Tx : Type := mkTx {
  tx_epoch : float;
  tx_params : list float;
  tx_rates : list float
}.

(** The separator of the table's keys. *)
Definition arrow : string := "→".

(** ToNumber of a Number that may be undefined. *)
Definition number (o : option float) : float :=
  match o with Some v => v | None => nan end.

(** ToBoolean of a Number that may be undefined. *)
Definition truthy (o : option float) : bool :=
  match o with Some v => JS.truthy v | None => false end.

(** [a || b]. *)
Definition or_else (a b : option float) : option float :=
  if truthy a then a else b.

(** [new Cartesian_ReferenceFrame(x, y, z, referenceFrame, epoch)]. *)
Definition new (x y z : float) (referenceFrame : option Frame.t)
           (epoch : option float) : result Cartesian.t :=
  let bad_frame :=
    match referenceFrame with
    | Some rf => match Frame.epoch rf with None => true | Some _ => false end
    | None => false
    end in
  if bad_frame then Throw (TypeError "unrecognised reference frame")
  else
    let bad_epoch :=
      match epoch with Some e => JS.isNaN e | None => false end in
    if bad_epoch then Throw (TypeError "invalid epoch")
    else
      let* c := Cartesian.new x y z in
      Ok (Cartesian.mk (Cartesian.x c) (Cartesian.y c) (Cartesian.z c) None
                       referenceFrame
                       (if truthy epoch then epoch else None)).

(** [get epoch()]. *)
Definition epoch (this : Cartesian.t) : option float :=
  if truthy (Cartesian._epoch this) then Cartesian._epoch this
  else match Cartesian._referenceFrame this with
       | Some rf => Frame.epoch rf
       | None => None
       end.

(** [!referenceFrame || referenceFrame.epoch == undefined]. *)
Definition unrecognised (rf : option Frame.t) : bool :=
  match rf with
  | None => true
  | Some f => match Frame.epoch f with None => true | Some _ => false end
  end.

(** [set referenceFrame(referenceFrame)]. *)
Definition set_referenceFrame (this : Cartesian.t) (rf : option Frame.t)
  : result Cartesian.t :=
  if unrecognised rf then Throw (TypeError "unrecognised reference frame")
  else Ok (Cartesian.mk (Cartesian.x this) (Cartesian.y this)
                        (Cartesian.z this) (Cartesian._datum this) rf
                        (Cartesian._epoch this)).

(** [a != b] on Numbers that may be undefined. *)
Definition differ (a b : option float) : bool :=
  match a, b with
  | Some x, Some y => JS.neq x y
  | None, None => false
  | _, _ => true
  end.

(** [set epoch(epoch)]; reading [this._referenceFrame.epoch] throws when
    the frame is not set. *)
Definition set_epoch (this : Cartesian.t) (e : option float)
  : result Cartesian.t :=
  if JS.isNaN (number e) then Throw (TypeError "invalid epoch")
  else
    match Cartesian._referenceFrame this with
    | None => Throw (TypeError "cannot read properties of undefined")
    | Some rf =>
        if differ (Cartesian._epoch this) (Frame.epoch rf)
        then Ok (Cartesian.mk (Cartesian.x this) (Cartesian.y this)
                              (Cartesian.z this) (Cartesian._datum this)
                              (Cartesian._referenceFrame this)
                              (Some (number e)))
        else Ok this
    end.

(** [params[i]], undefined past the end and then [NaN] in arithmetic. *)
Definition at_ (t : list float) (i : nat) : float := nth i t nan.

(** [applyTransform(params, rates, δt)]. *)
Definition applyTransform (this : Cartesian.t) (params rates : list float)
           (δt : float) : result Cartesian.t :=
  let x1 := Cartesian.x this in
  let y1 := Cartesian.y this in
  let z1 := Cartesian.z this in
  let tx := at_ params 0 / 1000 in
  let ty := at_ params 1 / 1000 in
  let tz := at_ params 2 / 1000 in
  let s := at_ params 3 / 1e9 in
  let rx := JS.toRadians (at_ params 4 / 3600 / 1000) in
  let ry := JS.toRadians (at_ params 5 / 3600 / 1000) in
  let rz := JS.toRadians (at_ params 6 / 3600 / 1000) in
  let ṫx := at_ rates 0 / 1000 in
  let ṫy := at_ rates 1 / 1000 in
  let ṫz := at_ rates 2 / 1000 in
  let ṡ := at_ rates 3 / 1e9 in
  let ṙx := JS.toRadians (at_ rates 4 / 3600 / 1000) in
  let ṙy := JS.toRadians (at_ rates 5 / 3600 / 1000) in
  let ṙz := JS.toRadians (at_ rates 6 / 3600 / 1000) in
  let T_x := tx + ṫx * δt in
  let T_y := ty + ṫy * δt in
  let T_z := tz + ṫz * δt in
  let R_x := rx + ṙx * δt in
  let R_y := ry + ṙy * δt in
  let R_z := rz + ṙz * δt in
  let S := 1 + s + ṡ * δt in
  let x2 := T_x + x1 * S - y1 * R_z + z1 * R_y in
  let y2 := T_y + x1 * R_z + y1 * S - z1 * R_x in
  let z2 := T_z - x1 * R_y + y1 * R_x + z1 * S in
  new x2 y2 z2 None None.

(** [reverseTransform(tx)], which throws on an undefined [tx]. *)
Definition reverseTransform (tx : option Tx) : result Tx :=
  match tx with
  | None => Throw (TypeError "cannot read properties of undefined")
  | Some t => Ok (mkTx (tx_epoch t) (map (fun p => - p) (tx_params t))
                       (map (fun r => - r) (tx_rates t)))
  end.

Section Table.

(** [txParams], imported from a module that is not among the sources: the
    table in the order of its keys. *)
Variable txParams : list (string * Tx).

(** [txParams[key]]. *)
Fixpoint lookup_in (table : list (string * Tx)) (key : string) : option Tx :=
  match table with
  | [] => None
  | (k, v) :: rest => if String.eqb k key then Some v else lookup_in rest key
  end.

Definition lookup (key : string) : option Tx := lookup_in txParams key.

(** [tx.split('→')[i]] over [Object.keys(txParams)]. *)
Definition part (i : nat) (key : string) : option string :=
  nth_error (JSString.split arrow key) i.

(** [Object.keys(txParams).filter(tx => tx.split('→')[i] == name)
      .map(tx => tx.split('→')[j])]. *)
Definition avail (i j : nat) (name : string) : list (option string) :=
  map (fun key => part j key)
      (filter (fun key => JSString.same (part i key) (Some name))
              (map fst txParams)).

(** [xs.filter(tx => ys.includes(tx))[0]]. *)
Definition common (xs ys : list (option string)) : option string :=
  match filter (fun x => existsb (JSString.same x) ys) xs with
  | [] => None
  | x :: _ => x
  end.

(** A transform that may be undefined, read for its fields. *)
Definition defined (tx : option Tx) : result Tx :=
  match tx with
  | Some t => Ok t
  | None => Throw (TypeError "cannot read properties of undefined")
  end.

(** [convertReferenceFrame(toReferenceFrame)]. *)
Definition convertReferenceFrame (this : Cartesian.t)
           (toReferenceFrame : option Frame.t) : result Cartesian.t :=
  match toReferenceFrame with
  | None => Throw (TypeError "unrecognised reference frame")
  | Some newTrf =>
      if unrecognised toReferenceFrame
      then Throw (TypeError "unrecognised reference frame")
      else
        match Cartesian._referenceFrame this with
        | None =>
            Throw (TypeError "cartesian coordinate has no reference frame")
        | Some oldTrf =>
            let oldName := Frame.name oldTrf in
            let newName := Frame.name newTrf in
            if String.eqb oldName newName then Ok this
            else if JSString.startsWith "ITRF" oldName
                    && JSString.startsWith "WGS84" newName then Ok this
            else if JSString.startsWith "WGS84" oldName
                    && JSString.startsWith "ITRF" newName then Ok this
            else
              let oldC := this in
              let txFwd := lookup (oldName ++ arrow ++ newName) in
              let txRev := lookup (newName ++ arrow ++ oldName) in
              let t := or_else (epoch this) (Frame.epoch oldTrf) in
              let* newC :=
                match txFwd, txRev with
                | None, None =>
                    let txAvailFromOld := avail 0 1 oldName in
                    let txAvailToNew := avail 1 0 newName in
                    let txIntermediateFwd :=
                      common txAvailFromOld txAvailToNew in
                    let txAvailFromNew := avail 0 1 newName in
                    let txAvailToOld := avail 1 0 oldName in
                    let txIntermediateRev :=
                      common txAvailFromNew txAvailToOld in
                    let txFwd1 :=
                      lookup (oldName ++ arrow
                                ++ JSString.text txIntermediateFwd) in
                    let txFwd2 :=
                      lookup (JSString.text txIntermediateFwd ++ arrow
                                ++ newName) in
                    let txRev1 :=
                      lookup (newName ++ arrow
                                ++ JSString.text txIntermediateRev) in
                    let txRev2 :=
                      lookup (JSString.text txIntermediateRev ++ arrow
                                ++ oldName) in
                    let* tx1 :=
                      if JSString.truthy txIntermediateFwd
                      then Ok txFwd1
                      else let* r := reverseTransform txRev2 in Ok (Some r) in
                    let* tx2 :=
                      if JSString.truthy txIntermediateFwd
                      then Ok txFwd2
                      else let* r := reverseTransform txRev1 in Ok (Some r) in
                    let* tx1 := defined tx1 in
                    let* c1 :=
                      applyTransform oldC (tx_params tx1) (tx_rates tx1)
                                     (number t - tx_epoch tx1) in
                    let* tx2 := defined tx2 in
                    applyTransform c1 (tx_params tx2) (tx_rates tx2)
                                   (number t - tx_epoch tx2)
                | _, _ =>
                    let* tx :=
                      match txFwd with
                      | Some f => Ok f
                      | None => reverseTransform txRev
                      end in
                    let t0 := tx_epoch tx in
                    applyTransform oldC (tx_params tx) (tx_rates tx)
                                   (number t - t0)
                end in
              let* newC := set_referenceFrame newC toReferenceFrame in
              set_epoch newC (epoch oldC)
        end
  end.

End Table.

End ReferenceFrameModule.
(* ================================================================== *)
(** ** The Visual Basic class LatLonEllipsoidal_Vincenty: inverse-based
       operations *)

Module VB.

(** The exceptions the Visual Basic sources name, and any other, by its
    type name. *)
Inductive Exception : Type :=
| EvalError (msg : string)
| ArgumentException (msg : string)
| ArgumentOutOfRangeException (msg : string)
| OtherException (type msg : string).

(** [TypeOf e Is EvalError]. *)
Definition isEvalError (e : Exception) : bool :=
  match e with EvalError _ => true | _ => false end.

(** A call that returns or raises. *)
Inductive outcome (A : Type) : Type :=
| Return (a : A)
| Raise (e : Exception).
Arguments Return {A} a.
Arguments Raise {A} e.

(** The fields read off the result of [Inverse]. *)
Record InverseResult : Type := mkInverse {
  Distance : float;
  InitialBearing : float;
  FinalBearing : float
}.

Section Wrappers.

(** The points, [Me.Inverse(point)] and [Math.Round(value, digits)]: the
    function [Inverse] is called by the sources and defined in none of
    them. *)
Variable Point : Type.
Variable Inverse : Point -> Point -> outcome InverseResult.
Variable Round : float -> nat -> float.

(** [DistanceTo]: [Try Return Math.Round(Me.Inverse(point).Distance, 3)
    Catch e As Exception: If TypeOf e Is EvalError Then Return Double.NaN;
    Throw e]. *)
Definition DistanceTo (this point : Point) : outcome float :=
  match Inverse this point with
  | Return r => Return (Round (Distance r) 3)
  | Raise e => if isEvalError e then Return nan else Raise e
  end.

(** [InitialBearingTo]: the same around [InitialBearing], rounded to 7
    places. *)
Definition InitialBearingTo (this point : Point) : outcome float :=
  match Inverse this point with
  | Return r => Return (Round (InitialBearing r) 7)
  | Raise e => if isEvalError e then Return nan else Raise e
  end.

(** [FinalBearingTo]: the same around [FinalBearing], rounded to 7
    places. *)
Definition FinalBearingTo (this point : Point) : outcome float :=
  match Inverse this point with
  | Return r => Return (Round (FinalBearing r) 7)
  | Raise e => if isEvalError e then Return nan else Raise e
  end.

End Wrappers.

End VB.

(* ================================================================== *)
(** ** vector3d.js: the class Vector3d

    The arguments of the methods are vectors and Numbers, so the
    [instanceof] guards pass. *)

Module Vector3d.

(** A vector [{ x, y, z }]. *)
Record t : Type := mk { x : float; y : float; z : float }.

(** [new Vector3d(x, y, z)]. *)
Definition new (x y z : float) : result t :=
  if JS.isNaN x || JS.isNaN y || JS.isNaN z
  then Throw (TypeError "invalid vector")
  else Ok (mk x y z).

(** [get length()]. *)
Definition length (this : t) : float :=
  JS.sqrt (x this * x this + y this * y this + z this * z this).

(** [plus(v)]. *)
Definition plus (this v : t) : result t :=
  new (x this + x v) (y this + y v) (z this + z v).

(** [minus(v)]. *)
Definition minus (this v : t) : result t :=
  new (x this - x v) (y this - y v) (z this - z v).

(** [times(x)]. *)
Definition times (this : t) (s : float) : result t :=
  if JS.isNaN s then Throw (TypeError "invalid scalar value")
  else new (x this * s) (y this * s) (z this * s).

(** [dividedBy(x)]. *)
Definition dividedBy (this : t) (s : float) : result t :=
  if JS.isNaN s then Throw (TypeError "invalid scalar value")
  else new (x this / s) (y this / s) (z this / s).

(** [dot(v)]. *)
Definition dot (this v : t) : float :=
  x this * x v + y this * y v + z this * z v.

(** [cross(v)]. *)
Definition cross (this v : t) : result t :=
  let x' := y this * z v - z this * y v in
  let y' := z this * x v - x this * z v in
  let z' := x this * y v - y this * x v in
  new x' y' z'.

(** [negate()]. *)
Definition negate (this : t) : result t :=
  new (- x this) (- y this) (- z this).

(** [unit()]: a vector of norm 1 or 0 is returned as it is. *)
Definition unit (this : t) : result t :=
  let norm := length this in
  if JS.eq norm 1 then Ok this
  else if JS.eq norm 0 then Ok this
  else
    let x' := x this / norm in
    let y' := y this / norm in
    let z' := z this / norm in
    new x' y' z'.

Section Trigonometry.

Context {M : Math.Lib}.


(** [rotateAround(axis, angle)]. *)
Definition rotateAround (this axis : t) (angle : float) : result t :=
  let θ := JS.toRadians angle in
  let* p := unit this in
  let* a := unit axis in
  let s := Math.sin θ in
  let c := Math.cos θ in
  let t := 1 - c in
  let x := x a in
  let y := y a in
  let z := z a in
  let r00 := t * x * x + c in
  let r01 := t * x * y - s * z in
  let r02 := t * x * z + s * y in
  let r10 := t * x * y + s * z in
  let r11 := t * y * y + c in
  let r12 := t * y * z - s * x in
  let r20 := t * x * z - s * y in
  let r21 := t * y * z + s * x in
  let r22 := t * z * z + c in
  let rp0 := r00 * Vector3d.x p + r01 * Vector3d.y p + r02 * Vector3d.z p in
  let rp1 := r10 * Vector3d.x p + r11 * Vector3d.y p + r12 * Vector3d.z p in
  let rp2 := r20 * Vector3d.x p + r21 * Vector3d.y p + r22 * Vector3d.z p in
  new rp0 rp1 rp2.

End Trigonometry.

(** A vector holds no [NaN]. *)
Definition numeric (v : t) : bool :=
  negb (JS.isNaN (x v) || JS.isNaN (y v) || JS.isNaN (z v)).

(** The vectors that the constructor and the methods return. *)
Inductive built {M : Math.Lib} : t -> Prop :=
| built_new x y z v : new x y z = Ok v -> built v
| built_plus a b v : built a -> built b -> plus a b = Ok v -> built v
| built_minus a b v : built a -> built b -> minus a b = Ok v -> built v
| built_times a s v : built a -> times a s = Ok v -> built v
| built_dividedBy a s v : built a -> dividedBy a s = Ok v -> built v
| built_cross a b v : built a -> built b -> cross a b = Ok v -> built v
| built_negate a v : built a -> negate a = Ok v -> built v
| built_unit a v : built a -> unit a = Ok v -> built v
| built_rotateAround a axis angle v :
    built a -> built axis -> rotateAround a axis angle = Ok v -> built v.

End Vector3d.

(* ================================================================== *)
(** ** latlon-ellipsoidal.js: equality of points *)

(** Identity of reference-frame objects, the [==] of JavaScript on
    objects: an equivalence the record [Frame.t], which holds the
    properties of a frame and not its address, does not determine. *)
Module Identity.
Class Frames : Type := {
  same : Frame.t -> Frame.t -> bool;
  same_refl : forall f, same f f = true;
  same_sym : forall f g, same f g = same g f
}.
End Identity.

Module LatLonEllipsoidalMethods.

(** [Number.EPSILON]. *)
Definition EPSILON : float := 2.220446049250313e-16.

(** [this.referenceFrame]. *)
Definition referenceFrame (p : LatLonEllipsoidal.t) : option Frame.t :=
  LatLonEllipsoidal._referenceFrame p.

(** [this.epoch]: the getter of [LatLonEllipsoidal_ReferenceFrame],
    [this._epoch || this.referenceFrame.epoch], on a point of that class
    (its constructor sets the frame); undefined on a point of another
    class, which has no property of the name. *)
Definition epoch (p : LatLonEllipsoidal.t) : option float :=
  match LatLonEllipsoidal._referenceFrame p with
  | Some rf =>
      ReferenceFrameModule.or_else (LatLonEllipsoidal._epoch p)
                                   (Frame.epoch rf)
  | None => None
  end.

(** [a != b] on datum objects that may be undefined. *)
Definition differ_datum (a b : option Datum) : bool :=
  match a, b with
  | Some d1, Some d2 => negb (DatumProps.same d1 d2)
  | None, None => false
  | _, _ => true
  end.

(** [a != b] on reference-frame objects that may be undefined. *)
Definition differ_frame {I : Identity.Frames} (a b : option Frame.t) : bool :=
  match a, b with
  | Some f, Some g => negb (Identity.same f g)
  | None, None => false
  | _, _ => true
  end.

(** [equals(point)] on a point. *)
Definition equals {I : Identity.Frames} (this point : LatLonEllipsoidal.t)
  : bool :=
  if JS.gt (JS.abs (LatLonEllipsoidal.lat this - LatLonEllipsoidal.lat point))
           EPSILON then false
  else if JS.gt (JS.abs (LatLonEllipsoidal.lon this
                         - LatLonEllipsoidal.lon point)) EPSILON then false
  else if JS.gt (JS.abs (LatLonEllipsoidal.height this
                         - LatLonEllipsoidal.height point)) EPSILON
  then false
  else if differ_datum (LatLonEllipsoidal.datum this)
                       (LatLonEllipsoidal.datum point) then false
  else if differ_frame (referenceFrame this) (referenceFrame point)
  then false
  else if ReferenceFrameModule.differ (epoch this) (epoch point) then false
  else true.

End LatLonEllipsoidalMethods.

(* ================================================================== *)
(** ** latlon-ellipsoidal-datum.js: the classes LatLonEllipsoidal_Datum
       and Cartesian_Datum *)

Module LatLonEllipsoidal_Datum.

(** [new LatLonEllipsoidal_Datum(lat, lon, height, datum = datums.WGS84)];
    [datum] is [None] when it is omitted or undefined. *)
Definition new (lat lon height : float) (datum : option Datum)
  : result LatLonEllipsoidal.t :=
  let datum :=
    match datum with
    | Some d => d
    | None => DatumModule.datums_WGS84
    end in
  if DatumModule.unrecognised (Some datum)
  then Throw (TypeError "unrecognised datum")
  else
    let* p := LatLonEllipsoidal.new lat lon height in
    Ok (LatLonEllipsoidal.with_datum p (Some datum)).

Section Methods.

Context {M : Math.Lib}.

(** [toCartesian()]. *)
Definition toCartesian (this : LatLonEllipsoidal.t) : result Cartesian.t :=
  let* cartesian := toCartesian this in
  DatumModule.new (Cartesian.x cartesian) (Cartesian.y cartesian)
                  (Cartesian.z cartesian) (LatLonEllipsoidal.datum this).

(** [Cartesian_Datum.prototype.toLatLon(deprecatedDatum = undefined)];
    the assignment to [this.datum] is kept for the rest of the call. *)
Definition toLatLon (this : Cartesian.t) (deprecatedDatum : option Datum)
  : result LatLonEllipsoidal.t :=
  let* this :=
    match deprecatedDatum with
    | Some _ => DatumModule.set_datum this deprecatedDatum
    | None => Ok this
    end in
  let datum :=
    match Cartesian._datum this with
    | Some d => d
    | None => DatumModule.datums_WGS84
    end in
  if DatumModule.unrecognised (Some datum)
  then Throw (TypeError "unrecognised datum")
  else
    let* latLon := toLatLon this (DatumProps.ellipsoid datum) in
    new (LatLonEllipsoidal.lat latLon) (LatLonEllipsoidal.lon latLon)
        (LatLonEllipsoidal.height latLon) (Cartesian._datum this).

(** [LatLonEllipsoidal_Datum.prototype.convertDatum(toDatum)]. *)
Definition convertDatum (this : LatLonEllipsoidal.t)
           (toDatum : option Datum) : result LatLonEllipsoidal.t :=
  if DatumModule.unrecognised toDatum
  then Throw (TypeError "unrecognised datum")
  else
    let* oldCartesian := toCartesian this in
    let* newCartesian := DatumModule.convertDatum oldCartesian toDatum in
    toLatLon newCartesian None.

End Methods.

End LatLonEllipsoidal_Datum.

(* ================================================================== *)
(** ** latlon-ellipsoidal-referenceframe.js: the class
       LatLonEllipsoidal_ReferenceFrame and the conversion of
       Cartesian_ReferenceFrame to it *)

Module LatLonEllipsoidal_ReferenceFrame.

(** [ellipsoids.GRS80] and [referenceFrames.ITRF2014]. *)
Definition ellipsoids_GRS80 : Ellipsoid.t :=
  Ellipsoid.mk 6378137 6356752.314140 (1 / 298.257222101).
Definition referenceFrames_ITRF2014 : Frame.t :=
  Frame.mk "ITRF2014" (Some 2010.0) (Some ellipsoids_GRS80).

(** [new LatLonEllipsoidal_ReferenceFrame(lat, lon, height,
    referenceFrame = referenceFrames.ITRF2014, epoch = undefined)]; an
    argument is [None] when it is omitted or undefined. *)
Definition new (lat lon height : float) (referenceFrame : option Frame.t)
           (epoch : option float) : result LatLonEllipsoidal.t :=
  let referenceFrame :=
    match referenceFrame with
    | Some rf => rf
    | None => referenceFrames_ITRF2014
    end in
  if ReferenceFrameModule.unrecognised (Some referenceFrame)
  then Throw (TypeError "unrecognised reference frame")
  else
    let bad_epoch :=
      match epoch with Some e => JS.isNaN e | None => false end in
    if bad_epoch then Throw (TypeError "invalid epoch")
    else
      let* p := LatLonEllipsoidal.new lat lon height in
      Ok (LatLonEllipsoidal.mk
            (LatLonEllipsoidal._lat p) (LatLonEllipsoidal._lon p)
            (LatLonEllipsoidal._height p) (LatLonEllipsoidal._datum p)
            (Some referenceFrame)
            (if ReferenceFrameModule.truthy epoch then epoch else None)).

(** [get epoch()]: [this._epoch || this.referenceFrame.epoch], which
    throws when the frame is not set. *)
Definition epoch (this : LatLonEllipsoidal.t) : result (option float) :=
  if ReferenceFrameModule.truthy (LatLonEllipsoidal._epoch this)
  then Ok (LatLonEllipsoidal._epoch this)
  else
    match LatLonEllipsoidal._referenceFrame this with
    | Some rf => Ok (Frame.epoch rf)
    | None => Throw (TypeError "cannot read properties of undefined")
    end.

Section Methods.

Context {M : Math.Lib}.

(** [toCartesian()]. *)
Definition toCartesian (this : LatLonEllipsoidal.t) : result Cartesian.t :=
  let* cartesian := toCartesian this in
  let* e := epoch this in
  ReferenceFrameModule.new (Cartesian.x cartesian) (Cartesian.y cartesian)
                           (Cartesian.z cartesian)
                           (LatLonEllipsoidal._referenceFrame this) e.

(** [Cartesian_ReferenceFrame.prototype.toLatLon()]. *)
Definition toLatLon (this : Cartesian.t) : result LatLonEllipsoidal.t :=
  match Cartesian._referenceFrame this with
  | None => Throw (Error "cartesian reference frame not defined")
  | Some rf =>
      let* latLon := toLatLon this (Frame.ellipsoid rf) in
      new (LatLonEllipsoidal.lat latLon) (LatLonEllipsoidal.lon latLon)
          (LatLonEllipsoidal.height latLon) (Some rf)
          (ReferenceFrameModule.epoch this)
  end.

Section Table.

Variable txParams : list (string * ReferenceFrameModule.Tx).

(** [LatLonEllipsoidal_ReferenceFrame.prototype
      .convertReferenceFrame(toReferenceFrame)]. *)
Definition convertReferenceFrame (this : LatLonEllipsoidal.t)
           (toReferenceFrame : option Frame.t)
  : result LatLonEllipsoidal.t :=
  if ReferenceFrameModule.unrecognised toReferenceFrame
  then Throw (TypeError "unrecognised reference frame")
  else
    let* oldCartesian := toCartesian this in
    let* newCartesian :=
      ReferenceFrameModule.convertReferenceFrame txParams oldCartesian
                                                 toReferenceFrame in
    toLatLon newCartesian.

End Table.

End Methods.

End LatLonEllipsoidal_ReferenceFrame.

(* ================================================================== *)
(** ** Exact integer functions of [Math] and indexing by a Number *)

Module JSMath.

(** The Number of an integer, exact below [2^53]. *)
Definition of_Z (n : Z) : float :=
  SF2Prim (binary_normalize prec emax n 0 false).

(** The signed mantissa of a finite nonzero Number [m * 2^e]. *)
Definition signed (s : bool) (m : positive) : Z :=
  if s then Z.neg m else Z.pos m.

(** [Math.floor]. *)
Definition floor (x : float) : float :=
  match Prim2SF x with
  | S754_finite s m e =>
      if (0 <=? e)%Z then x
      else
        let n := (signed s m / 2 ^ (- e))%Z in
        if (n =? 0)%Z then zero else of_Z n
  | _ => x
  end.

(** [Math.trunc]. *)
Definition trunc (x : float) : float :=
  match Prim2SF x with
  | S754_finite s m e =>
      if (0 <=? e)%Z then x
      else
        let n := (Z.pos m / 2 ^ (- e))%Z in
        if (n =? 0)%Z then (if s then neg_zero else zero)
        else of_Z (if s then - n else n)
  | _ => x
  end.

(** [Math.round]: the nearest integer, a tie going up; a result of zero
    has the sign of [x]. *)
Definition round (x : float) : float :=
  match Prim2SF x with
  | S754_finite s m e =>
      if (0 <=? e)%Z then x
      else
        let n := ((2 * signed s m + 2 ^ (- e)) / 2 ^ (- e + 1))%Z in
        if (n =? 0)%Z then (if s then neg_zero else zero) else of_Z n
  | _ => x
  end.

(** The Number nearest to the fraction [n / d] of positive integers, with
    the sign [s]. *)
Definition of_fraction (s : bool) (n d : Z) : float :=
  let '(mz, ez, lz) := SFdiv_core_binary prec emax n 0 d 0 in
  SF2Prim (binary_round_aux prec emax s mz ez lz).

(** [Number(x.toFixed(digits))]: the decimal of [digits] places nearest
    to [x], a tie going away from zero, read back as a Number; [-0] loses
    its sign, and a Number from 1e21 on is printed in full and comes back
    as it is. *)
Definition toFixed (x : float) (digits : Z) : float :=
  match Prim2SF x with
  | S754_zero _ => zero
  | S754_finite s m e =>
      if 1e21 <=? abs x then x
      else
        let scale := (10 ^ digits)%Z in
        let n :=
          if (0 <=? e)%Z then (Z.pos m * scale * 2 ^ e)%Z
          else ((2 * (Z.pos m * scale) + 2 ^ (- e)) / 2 ^ (- e + 1))%Z in
        if (n =? 0)%Z then (if s then neg_zero else zero)
        else of_fraction s n scale
  | _ => x
  end.

(** The integer a Number is, if it is one. *)
Definition to_Z (x : float) : option Z :=
  match Prim2SF x with
  | S754_zero _ => Some 0%Z
  | S754_finite s m e =>
      if (0 <=? e)%Z then Some (signed s m * 2 ^ e)%Z
      else if (Z.pos m mod 2 ^ (- e) =? 0)%Z
           then Some (signed s m / 2 ^ (- e))%Z
           else None
  | _ => None
  end.

(** [array[i]] for a Number [i]: the element when [i] is an index of the
    array, else undefined. *)
Definition index {A : Type} (array : list A) (i : float) : option A :=
  match to_Z i with
  | Some n => if (n <? 0)%Z then None else nth_error array (Z.to_nat n)
  | None => None
  end.

End JSMath.

(* ================================================================== *)
(** ** dms.js: compass points *)

Module DmsCompass.

Definition cardinals : list string :=
  [ "N"; "NNE"; "NE"; "ENE";
    "E"; "ESE"; "SE"; "SSE";
    "S"; "SSW"; "SW"; "WSW";
    "W"; "WNW"; "NW"; "NNW" ].

(** [[1, 2, 3].includes(precision)] on a Number. *)
Definition includes (precision : float) : bool :=
  JS.eq precision 1 || JS.eq precision 2 || JS.eq precision 3.

(** [2 ** e] for the exponents the guard lets through: 0, 1 and 2. *)
Definition pow2 (e : float) : float :=
  if JS.eq e 0 then 1 else if JS.eq e 1 then 2 else 4.

(** [Dms.compassPoint(bearing, precision = 3)] on Numbers; the result is
    [None] when the array is read at no index of it. *)
Definition compassPoint (bearing precision : float)
  : result (option string) :=
  if negb (includes precision) then Throw (RangeError "invalid precision")
  else
    let bearing := Dms.wrap360 bearing in
    let n := 4 * pow2 (precision - 1) in
    let cardinal :=
      JSMath.index cardinals
        (JSMath.round (bearing * n / 360) %% n * 16 / n) in
    Ok cardinal.

End DmsCompass.

(* ================================================================== *)
(** ** utm.js and mgrs.js: the constructors

    Both modules take [LatLonEllipsoidal.datums] from
    latlon-ellipsoidal-datum.js, so the default datum is that module's
    [datums.WGS84]. Zone, easting and northing are Numbers; hemisphere,
    band and the grid-square letters are strings. *)

Module JSText.

(** [s.toUpperCase()] on the letters a to z. *)
Definition upper (c : ascii) : ascii :=
  let n := nat_of_ascii c in
  if Nat.leb 97 n && Nat.leb n 122 then ascii_of_nat (n - 32) else c.

Fixpoint toUpperCase (s : string) : string :=
  match s with
  | EmptyString => EmptyString
  | String c rest => String (upper c) (toUpperCase rest)
  end.

(** [s.match(/[NS]/i)] as a condition: some character of [s] is one of
    N, S, n, s. *)
Fixpoint matchNS (s : string) : bool :=
  match s with
  | EmptyString => false
  | String c rest =>
      Ascii.eqb c "N" || Ascii.eqb c "S" || Ascii.eqb c "n"
      || Ascii.eqb c "s" || matchNS rest
  end.

(** [letters.indexOf(c) == -1] for a string [c] of one character. *)
Fixpoint has (letters : string) (c : ascii) : bool :=
  match letters with
  | EmptyString => false
  | String d rest => Ascii.eqb d c || has rest c
  end.

(** [c.length != 1 || letters.indexOf(c) == -1]. *)
Definition not_one_of (letters c : string) : bool :=
  match c with
  | String ch EmptyString => negb (has letters ch)
  | _ => true
  end.

(** [errors.join(', ')]. *)
Fixpoint join (errors : list string) : string :=
  match errors with
  | [] => EmptyString
  | [e] => e
  | e :: rest => e ++ ", " ++ join rest
  end.

End JSText.

Module Utm.

(** A UTM coordinate; [convergence] and [scale] are [None] when null. *)
Record t : Type := mk {
  zone : float;
  hemisphere : string;
  easting : float;
  northing : float;
  datum : Datum;
  convergence : option float;
  scale : option float
}.

(** [1 <= zone && zone <= 60]. *)
Definition zone_in_range (zone : float) : bool :=
  (1 <=? zone) && (zone <=? 60).

(** [parseInt(zone)] on a Number from 1 to 60, whose decimal text has no
    exponent: the digits before the point. *)
Definition parseInt (zone : float) : float := JSMath.trunc zone.

(** [new Utm(zone, hemisphere, easting, northing,
             datum = LatLonEllipsoidal.datums.WGS84, convergence = null,
             scale = null, verifyEN = true)]; [datum] is [None] when it is
    omitted or undefined. *)
Definition new (zone : float) (hemisphere : string)
           (easting northing : float) (datum : option Datum)
           (convergence scale : option float) (verifyEN : bool)
  : result t :=
  let datum :=
    match datum with
    | Some d => d
    | None => DatumModule.datums_WGS84
    end in
  if negb (zone_in_range zone) then Throw (RangeError "invalid UTM zone")
  else if JS.neq zone (parseInt zone)
  then Throw (RangeError "invalid UTM zone")
  else if negb (JSText.matchNS hemisphere)
  then Throw (RangeError "invalid UTM hemisphere")
  else if verifyEN && negb ((0 <=? easting) && (easting <=? 1000e3))
  then Throw (RangeError "invalid UTM easting")
  else if verifyEN && String.eqb (JSText.toUpperCase hemisphere) "N"
          && negb ((0 <=? northing) && (northing <? 9329006))
  then Throw (RangeError "invalid UTM northing")
  else if verifyEN && String.eqb (JSText.toUpperCase hemisphere) "S"
          && negb ((1116914 <? northing) && (northing <=? 10000e3))
  then Throw (RangeError "invalid UTM northing")
  else if DatumModule.unrecognised (Some datum)
  then Throw (TypeError "unrecognised datum")
  else Ok (mk zone (JSText.toUpperCase hemisphere) easting northing datum
              convergence scale).

End Utm.

Module Mgrs.

Definition latBands : string := "CDEFGHJKLMNPQRSTUVWXX".

Definition e100kLetters : list string := ["ABCDEFGH"; "JKLMNPQR"; "STUVWXYZ"].

Definition n100kLetters : list string :=
  ["ABCDEFGHJKLMNPQRSTUV"; "FGHJKLMNPQRSTUVABCDE"].

(** An MGRS grid reference. *)
Record t : Type := mk {
  zone : float;
  band : string;
  e100k : string;
  n100k : string;
  easting : float;
  northing : float;
  datum : Datum
}.

(** [cond ? [message] : []]: what one check adds to [errors]. *)
Definition check (failed : bool) (message : string) : list string :=
  if failed then [message] else [].

(** [letters[i].indexOf(c)] read for [c.length != 1 || ... == -1]; an
    undefined [letters[i]] throws. *)
Definition column_check (i : float) (c : string) : result bool :=
  match JSMath.index e100kLetters i with
  | Some letters => Ok (JSText.not_one_of letters c)
  | None =>
      match c with
      | String _ EmptyString =>
          Throw (TypeError "cannot read properties of undefined")
      | _ => Ok true
      end
  end.

(** [new Mgrs(zone, band, e100k, n100k, easting, northing,
              datum = LatLonEllipsoidal.datums.WGS84)]. *)
Definition new (zone : float) (band e100k n100k : string)
           (easting northing : float) (datum : option Datum) : result t :=
  let datum :=
    match datum with
    | Some d => d
    | None => DatumModule.datums_WGS84
    end in
  if negb (Utm.zone_in_range zone) then Throw (RangeError "invalid MGRS zone")
  else if JS.neq zone (Utm.parseInt zone)
  then Throw (RangeError "invalid MGRS zone")
  else
    let* bad_column := column_check ((zone - 1) %% 3) e100k in
    let errors :=
     (check (JSText.not_one_of latBands band) "invalid MGRS band"
      ++ check bad_column "invalid MGRS 100km grid square column"
      ++ check (JSText.not_one_of (nth 0 n100kLetters EmptyString) n100k)
               "invalid MGRS 100km grid square row"
      ++ check (JS.isNaN easting) "invalid MGRS easting"
      ++ check (JS.isNaN northing) "invalid MGRS northing"
      ++ check ((easting <? 0) || (99999 <? easting)) "invalid MGRS easting"
      ++ check ((northing <? 0) || (99999 <? northing))
               "invalid MGRS northing"
      ++ check (DatumModule.unrecognised (Some datum))
               "unrecognised datum")%list in
    match errors with
    | _ :: _ => Throw (RangeError (JSText.join errors))
    | [] =>
        Ok (mk zone band e100k n100k (JSMath.floor easting)
               (JSMath.floor northing) datum)
    end.

End Mgrs.

(* ================================================================== *)
(** ** latlon-nvector-ellipsoidal.js: n-vectors and local deltas

    The module takes [LatLonEllipsoidal], [Cartesian] and [Vector3d] from
    latlon-ellipsoidal.js; its classes declare no constructor but
    [NvectorEllipsoidal] and [Ned]. *)

Module Nvector.

(** An [NvectorEllipsoidal]: a vector with [h] and [datum]. *)
Record t : Type := mk {
  x : float;
  y : float;
  z : float;
  h : float;
  datum : Datum
}.

(** A [Ned]: north, east, down. *)
Record Ned : Type := mkNed {
  north : float;
  east : float;
  down : float
}.

(** The vector of an n-vector, and of a Cartesian point. *)
Definition vector (n : t) : Vector3d.t := Vector3d.mk (x n) (y n) (z n).
Definition vector_of (c : Cartesian.t) : Vector3d.t :=
  Vector3d.mk (Cartesian.x c) (Cartesian.y c) (Cartesian.z c).

(** [new NvectorEllipsoidal(x, y, z, h = 0,
                            datum = LatLonEllipsoidal.datums.WGS84)]; an
    argument is [None] when it is omitted or undefined. *)
Definition new (x y z : float) (h : option float) (datum : option Datum)
  : result t :=
  let h := match h with Some v => v | None => 0 end in
  let datum := match datum with Some d => d | None => BaseWGS84 end in
  let* v := Vector3d.new x y z in
  let* u := Vector3d.unit v in
  let* s := Vector3d.new (Vector3d.x u) (Vector3d.y u) (Vector3d.z u) in
  Ok (mk (Vector3d.x s) (Vector3d.y s) (Vector3d.z s) h datum).

(** [Cartesian.prototype.toLatLon()] with its default ellipsoid, under a
    name that the method of the n-vector below does not hide. *)
Definition cartesian_toLatLon {M : Math.Lib} (c : Cartesian.t)
  : result LatLonEllipsoidal.t := toLatLon c None.

(** [new Ned(north, east, down)]. *)
Definition newNed (north east down : float) : Ned := mkNed north east down.

Section Methods.

Context {M : Math.Lib}.

(** [LatLon_NvectorEllipsoidal.prototype.toNvector()]: the fourth
    argument is [this.h], a property no point has. *)
Definition toNvector (this : LatLonEllipsoidal.t) : result t :=
  let φ := JS.toRadians (LatLonEllipsoidal.lat this) in
  let λ := JS.toRadians (LatLonEllipsoidal.lon this) in
  let sinφ := Math.sin φ in
  let cosφ := Math.cos φ in
  let sinλ := Math.sin λ in
  let cosλ := Math.cos λ in
  let x := cosφ * cosλ in
  let y := cosφ * sinλ in
  let z := sinφ in
  new x y z None (LatLonEllipsoidal.datum this).

(** [LatLon_NvectorEllipsoidal.prototype.toCartesian()]. *)
Definition toCartesian (this : LatLonEllipsoidal.t) : result Cartesian.t :=
  let* c := toCartesian this in
  Cartesian.new (Cartesian.x c) (Cartesian.y c) (Cartesian.z c).

(** [NvectorEllipsoidal.prototype.toLatLon()]: the class of the point has
    the constructor of [LatLonEllipsoidal], of three parameters. *)
Definition toLatLon (this : t) : result LatLonEllipsoidal.t :=
  let x := x this in
  let y := y this in
  let z := z this in
  let φ := Math.atan2 z (JS.sqrt (x * x + y * y)) in
  let λ := Math.atan2 y x in
  LatLonEllipsoidal.new (JS.toDegrees φ) (JS.toDegrees λ) (h this).

(** [NvectorEllipsoidal.prototype.toCartesian()]. *)
Definition nvector_toCartesian (this : t) : result Cartesian.t :=
  match DatumProps.ellipsoid (datum this) with
  | None => Throw (TypeError "cannot destructure undefined")
  | Some el =>
      let b := Ellipsoid.b el in
      let f := Ellipsoid.f el in
      let x := x this in
      let y := y this in
      let z := z this in
      let h := h this in
      let m := (1 - f) * (1 - f) in
      let n := b / JS.sqrt (x * x / m + y * y / m + z * z) in
      let xʹ := n * x / m + x * h in
      let yʹ := n * y / m + y * h in
      let zʹ := n * z + z * h in
      Cartesian.new xʹ yʹ zʹ
  end.

(** [LatLon_NvectorEllipsoidal.prototype.deltaTo(point)], [point] a point
    of the same class. *)
Definition deltaTo (this point : LatLonEllipsoidal.t) : result Ned :=
  let* c1 := toCartesian this in
  let* c2 := toCartesian point in
  let* δc := Vector3d.minus (vector_of c2) (vector_of c1) in
  let* n1 := toNvector this in
  let* a := Vector3d.new 0 0 1 in
  let* d := Vector3d.negate (vector n1) in
  let* e0 := Vector3d.cross a (vector n1) in
  let* e := Vector3d.unit e0 in
  let* n := Vector3d.cross e d in
  let r00 := Vector3d.x n in
  let r01 := Vector3d.y n in
  let r02 := Vector3d.z n in
  let r10 := Vector3d.x e in
  let r11 := Vector3d.y e in
  let r12 := Vector3d.z e in
  let r20 := Vector3d.x d in
  let r21 := Vector3d.y d in
  let r22 := Vector3d.z d in
  let* δn :=
    Cartesian.new
      (r00 * Vector3d.x δc + r01 * Vector3d.y δc + r02 * Vector3d.z δc)
      (r10 * Vector3d.x δc + r11 * Vector3d.y δc + r12 * Vector3d.z δc)
      (r20 * Vector3d.x δc + r21 * Vector3d.y δc + r22 * Vector3d.z δc) in
  Ok (newNed (Cartesian.x δn) (Cartesian.y δn) (Cartesian.z δn)).

(** [LatLon_NvectorEllipsoidal.prototype.destinationPoint(delta)]. *)
Definition destinationPoint (this : LatLonEllipsoidal.t) (delta : Ned)
  : result LatLonEllipsoidal.t :=
  let* δn := Vector3d.new (north delta) (east delta) (down delta) in
  let* n1 := toNvector this in
  let* a := Vector3d.new 0 0 1 in
  let* d := Vector3d.negate (vector n1) in
  let* e0 := Vector3d.cross a (vector n1) in
  let* e := Vector3d.unit e0 in
  let* n := Vector3d.cross e d in
  let r00 := Vector3d.x n in
  let r01 := Vector3d.x e in
  let r02 := Vector3d.x d in
  let r10 := Vector3d.y n in
  let r11 := Vector3d.y e in
  let r12 := Vector3d.y d in
  let r20 := Vector3d.z n in
  let r21 := Vector3d.z e in
  let r22 := Vector3d.z d in
  let* δc :=
    Cartesian.new
      (r00 * Vector3d.x δn + r01 * Vector3d.y δn + r02 * Vector3d.z δn)
      (r10 * Vector3d.x δn + r11 * Vector3d.y δn + r12 * Vector3d.z δn)
      (r20 * Vector3d.x δn + r21 * Vector3d.y δn + r22 * Vector3d.z δn) in
  let* c1 := toCartesian this in
  let* v2 := Vector3d.plus (vector_of c1) (vector_of δc) in
  let* c2 := Cartesian.new (Vector3d.x v2) (Vector3d.y v2) (Vector3d.z v2) in
  cartesian_toLatLon c2.

(** [Ned.prototype.length] and [Ned.prototype.bearing]. *)
Definition length (this : Ned) : float :=
  JS.sqrt (north this * north this + east this * east this
           + down this * down this).

Definition bearing (this : Ned) : float :=
  let θ := Math.atan2 (east this) (north this) in
  Dms.wrap360 (JS.toDegrees θ).

End Methods.

End Nvector.

(* ================================================================== *)
(** ** osgridref.js: Ordnance Survey grid references

    The module takes [LatLonEllipsoidal] from latlon-ellipsoidal-datum.js,
    so its points are those of [LatLonEllipsoidal_Datum], and it reads
    [datums.OSGB36] and [ellipsoids.Airy1830] off the tables of that
    module. [Math.pow] is implementation-approximated like the functions
    of [Math.Lib], and a parameter. *)

Module OsGridRef.

(** [table[key]] on a table of the datum module: the entry, or undefined. *)
Definition lookup_ellipsoid (key : string) : option Ellipsoid.t :=
  match find (fun kv => String.eqb (fst kv) key) DatumModule.ellipsoids with
  | Some kv => Some (snd kv)
  | None => None
  end.

Definition lookup_datum (key : string) : option Datum :=
  match find (fun kv => String.eqb (fst kv) key) DatumModule.datums with
  | Some kv => Some (DatumEntry (fst kv))
  | None => None
  end.

(** [LatLonEllipsoidal.datums.OSGB36] and [LatLonEllipsoidal.datums.WGS84]. *)
Definition datums_OSGB36 : option Datum := lookup_datum "OSGB36".
Definition datums_WGS84 : option Datum := lookup_datum "WGS84".

(** [const nationalGrid]. *)
Definition trueOrigin_lat : float := 49.
Definition trueOrigin_lon : float := -2.
Definition falseOrigin_easting : float := -400e3.
Definition falseOrigin_northing : float := 100e3.
Definition scaleFactor : float := 0.9996012717.
Definition nationalGrid_ellipsoid : option Ellipsoid.t :=
  lookup_ellipsoid "Airy1830".

(** An [OsGridRef]. *)
Record t : Type := mk { easting : float; northing : float }.

(** [new OsGridRef(easting, northing)] on Numbers. *)
Definition new (easting northing : float) : result t :=
  if JS.isNaN easting || (easting <? 0) || (700e3 <? easting)
  then Throw (RangeError "invalid easting")
  else if JS.isNaN northing || (northing <? 0) || (1300e3 <? northing)
  then Throw (RangeError "invalid northing")
  else Ok (mk easting northing).

(** [a != b] and [a == b] on datum objects that may be undefined. *)
Definition differ (a b : option Datum) : bool :=
  LatLonEllipsoidalMethods.differ_datum a b.

Section Methods.

Context {M : Math.Lib}.

Variable pow : float -> float -> float.

(** [new LatLon_OsGridRef(lat, lon, height, datum)]: the class declares no
    constructor, so that of [LatLonEllipsoidal_Datum] runs. *)
Definition newLatLon (lat lon height : float) (datum : option Datum)
  : result LatLonEllipsoidal.t :=
  LatLonEllipsoidal_Datum.new lat lon height datum.

(** [LatLon_OsGridRef.prototype.convertDatum(toDatum)]. *)
Definition convertDatum (this : LatLonEllipsoidal.t)
           (toDatum : option Datum) : result LatLonEllipsoidal.t :=
  let* osgbED := LatLonEllipsoidal_Datum.convertDatum this toDatum in
  newLatLon (LatLonEllipsoidal.lat osgbED) (LatLonEllipsoidal.lon osgbED)
            (LatLonEllipsoidal.height osgbED)
            (LatLonEllipsoidal.datum osgbED).

(** The meridional arc [M] of [φ]. *)
Definition arc (b F0 n n2 n3 φ0 φ : float) : float :=
  let Ma := (1 + n + (5 / 4) * n2 + (5 / 4) * n3) * (φ - φ0) in
  let Mb := (3 * n + 3 * n * n + (21 / 8) * n3) * Math.sin (φ - φ0)
            * Math.cos (φ + φ0) in
  let Mc := ((15 / 8) * n2 + (15 / 8) * n3) * Math.sin (2 * (φ - φ0))
            * Math.cos (2 * (φ + φ0)) in
  let Md := (35 / 24) * n3 * Math.sin (3 * (φ - φ0))
            * Math.cos (3 * (φ + φ0)) in
  b * F0 * (Ma - Mb + Mc - Md).

(** [do { φ = (N - N0 - M)/(a*F0) + φ; M = ... }
     while (Math.abs(N - N0 - M) >= 0.00001)], run for at most [fuel]
    passes: [None] when the fuel is used up before the loop leaves. *)
Fixpoint iterate (fuel : nat) (a b F0 n n2 n3 φ0 N N0 φ M_ : float)
  : option (float * float) :=
  match fuel with
  | O => None
  | S fuel' =>
      let φ := (N - N0 - M_) / (a * F0) + φ in
      let M_ := arc b F0 n n2 n3 φ0 φ in
      if 0.00001 <=? JS.abs (N - N0 - M_)
      then iterate fuel' a b F0 n n2 n3 φ0 N N0 φ M_
      else Some (φ, M_)
  end.

(** The latitude and longitude, in radians, that [toLatLon] computes
    before it makes a point of them. *)
Definition angles (fuel : nat) (this : t) (el : Ellipsoid.t)
  : option (float * float) :=
  let E := easting this in
  let N := northing this in
  let a := Ellipsoid.a el in
  let b := Ellipsoid.b el in
  let φ0 := JS.toRadians trueOrigin_lat in
  let λ0 := JS.toRadians trueOrigin_lon in
  let E0 := - falseOrigin_easting in
  let N0 := - falseOrigin_northing in
  let F0 := scaleFactor in
  let e2 := 1 - (b * b) / (a * a) in
  let n := (a - b) / (a + b) in
  let n2 := n * n in
  let n3 := n * n * n in
  match iterate fuel a b F0 n n2 n3 φ0 N N0 φ0 0 with
  | None => None
  | Some (φ, _) =>
      let cosφ := Math.cos φ in
      let sinφ := Math.sin φ in
      let ν := a * F0 / JS.sqrt (1 - e2 * sinφ * sinφ) in
      let ρ := a * F0 * (1 - e2) / pow (1 - e2 * sinφ * sinφ) 1.5 in
      let η2 := ν / ρ - 1 in
      let tanφ := Math.tan φ in
      let tan2φ := tanφ * tanφ in
      let tan4φ := tan2φ * tan2φ in
      let tan6φ := tan4φ * tan2φ in
      let secφ := 1 / cosφ in
      let ν3 := ν * ν * ν in
      let ν5 := ν3 * ν * ν in
      let ν7 := ν5 * ν * ν in
      let VII := tanφ / (2 * ρ * ν) in
      let VIII := tanφ / (24 * ρ * ν3)
                  * (5 + 3 * tan2φ + η2 - 9 * tan2φ * η2) in
      let IX := tanφ / (720 * ρ * ν5) * (61 + 90 * tan2φ + 45 * tan4φ) in
      let X := secφ / ν in
      let XI := secφ / (6 * ν3) * (ν / ρ + 2 * tan2φ) in
      let XII := secφ / (120 * ν5) * (5 + 28 * tan2φ + 24 * tan4φ) in
      let XIIA := secφ / (5040 * ν7)
                  * (61 + 662 * tan2φ + 1320 * tan4φ + 720 * tan6φ) in
      let dE := E - E0 in
      let dE2 := dE * dE in
      let dE3 := dE2 * dE in
      let dE4 := dE2 * dE2 in
      let dE5 := dE3 * dE2 in
      let dE6 := dE4 * dE2 in
      let dE7 := dE5 * dE2 in
      let φ := φ - VII * dE2 + VIII * dE4 - IX * dE6 in
      let λ := λ0 + X * dE - XI * dE3 + XII * dE5 - XIIA * dE7 in
      Some (φ, λ)
  end.

(** [OsGridRef.prototype.toLatLon(datum = LatLonEllipsoidal.datums.WGS84)]
    with [fuel] passes allowed for its loop; [datum] is [None] when it is
    omitted or undefined. *)
Definition toLatLon (fuel : nat) (this : t) (datum : option Datum)
  : option (result LatLonEllipsoidal.t) :=
  let datum := match datum with Some d => Some d | None => datums_WGS84 end in
  match nationalGrid_ellipsoid with
  | None => Some (Throw (TypeError "cannot destructure undefined"))
  | Some el =>
      match angles fuel this el with
      | None => None
      | Some (φ, λ) =>
          Some (let* point :=
                  newLatLon (JS.toDegrees φ) (JS.toDegrees λ) 0
                            datums_OSGB36 in
                if differ datum datums_OSGB36
                then
                  let* point := convertDatum point datum in
                  newLatLon (LatLonEllipsoidal.lat point)
                            (LatLonEllipsoidal.lon point)
                            (LatLonEllipsoidal.height point)
                            (LatLonEllipsoidal.datum point)
                else Ok point)
      end
  end.

(** The easting and northing that [toOsGrid] computes for a point on
    OSGB36, before it makes a grid reference of them. *)
Definition grid (point : LatLonEllipsoidal.t) (el : Ellipsoid.t)
  : float * float :=
  let φ := JS.toRadians (LatLonEllipsoidal.lat point) in
  let λ := JS.toRadians (LatLonEllipsoidal.lon point) in
  let a := Ellipsoid.a el in
  let b := Ellipsoid.b el in
  let φ0 := JS.toRadians trueOrigin_lat in
  let λ0 := JS.toRadians trueOrigin_lon in
  let E0 := - falseOrigin_easting in
  let N0 := - falseOrigin_northing in
  let F0 := scaleFactor in
  let e2 := 1 - (b * b) / (a * a) in
  let n := (a - b) / (a + b) in
  let n2 := n * n in
  let n3 := n * n * n in
  let cosφ := Math.cos φ in
  let sinφ := Math.sin φ in
  let ν := a * F0 / JS.sqrt (1 - e2 * sinφ * sinφ) in
  let ρ := a * F0 * (1 - e2) / pow (1 - e2 * sinφ * sinφ) 1.5 in
  let η2 := ν / ρ - 1 in
  let M_ := arc b F0 n n2 n3 φ0 φ in
  let cos3φ := cosφ * cosφ * cosφ in
  let cos5φ := cos3φ * cosφ * cosφ in
  let tan2φ := Math.tan φ * Math.tan φ in
  let tan4φ := tan2φ * tan2φ in
  let I := M_ + N0 in
  let II := (ν / 2) * sinφ * cosφ in
  let III := (ν / 24) * sinφ * cos3φ * (5 - tan2φ + 9 * η2) in
  let IIIA := (ν / 720) * sinφ * cos5φ * (61 - 58 * tan2φ + tan4φ) in
  let IV := ν * cosφ in
  let V := (ν / 6) * cos3φ * (ν / ρ - tan2φ) in
  let VI := (ν / 120) * cos5φ
            * (5 - 18 * tan2φ + tan4φ + 14 * η2 - 58 * tan2φ * η2) in
  let Δλ := λ - λ0 in
  let Δλ2 := Δλ * Δλ in
  let Δλ3 := Δλ2 * Δλ in
  let Δλ4 := Δλ3 * Δλ in
  let Δλ5 := Δλ4 * Δλ in
  let Δλ6 := Δλ5 * Δλ in
  let N := I + II * Δλ2 + III * Δλ4 + IIIA * Δλ6 in
  let E := E0 + IV * Δλ + V * Δλ3 + VI * Δλ5 in
  let N := JSMath.toFixed N 3 in
  let E := JSMath.toFixed E 3 in
  (E, N).

(** [LatLon_OsGridRef.prototype.toOsGrid()]; an exception of the
    constructor of the grid reference is caught and thrown again as an
    [Error]. *)
Definition toOsGrid (this : LatLonEllipsoidal.t) : result t :=
  let* point :=
    if differ (LatLonEllipsoidal.datum this) datums_OSGB36
    then convertDatum this datums_OSGB36
    else Ok this in
  match nationalGrid_ellipsoid with
  | None => Throw (TypeError "cannot destructure undefined")
  | Some el =>
      let '(E, N) := grid point el in
      match new E N with
      | Ok g => Ok g
      | Throw _ => Throw (Error "invalid easting or northing from toOsGrid")
      end
  end.

End Methods.

End OsGridRef.

(* ================================================================== *)
(** ** The Visual Basic module VincentyDirectInverse: Direct

    The class inherits from a [LatLonEllipsoidal] whose constructor takes
    a datum and which has the properties [Latitude], [Longitude],
    [Height] and [Datum]; no source file holds that class, so the
    constructor is a parameter and a point is the record of the four
    properties. Visual Basic compares names without regard to case, so
    [Dim A] and [Dim B] declare again the locals [a] and [b], which its
    compiler refuses; the four are read here as the distinct variables
    they are in the JavaScript original, and what is proved of [Direct]
    holds whatever the values of [A] and [B]. *)

Module VBDirect.

(** The exceptions of the module, and any other, by its type name. *)
Inductive Exception : Type :=
| EvalException (msg : string)
| ArgumentException (msg : string)
| ArgumentOutOfRangeException (msg : string)
| NullReferenceException
| OtherException (type msg : string).

(** [TypeOf e Is EvalException]. *)
Definition isEvalException (e : Exception) : bool :=
  match e with EvalException _ => true | _ => false end.

(** A call that returns or raises. *)
Inductive outcome (A : Type) : Type :=
| Return (a : A)
| Raise (e : Exception).
Arguments Return {A} a.
Arguments Raise {A} e.

(** A datum object: its property [Ellipsoid], [None] when [Nothing]. *)
Record Datum : Type := mkDatum { Ellipsoid : option Ellipsoid.t }.

(** A point: [Latitude], [Longitude], [Height] and [Datum] ([None] when
    [Nothing]). *)
Record Point : Type := mkPoint {
  Latitude : float;
  Longitude : float;
  Height : float;
  Datum_ : option Datum
}.

(** The anonymous object [Direct] returns. *)
Record DirectResult : Type := mkResult {
  Point_ : Point;
  FinalBearing : float;
  Iterations : Z
}.

(** The variables of the [Do ... Loop While]. *)
Record Loop : Type := mkLoop {
  σ : float;
  sinσ : float;
  cosσ : float;
  cos2σₘ : float;
  σʹ : float;
  iterations : Z
}.

(** [LatLonEllipsoidal.Ellipsoids.WGS84]. *)
Definition Ellipsoids_WGS84 : Ellipsoid.t :=
  Ellipsoid.mk 6378137 6356752.314245 (1 / 298.257223563).

(** [Dms.Wrap360] of the module. *)
Definition Wrap360 (degrees : float) : float :=
  if degrees <? 0 then (degrees %% 360) + 360 else degrees %% 360.

Section Direct.

Context {M : Math.Lib}.

(** [New LatLonEllipsoidal_Vincenty(latitude, longitude, height, datum)],
    which calls the constructor of the base class. *)
Variable New : float -> float -> float -> option Datum -> outcome Point.

(** The constants the loop reads. *)
Variables (s b A B σ1 : float).

(** The body of the loop; it does not assign [iterations]. *)
Definition pass (st : Loop) : Loop :=
  let cos2σₘ := Math.cos (2 * σ1 + σ st) in
  let sinσ := Math.sin (σ st) in
  let cosσ := Math.cos (σ st) in
  let Δσ :=
    B * sinσ * (cos2σₘ + B / 4 *
      (cosσ * (-1 + 2 * cos2σₘ * cos2σₘ) -
       B / 6 * cos2σₘ * (-3 + 4 * sinσ * sinσ) *
         (-3 + 4 * cos2σₘ * cos2σₘ))) in
  mkLoop (s / (b * A) + Δσ) sinσ cosσ cos2σₘ (σ st) (iterations st).

(** [Math.Abs(σ - σʹ) > 1e-12 AndAlso iterations < 100]. *)
Definition continues (st : Loop) : bool :=
  (1e-12 <? JS.abs (σ st - σʹ st)) && (iterations st <? 100)%Z.

(** [Do body Loop While continues], run for at most [fuel] passes:
    [None] when the fuel is used up before the loop leaves. *)
Fixpoint loop (fuel : nat) (st : Loop) : option Loop :=
  match fuel with
  | O => None
  | S fuel' =>
      let st1 := pass st in
      if continues st1 then loop fuel' st1 else Some st1
  end.

End Direct.

Section DirectCall.

Context {M : Math.Lib}.

Variable New : float -> float -> float -> option Datum -> outcome Point.

(** [Direct(distance, initialBearing)] with [fuel] passes allowed for its
    loop: [None] when the loop has not left within the fuel. *)
Definition Direct (fuel : nat) (Me : Point)
           (distance initialBearing : float)
  : option (outcome DirectResult) :=
  if JS.isNaN distance
  then Some (Raise (ArgumentException "Invalid distance"))
  else if JS.eq distance 0 then Some (Return (mkResult Me nan 0))
  else if JS.isNaN initialBearing
  then Some (Raise (ArgumentException "Invalid bearing"))
  else if JS.neq (Height Me) 0
  then Some (Raise (ArgumentOutOfRangeException
                      "Point must be on the surface of the ellipsoid"))
  else
    let φ1 := JS.toRadians (Latitude Me) in
    let λ1 := JS.toRadians (Longitude Me) in
    let α1 := JS.toRadians initialBearing in
    let s := distance in
    let ellipsoid :=
      match Datum_ Me with
      | Some d => Ellipsoid d
      | None => Some Ellipsoids_WGS84
      end in
    match ellipsoid with
    | None => Some (Raise NullReferenceException)
    | Some el =>
        let a := Ellipsoid.a el in
        let b := Ellipsoid.b el in
        let f := Ellipsoid.f el in
        let sinα1 := Math.sin α1 in
        let cosα1 := Math.cos α1 in
        let tanU1 := (1 - f) * Math.tan φ1 in
        let cosU1 := 1 / JS.sqrt (1 + tanU1 * tanU1) in
        let sinU1 := tanU1 * cosU1 in
        let σ1 := Math.atan2 tanU1 cosα1 in
        let sinα := cosU1 * sinα1 in
        let cosSqα := 1 - sinα * sinα in
        let uSq := cosSqα * (a * a - b * b) / (b * b) in
        let A := 1 + uSq / 16384 *
                     (4096 + uSq * (-768 + uSq * (320 - 175 * uSq))) in
        let B := uSq / 1024 *
                 (256 + uSq * (-128 + uSq * (74 - 47 * uSq))) in
        match loop s b A B σ1 fuel (mkLoop (s / (b * A)) 0 0 0 0 0) with
        | None => None
        | Some st =>
            if (100 <=? iterations st)%Z
            then Some (Raise (EvalException
                                "Vincenty formula failed to converge"))
            else
              let σ := σ st in
              let sinσ := sinσ st in
              let cosσ := cosσ st in
              let cos2σₘ := cos2σₘ st in
              let x := sinU1 * sinσ - cosU1 * cosσ * cosα1 in
              let φ2 :=
                Math.atan2 (sinU1 * cosσ + cosU1 * sinσ * cosα1)
                           ((1 - f) * JS.sqrt (sinα * sinα + x * x)) in
              let λ :=
                Math.atan2 (sinσ * sinα1)
                           (cosU1 * cosσ - sinU1 * sinσ * cosα1) in
              let C := f / 16 * cosSqα * (4 + f * (4 - 3 * cosSqα)) in
              let L := λ - (1 - C) * f * sinα *
                         (σ + C * sinσ *
                            (cos2σₘ + C * cosσ *
                               (-1 + 2 * cos2σₘ * cos2σₘ))) in
              let λ2 := λ1 + L in
              let α2 := Math.atan2 sinα (- x) in
              match New (JS.toDegrees φ2) (JS.toDegrees λ2) 0 (Datum_ Me) with
              | Raise e => Some (Raise e)
              | Return destinationPoint =>
                  Some (Return (mkResult destinationPoint
                                         (Wrap360 (JS.toDegrees α2))
                                         (iterations st)))
              end
        end
    end.

(** [DestinationPoint(distance, initialBearing)]. *)
Definition DestinationPoint (fuel : nat) (Me : Point)
           (distance initialBearing : float) : option (outcome Point) :=
  match Direct fuel Me distance initialBearing with
  | None => None
  | Some (Raise e) => Some (Raise e)
  | Some (Return r) => Some (Return (Point_ r))
  end.

End DirectCall.

End VBDirect.

(* ================================================================== *)
(** ** Predicates of the statements, and the inputs the examples run on *)

Module Samples.
Import Vincenty.

(** The origin and the journey of the worked example: Land's End towards
    John o' Groats. *)
Definition landsEnd : LatLonEllipsoidal.t :=
  LatLonEllipsoidal.mk 50.06632 (-5.71475) 0 None None None.

(** A point above the surface. *)
Definition raised : LatLonEllipsoidal.t :=
  LatLonEllipsoidal.mk 51 0 5 None None None.

(** A point whose datum was set through the setter. *)
Definition tagged : LatLonEllipsoidal.t :=
  LatLonEllipsoidal.set_datum landsEnd (Some BaseWGS84).

(** A point on an ellipsoid so flat that the series for [B] is far from
    small. *)
Definition flat : LatLonEllipsoidal.t :=
  LatLonEllipsoidal.set_datum landsEnd
    (Some (DatumObject 7 (Some (Ellipsoid.mk 1 0.001 0.999)) None)).

(** The setup of the worked example, past the guards. *)
Definition landsEnd_setup : Setup :=
  Eval vm_compute in
    match @prepare Ref.math landsEnd 969954.166 9.1419 with
    | Ok (Some su) => su
    | _ => mkSetup 0 0 0 0 0 0 0 0 0 0 0 0 0 0
    end.


(** An [Inverse] that fails to converge between distinct points and
    rejects a point paired with itself. *)
Definition stubborn (p q : nat) : VB.outcome VB.InverseResult :=
  if Nat.eqb p q then VB.Raise (VB.ArgumentException "same point")
  else VB.Raise (VB.EvalError "Vincenty formula failed to converge").

(** [const ellipsoids] and some of [const referenceFrames] of the
    reference-frame module. *)
Definition GRS80 : Ellipsoid.t :=
  Ellipsoid.mk 6378137 6356752.314140 (1 / 298.257222101).
Definition WGS84 : Ellipsoid.t :=
  Ellipsoid.mk 6378137 6356752.314245 (1 / 298.257223563).
Definition ITRF2014 : Frame.t := Frame.mk "ITRF2014" (Some 2010) (Some GRS80).
Definition ITRF2008 : Frame.t := Frame.mk "ITRF2008" (Some 2005) (Some GRS80).
Definition ITRF2005 : Frame.t := Frame.mk "ITRF2005" (Some 2000) (Some GRS80).
Definition WGS84g1762 : Frame.t :=
  Frame.mk "WGS84g1762" (Some 2005) (Some WGS84).
Definition NAD83 : Frame.t := Frame.mk "NAD83" (Some 1997) (Some GRS80).

(** A table of two entries in the layout the code reads: epoch, seven
    parameters, seven rates. *)
Definition sampleTable : list (string * ReferenceFrameModule.Tx) :=
  [ ("ITRF2014→ITRF2008",
     ReferenceFrameModule.mkTx 2010 [1.6; 1.9; 2.4; -0.02; 0; 0; 0]
                               [0; 0; -0.1; 0.03; 0; 0; 0]);
    ("ITRF2008→ITRF2005",
     ReferenceFrameModule.mkTx 2005 [-0.5; -0.9; -4.7; 0.94; 0; 0; 0]
                               [0.3; 0; 0; 0; 0; 0; 0]) ].

(** A point tagged ITRF2014, observed in 2012. *)
Definition station : Cartesian.t :=
  Cartesian.mk 4027893.924 307041.993 4919474.294 None (Some ITRF2014)
               (Some 2012).

(** Datum objects of a caller, with an ellipsoid and a transform each, as
    the table of the original library has them. *)
Definition Airy1830 : Ellipsoid.t :=
  Ellipsoid.mk 6377563.396 6356256.909 (1 / 299.3249646).
Definition Intl1924 : Ellipsoid.t :=
  Ellipsoid.mk 6378388 6356911.946128 (1 / 297).
Definition OSGB36 : Datum :=
  DatumObject 1 (Some Airy1830)
    (Some [-446.448; 125.157; -542.06; 20.4894; -0.1502; -0.247; -0.8421]).
Definition ED50 : Datum :=
  DatumObject 2 (Some Intl1924)
    (Some [89.5; 93.8; 123.1; -1.2; 0; 0; 0.156]).

(** A point tagged OSGB36. *)
Definition greenwich : Cartesian.t :=
  Cartesian.mk 3980574.247 (-102.127) 4966830.065 (Some OSGB36) None None.

(** A zero of either sign, or NaN. *)
Definition zero_or_nan (d : float) : Prop :=
  d = zero \/ d = neg_zero \/ d = nan.

(** An infinity of either sign, or NaN. *)
Definition inf_or_nan (t : float) : Prop :=
  t = infinity \/ t = neg_infinity \/ t = nan.

(** A [Math] that differs from the reference one in a single value: the
    cosine of the double nearest to pi/2 is 0 rather than 6.1e-17. *)
Definition coarse : Math.Lib :=
  {| Math.sin := Ref.sin;
     Math.cos := fun x => if x =? JS.PI / 2 then 0 else Ref.cos x;
     Math.tan := Ref.tan;
     Math.atan2 := Ref.atan2 |}.

(** The tests [-90 <= x <= 90] and [-180 <= x <= 180]. *)
Definition in90 (x : float) : bool := (-90 <=? x) && (x <=? 90).
Definition in180 (x : float) : bool := (-180 <=? x) && (x <=? 180).

(** The test [-180 < x <= 180]. *)
Definition in180_open (x : float) : bool := (-180 <? x) && (x <=? 180).

(** The Number of a whole number of degrees (exact below 2^53). *)
Definition degrees (n : Z) : float :=
  if (n <? 0)%Z then - of_uint63 (Uint63Axioms.of_Z (- n))
  else of_uint63 (Uint63Axioms.of_Z n).

(** [test] on every whole number from [-k] to [k]. *)
Fixpoint upto (k : nat) (test : Z -> bool) : bool :=
  match k with
  | O => test 0%Z
  | S k' =>
      test (Z.of_nat k) && test (- Z.of_nat k)%Z && upto k' test
  end.

(** Ten full turns either way, degree by degree. *)
Definition span : nat := 3600.

(** The round trip of a surface point of latitude [lat] and longitude
    [lon] (whole degrees) on the ellipsoid [el], on the reference [Math]:
    whether it comes back within 1e-9 degrees and 1e-6 m. *)
Definition roundtrip_ok (el : Ellipsoid.t) (lat lon : Z) : bool :=
  let p := LatLonEllipsoidal.mk (degrees lat) (degrees lon) 0
             (Some (DatumObject 1 (Some el) None)) None None in
  match (let* c := @toCartesian Ref.math p in
         @toLatLon Ref.math c (Some el)) with
  | Ok q =>
      (JS.abs (LatLonEllipsoidal.lat q - degrees lat) <=? 1e-9)
      && (JS.abs (LatLonEllipsoidal.lon q - degrees lon) <=? 1e-9)
      && (JS.abs (LatLonEllipsoidal.height q) <=? 1e-6)
  | Throw _ => false
  end.

(** C5 as a statement about a [Math]: every surface point of a supported
    ellipsoid, its latitude in [-90, 90] and its longitude in
    [-180, 180], comes back from its Cartesian coordinate within 1e-9
    degrees and 1e-6 m. *)
Definition roundtrip_within (M : Math.Lib) : Prop :=
  forall (key : string) (el : Ellipsoid.t) (lat lon : float),
    In (key, el) DatumModule.ellipsoids ->
    in90 lat = true -> in180 lon = true ->
    exists q,
      (let* c := @toCartesian M
                   (LatLonEllipsoidal.mk lat lon 0
                      (Some (DatumObject 1 (Some el) None)) None None) in
       @toLatLon M c (Some el)) = Ok q /\
      (JS.abs (LatLonEllipsoidal.lat q - lat) <=? 1e-9) = true /\
      (JS.abs (LatLonEllipsoidal.lon q - lon) <=? 1e-9) = true /\
      (JS.abs (LatLonEllipsoidal.height q) <=? 1e-6) = true.

(** Latitudes every 5 degrees from -90 to 90, longitudes every 45 degrees
    from -180 to 180. *)
Definition grid : list (Z * Z) :=
  flat_map (fun i => map (fun j => ((5 * (Z.of_nat i) - 90)%Z,
                                    (45 * (Z.of_nat j) - 180)%Z))
                         (seq 0 9))
           (seq 0 37).

End Samples.

(* ================================================================== *)
(** ** Further inputs the examples run on *)

Module Fixtures.
Import Samples.

(** Greenwich on OSGB36, as a point of [LatLonEllipsoidal_Datum], its
    Cartesian coordinate and the point that comes back from it, on the
    reference [Math]. *)
Definition origin : LatLonEllipsoidal.t :=
  LatLonEllipsoidal.mk 0 0 0 None None None.
Definition centre : Cartesian.t := Cartesian.mk 0 0 0 None None None.

Definition greenwich_point : LatLonEllipsoidal.t :=
  Eval vm_compute in
    match LatLonEllipsoidal_Datum.new 51.4778 (-0.0016) 0 (Some OSGB36) with
    | Ok p => p
    | Throw _ => origin
    end.

Definition greenwich_xyz : Cartesian.t :=
  Eval vm_compute in
    match @LatLonEllipsoidal_Datum.toCartesian Ref.math greenwich_point with
    | Ok c => c
    | Throw _ => centre
    end.

Definition greenwich_back : LatLonEllipsoidal.t :=
  Eval vm_compute in
    match @LatLonEllipsoidal_Datum.toLatLon Ref.math greenwich_xyz None with
    | Ok p => p
    | Throw _ => origin
    end.

(** A station on ITRF2014 observed in 2012, as a point of
    [LatLonEllipsoidal_ReferenceFrame], its Cartesian coordinate, the
    point that comes back from it, and both converted to ITRF2008 with
    the table of the examples. *)
Definition station_point : LatLonEllipsoidal.t :=
  Eval vm_compute in
    match LatLonEllipsoidal_ReferenceFrame.new 51.4778 (-0.0016) 0
            (Some ITRF2014) (Some 2012) with
    | Ok p => p
    | Throw _ => origin
    end.

Definition station_xyz : Cartesian.t :=
  Eval vm_compute in
    match @LatLonEllipsoidal_ReferenceFrame.toCartesian
            Ref.math station_point with
    | Ok c => c
    | Throw _ => centre
    end.

Definition station_back : LatLonEllipsoidal.t :=
  Eval vm_compute in
    match @LatLonEllipsoidal_ReferenceFrame.toLatLon
            Ref.math station_xyz with
    | Ok p => p
    | Throw _ => origin
    end.

Definition station_2008 : Cartesian.t :=
  Eval vm_compute in
    match ReferenceFrameModule.convertReferenceFrame
            sampleTable station (Some ITRF2008) with
    | Ok c => c
    | Throw _ => centre
    end.

Definition station_point_2008 : LatLonEllipsoidal.t :=
  Eval vm_compute in
    match @LatLonEllipsoidal_ReferenceFrame.convertReferenceFrame
            Ref.math sampleTable station_point (Some ITRF2008) with
    | Ok p => p
    | Throw _ => origin
    end.

(** Land's End as a point of the Visual Basic class, and a constructor
    that stores its arguments. *)
Definition vb_landsEnd : VBDirect.Point :=
  VBDirect.mkPoint 50.06632 (-5.71475) 0 None.

Definition vb_New (latitude longitude height : float)
           (datum : option VBDirect.Datum) : VBDirect.outcome VBDirect.Point :=
  VBDirect.Return (VBDirect.mkPoint latitude longitude height datum).

(** The sawtooth and the triangle wave on whole degrees, in integers;
    inside the closed range the argument itself. *)
Definition saw360 (n : Z) : Z := (n mod 360)%Z.

Definition saw180 (n : Z) : Z :=
  if ((-180 <=? n) && (n <=? 180))%Z then n
  else ((n + 180) mod 360 - 180)%Z.

Definition tri90 (n : Z) : Z :=
  if ((-90 <=? n) && (n <=? 90))%Z then n
  else (Z.abs ((n - 90) mod 360 - 180) - 90)%Z.

(** Whether the three wraps of [n] degrees are the Numbers of the
    integer waves. *)
Definition wraps_exact (n : Z) : bool :=
  PrimFloat.Leibniz.eqb (Dms.wrap360 (degrees n)) (degrees (saw360 n))
  && PrimFloat.Leibniz.eqb (Dms.wrap180 (degrees n)) (degrees (saw180 n))
  && PrimFloat.Leibniz.eqb (Dms.wrap90 (degrees n)) (degrees (tri90 n)).

(** The compass point of a bearing of [n] degrees out of [points]
    (4, 8 or 16), in integers: the sector nearest to the bearing, a tie
    going clockwise. *)
Definition sector (points n : Z) : nat :=
  Z.to_nat (((2 * (n mod 360) * points + 360) / 720) mod points
            * (16 / points))%Z.

(** Whether [compassPoint] of [n] degrees at [precision] is that compass
    point out of [points]. *)
Definition compass_same (precision : float) (points n : Z) : bool :=
  match DmsCompass.compassPoint (degrees n) precision,
        nth_error DmsCompass.cardinals (sector points n) with
  | Ok (Some c), Some d => String.eqb c d
  | _, _ => false
  end.

Definition compass_exact (n : Z) : bool :=
  compass_same 1 4 n && compass_same 2 8 n && compass_same 3 16 n.

(** Two full turns either way, degree by degree. *)
Definition turns : nat := 720.

(** [ellipsoids.Airy1830], the ellipsoid of the national grid. *)
Definition airy : Ellipsoid.t :=
  Ellipsoid.mk 6377563.396 6356256.909 (1 / 299.3249646).

(** A datum object with an ellipsoid, which the constructors accept, and
    a point of [LatLon_OsGridRef] on it. *)
Definition airy_datum : Datum := DatumObject 1 (Some airy) None.

Definition caister : LatLonEllipsoidal.t :=
  LatLonEllipsoidal.mk 52.65757030139 1.71792158333 0 (Some airy_datum)
                       None None.

(** The same place with no datum, and its grid reference in the worked
    example of the Ordnance Survey. *)
Definition caister_bare : LatLonEllipsoidal.t :=
  LatLonEllipsoidal.set_datum caister None.

Definition caister_grid : OsGridRef.t := OsGridRef.mk 651409.903 313177.270.

(** A [Math.pow] for the exponent 1.5. *)
Definition pow_root (x y : float) : float := x * JS.sqrt x.

(** The loop of [OsGridRef.prototype.toLatLon] on the northing [N], on
    the reference [Math]. *)
Definition grid_loop (fuel : nat) (N : float) : option (float * float) :=
  let a := Ellipsoid.a airy in
  let b := Ellipsoid.b airy in
  let φ0 := JS.toRadians OsGridRef.trueOrigin_lat in
  let N0 := - OsGridRef.falseOrigin_northing in
  let F0 := OsGridRef.scaleFactor in
  let n := (a - b) / (a + b) in
  let n2 := n * n in
  let n3 := n * n * n in
  @OsGridRef.iterate Ref.math fuel a b F0 n n2 n3 φ0 N N0 φ0 0.

(** The northing of [k] kilometres. *)
Definition kilometres (k : Z) : float := JSMath.of_Z (1000 * k).

(** Whether the loop leaves within four passes on the northing of [k]
    kilometres, [k] not negative. *)
Definition grid_loop_leaves (k : Z) : bool :=
  if (k <? 0)%Z then true
  else match grid_loop 4 (kilometres k) with
       | Some _ => true
       | None => false
       end.

(** The length of the national grid, kilometre by kilometre. *)
Definition grid_length : nat := 1300.

End Fixtures.

(* ================================================================== *)
(** ** Binary64 values as integers

    A finite Number is [m * 2^e] with [e >= -1074], so [2^1074] times a
    finite Number is an integer: its scaled value. Sums and differences
    of finite Numbers are exact on scaled values, and a rounded result is
    compared with a representable bound there. *)

Module Binary64.

(** The scaled value of a finite Number; 0 for the others. *)
Definition val (f : spec_float) : Z :=
  match f with
  | S754_finite s m e => cond_Zopp s (Zpos m * 2 ^ (e + 1074))
  | _ => 0%Z
  end.

(** A zero or a finite Number. *)
Definition fin (f : spec_float) : bool :=
  match f with
  | S754_zero _ => true
  | S754_finite _ _ e => (-1074 <=? e)%Z
  | _ => false
  end.

(** A scaled value that rounding does not move: zero, or a mantissa of
    at most 53 bits at an exponent of the format. *)
Definition representable (B : Z) : Prop :=
  B = 0%Z \/
  exists C ec, B = (C * 2 ^ (ec + 1074))%Z /\ (0 < C)%Z /\
               (Zdigits2 C <= 53)%Z /\ (-1074 <= ec <= 971)%Z.

(** A shift record that has lost no bit. *)
Definition clean (r : shr_record) : Prop :=
  shr_r r = false /\ shr_s r = false.

(** A finite Number between two scaled values. *)
Definition within (x : float) (lo hi : Z) : Prop :=
  fin (Prim2SF x) = true /\ (lo <= val (Prim2SF x) <= hi)%Z.

(** The scaled value of a whole number [k]. *)
Definition deg (k : Z) : Z := (k * 2 ^ 1074)%Z.

(** The mantissa of the greatest finite Number. *)
Definition max_mantissa : positive := 9007199254740991.

(** A bound on the quotient of a finite Number by 360: [2^1016]. *)
Definition quotient_bound : Z := (2 ^ 52 * 2 ^ (964 + 1074))%Z.

End Binary64.
(* ================================================================== *)
(** ** Theorems: the Vincenty direct solution *)

Module VincentyFacts.
Import Vincenty.

Section LoopFacts.

Context {M : Math.Lib}.
Variables (s b A B σ1 : float).

Local Abbreviation pass := (pass s b A B σ1).
Local Abbreviation loop := (loop s b A B σ1).
Local Abbreviation passes := (passes s b A B σ1).

Lemma count_pass (st : Loop) : count (pass st) = count st.
Proof. reflexivity. Qed.

Lemma count_passes (k : nat) : forall st,
  count (passes k st) = (k + count st)%nat.
Proof.
  induction k as [|k IH]; intros st; simpl; [reflexivity|].
  rewrite IH. simpl. lia.
Qed.

(** Each pass sets [σ] to [s/(b·A) + Δσ] and keeps the old [σ] in
    [σʹ]. *)
Lemma pass_keeps_previous (st : Loop) : σʹ (pass st) = σ st.
Proof. reflexivity. Qed.

(** The loop leaves within the passes the cap allows: with
    [cap <= count st + fuel] and [0 < fuel] the result is the state
    after [n + 1 <= fuel] passes, the first [n] unconverged, and the
    last one either converged or the one that reaches the cap. *)
Lemma loop_leaves (fuel : nat) : forall st,
  (0 < fuel)%nat -> (cap <= count st + fuel)%nat ->
  exists n,
    (n < fuel)%nat /\
    (forall k, (k < n)%nat -> unconverged (pass (passes k st)) = true) /\
    ((unconverged (pass (passes n st)) = false /\
      loop fuel st = Some (pass (passes n st)))
     \/
     (unconverged (pass (passes n st)) = true /\
      (cap <= S (count st + n))%nat /\
      loop fuel st = Some (passes (S n) st))).
Proof.
  induction fuel as [|fuel IH]; intros st Hpos Hcap; [lia|].
  simpl loop.
  destruct (unconverged (pass st)) eqn:Hu.
  - simpl count. destruct (Nat.ltb (S (count st)) cap) eqn:Hlt.
    + apply Nat.ltb_lt in Hlt.
      destruct (IH (bump (pass st))) as (n & Hn & Hall & Hend).
      * simpl in *. lia.
      * simpl. lia.
      * exists (S n). split; [lia|]. split.
        -- intros k Hk. destruct k as [|k]; [exact Hu|].
           simpl. apply Hall. lia.
        -- change (passes (S n) st) with (passes n (bump (pass st))).
           change (passes (S (S n)) st)
             with (passes (S n) (bump (pass st))).
           destruct Hend as [[H1 H2]|(H1 & H2 & H3)].
           ++ left. split; assumption.
           ++ right. split; [assumption|]. simpl count in H2.
              split; [lia|assumption].
    + apply Nat.ltb_ge in Hlt.
      exists 0%nat. split; [lia|]. split; [intros k Hk; lia|].
      right. simpl. split; [exact Hu|]. split; [lia|reflexivity].
  - exists 0%nat. split; [lia|]. split; [intros k Hk; lia|].
    left. simpl. split; [exact Hu|reflexivity].
Qed.

(** More fuel than the loop used changes nothing. *)
Lemma loop_more_fuel (fuel : nat) : forall st st' extra,
  loop fuel st = Some st' -> loop (fuel + extra) st = Some st'.
Proof.
  induction fuel as [|fuel IH]; intros st st' extra H; [discriminate|].
  simpl in *.
  destruct (unconverged (pass st)); [|exact H].
  destruct (Nat.ltb (S (count st)) cap); [|exact H].
  apply IH. exact H.
Qed.

(** From a start state with [count = 0], [cap] passes are enough. *)
Lemma loop_cap_total (st : Loop) :
  count st = 0%nat -> exists st', loop cap st = Some st'.
Proof.
  intros H0.
  destruct (loop_leaves cap st) as (n & _ & _ & [[_ H]|(_ & _ & H)]).
  - unfold cap. lia.
  - rewrite H0. simpl. lia.
  - eexists; exact H.
  - eexists; exact H.
Qed.

(** The count at the exit is the cap exactly when no pass among the
    first [cap] converged. *)
Lemma loop_cap_count (st st' : Loop) :
  count st = 0%nat -> loop cap st = Some st' ->
  ((count st' <= cap)%nat /\
   ((cap <= count st')%nat <->
    forall k, (k < cap)%nat ->
              unconverged (pass (passes k st)) = true)).
Proof.
  intros H0 Hl.
  destruct (loop_leaves cap st) as (n & Hn & Hall & Hend).
  - unfold cap; lia.
  - rewrite H0; simpl; lia.
  - destruct Hend as [[Hconv H]|(Hunc & Hc & H)];
      rewrite H in Hl;
      assert (Heq : st' = match loop cap st with
                          | Some x => x | None => st end)
        by (rewrite H; congruence);
      rewrite H in Heq; rewrite Heq; clear Heq Hl.
    + assert (Hc : count (pass (passes n st)) = n)
        by (rewrite count_pass, count_passes; lia).
      rewrite Hc. split; [lia|].
      split.
      * intros Hge. lia.
      * intros Hk. specialize (Hk n Hn). congruence.
    + assert (Hc' : count (passes (S n) st) = S n)
        by (rewrite count_passes; lia).
      rewrite Hc'. split; [lia|]. split.
      * intros _ k Hk.
        destruct (Nat.eq_dec k n) as [->|Hne]; [exact Hunc|].
        apply Hall. lia.
      * intros _. lia.
Qed.

End LoopFacts.

Section DirectFacts.

Context {M : Math.Lib}.

(** The cap is fuel enough: [direct_fuel] at [cap] returns, and what it
    returns is [direct]. *)
Lemma direct_fuel_cap (this : LatLonEllipsoidal.t) (d brg : float) :
  direct_fuel cap this d brg = Some (direct this d brg).
Proof.
  unfold direct.
  destruct (direct_fuel cap this d brg) as [r|] eqn:E; [reflexivity|].
  exfalso. unfold direct_fuel in E.
  destruct (prepare this d brg) as [[su|]|e]; try discriminate.
  unfold iterate in E.
  destruct (loop_cap_total (su_s su) (su_b su) (su_A su) (su_B su)
              (su_σ1 su) (start (su_s su / (su_b su * su_A su))))
    as [st' Hst']; [reflexivity|].
  rewrite Hst' in E. discriminate.
Qed.

(** Any larger fuel gives the same result. *)
Lemma direct_fuel_enough (extra : nat) (this : LatLonEllipsoidal.t)
      (d brg : float) :
  direct_fuel (cap + extra) this d brg = Some (direct this d brg).
Proof.
  pose proof (direct_fuel_cap this d brg) as H.
  unfold direct_fuel in *.
  destruct (prepare this d brg) as [[su|]|e].
  - unfold iterate in *.
    destruct (loop (su_s su) (su_b su) (su_A su) (su_B su)
                (su_σ1 su) cap
                (start (su_s su / (su_b su * su_A su))))
      as [st|] eqn:E; [|discriminate].
    rewrite (loop_more_fuel _ _ _ _ _ cap _ st extra E). exact H.
  - exact H.
  - exact H.
Qed.

(** [direct] on a setup: the loop's exit state, then [finish]. *)
Lemma direct_prepared (this : LatLonEllipsoidal.t) (d brg : float)
      (su : Setup) :
  prepare this d brg = Ok (Some su) ->
  exists st, iterate cap su = Some st /\
             direct this d brg = finish this su st.
Proof.
  intros Hp.
  pose proof (direct_fuel_cap this d brg) as H.
  unfold direct_fuel in H. rewrite Hp in H.
  destruct (iterate cap su) as [st|]; [|discriminate].
  exists st. split; [reflexivity|]. congruence.
Qed.

(** The constructor throws nothing but [TypeError]. *)
Lemma new_not_EvalError (lat lon h : float) :
  isEvalError (LatLonEllipsoidal.new lat lon h) = false.
Proof.
  unfold LatLonEllipsoidal.new.
  destruct (JS.isNaN lat); [reflexivity|].
  destruct (JS.isNaN lon); [reflexivity|].
  destruct (JS.isNaN h); reflexivity.
Qed.

(** [finish] throws [EvalError] exactly at the cap. *)
Lemma finish_EvalError (this : LatLonEllipsoidal.t) (su : Setup)
      (st : Loop) :
  isEvalError (finish this su st) = Nat.leb cap (count st).
Proof.
  unfold finish. destruct (Nat.leb cap (count st)); [reflexivity|].
  match goal with
  | |- isEvalError (bind (LatLonEllipsoidal.new ?a ?b ?c) _) = _ =>
      pose proof (new_not_EvalError a b c) as Hn;
      destruct (LatLonEllipsoidal.new a b c) as [p|e]
  end; [reflexivity|exact Hn].
Qed.

(** What a returned [finish] holds. *)
Lemma finish_Ok (this : LatLonEllipsoidal.t) (su : Setup) (st : Loop)
      (r : DirectResult) :
  finish this su st = Ok r ->
  LatLonEllipsoidal.datum (point r) = None /\
  LatLonEllipsoidal.height (point r) = 0 /\
  (iterations r < cap)%nat.
Proof.
  unfold finish. destruct (Nat.leb cap (count st)) eqn:Hc;
    [discriminate|].
  apply Nat.leb_gt in Hc.
  match goal with
  | |- bind (LatLonEllipsoidal.new ?a ?b ?c) _ = _ -> _ =>
      unfold LatLonEllipsoidal.new;
      destruct (JS.isNaN a); [discriminate|];
      destruct (JS.isNaN b); [discriminate|];
      destruct (JS.isNaN c); [discriminate|]
  end.
  simpl. intros H. injection H as <-. simpl.
  repeat split. exact Hc.
Qed.

End DirectFacts.

End VincentyFacts.

(* ================================================================== *)
(** ** Claims on the Vincenty direct solution *)

Module DirectClaims.
Import Vincenty VincentyFacts Samples.

Example landsEnd_constructed :
  LatLonEllipsoidal.new 50.06632 (-5.71475) 0 = Ok landsEnd.
Proof. vm_compute. reflexivity. Qed.

Example raised_constructed : LatLonEllipsoidal.new 51 0 5 = Ok raised.
Proof. vm_compute. reflexivity. Qed.

(** The worked example of the specification on the reference [Math]:
    969954.166 m on bearing 9.1419 degrees ends within a millionth of a
    degree of 58.64402 N, 3.07008 W, on final bearing 11.2972 degrees,
    after three reiterations. *)
Example direct_landsEnd :
  match @direct Ref.math landsEnd 969954.166 9.1419 with
  | Ok r =>
      (JS.abs (LatLonEllipsoidal.lat (point r) - 58.64402) <? 1e-6) = true /\
      (JS.abs (LatLonEllipsoidal.lon (point r) - (-3.07008)) <? 1e-5) = true /\
      (JS.abs (finalBearing r - 11.2972) <? 1e-4) = true /\
      iterations r = 3%nat
  | Throw _ => False
  end.
Proof. vm_compute. repeat split. Qed.

(** On the flat ellipsoid the loop reaches its cap. *)
Example direct_flat_EvalError :
  @direct Ref.math flat 1 9.1419
  = Throw (EvalError "Vincenty formula failed to converge").
Proof. vm_compute. reflexivity. Qed.

(** An infinite distance leaves the loop at once, [|NaN| > 1e-12] being
    false, and the constructor then rejects the [NaN] latitude. *)
Example direct_infinite_distance :
  @direct Ref.math landsEnd infinity 9.1419 = Throw (TypeError "invalid lat").
Proof. vm_compute. reflexivity. Qed.

Section Claims.

Context {M : Math.Lib}.

(** C2. With distance 0 (or -0) the direct solution returns the origin
    point itself, a final bearing of NaN and 0 iterations, for every point
    and every bearing. *)
Theorem direct_zero_distance (this : LatLonEllipsoidal.t) (bearing : float) :
  direct this 0 bearing = Ok (mkResult this nan 0) /\
  direct this (-0) bearing = Ok (mkResult this nan 0).
Proof. split; reflexivity. Qed.

(** C1, as the code has it. A NaN distance always throws TypeError; a NaN
    bearing throws TypeError when the distance is a number other than 0;
    a height other than 0 throws RangeError when the distance is a number
    other than 0 and the bearing is a number. A zero distance returns
    before the bearing and the height are looked at. *)
Theorem direct_guard_order (this : LatLonEllipsoidal.t) (d brg : float) :
  (JS.isNaN d = true ->
   direct this d brg = Throw (TypeError "invalid distance")) /\
  (JS.isNaN d = false -> JS.eq d 0 = true ->
   direct this d brg = Ok (mkResult this nan 0)) /\
  (JS.isNaN d = false -> JS.eq d 0 = false -> JS.isNaN brg = true ->
   direct this d brg = Throw (TypeError "invalid bearing")) /\
  (JS.isNaN d = false -> JS.eq d 0 = false -> JS.isNaN brg = false ->
   JS.neq (LatLonEllipsoidal.height this) 0 = true ->
   direct this d brg
   = Throw (RangeError "point must be on the surface of the ellipsoid")).
Proof.
  unfold direct, direct_fuel, prepare.
  repeat split; intros; repeat match goal with H : _ = _ |- _ => rewrite H end;
    reflexivity.
Qed.

(** C3. Past the guards, the loop of the direct solution leaves after at
    most 100 passes, each setting σ to s/(b*A) + delta-σ: it stops
    at the first pass whose change is not above 1e-12, or at pass 100. The
    call throws EvalError exactly when none of the 100 passes converged. *)
Theorem direct_iteration_cap (this : LatLonEllipsoidal.t) (d brg : float)
        (su : Setup) :
  prepare this d brg = Ok (Some su) ->
  let run := pass (su_s su) (su_b su) (su_A su) (su_B su) (su_σ1 su) in
  let after := passes (su_s su) (su_b su) (su_A su) (su_B su) (su_σ1 su) in
  let st0 := start (su_s su / (su_b su * su_A su)) in
  (exists n st,
      (n < cap)%nat /\
      iterate cap su = Some st /\
      direct this d brg = finish this su st /\
      (forall k, (k < n)%nat -> unconverged (run (after k st0)) = true) /\
      ((unconverged (run (after n st0)) = false /\ st = run (after n st0) /\
        count st = n)
       \/
       (unconverged (run (after n st0)) = true /\ S n = cap /\
        st = after cap st0 /\ count st = cap))) /\
  (isEvalError (direct this d brg) = true <->
   forall k, (k < cap)%nat -> unconverged (run (after k st0)) = true).
Proof.
  intros Hp run after st0.
  destruct (direct_prepared this d brg su Hp) as (st & Hit & Hd).
  pose proof Hit as Hloop. unfold iterate in Hloop. fold st0 in Hloop.
  destruct (loop_leaves (su_s su) (su_b su) (su_A su) (su_B su)
              (su_σ1 su) cap st0) as (n & Hn & Hall & Hend).
  { unfold cap; lia. }
  { simpl; lia. }
  fold run in Hall, Hend. fold after in Hall, Hend.
  split.
  - exists n, st. split; [exact Hn|]. split; [exact Hit|].
    split; [exact Hd|]. split; [exact Hall|].
    destruct Hend as [[Hc Hl]|(Hu & Hc & Hl)].
    + left. assert (Hst : st = run (after n st0)) by congruence.
      split; [exact Hc|]. split; [exact Hst|]. rewrite Hst.
      unfold run, after. rewrite count_pass, count_passes.
      unfold st0. simpl count. lia.
    + right. assert (Hst : st = after (S n) st0) by congruence.
      simpl count in Hc.
      assert (Hn' : S n = cap) by lia.
      split; [exact Hu|]. split; [exact Hn'|].
      rewrite Hst, Hn'. split; [reflexivity|].
      unfold after. rewrite count_passes. unfold st0. simpl count. lia.
  - rewrite Hd, finish_EvalError.
    destruct (loop_cap_count (su_s su) (su_b su) (su_A su) (su_B su)
                (su_σ1 su) st0 st eq_refl Hloop) as (_ & Hiff).
    fold run in Hiff. fold after in Hiff.
    rewrite Nat.leb_le. exact Hiff.
Qed.

(** C10, the part the code keeps. A returned direct solution with nonzero
    distance has a destination of height 0 and fewer than 100 iterations;
    its destination carries no datum at all, the inherited constructor
    taking no fourth argument. *)
Lemma direct_destination (this : LatLonEllipsoidal.t) (d brg : float)
      (r : DirectResult) :
  JS.eq d 0 = false ->
  direct this d brg = Ok r ->
  LatLonEllipsoidal.height (point r) = 0 /\
  LatLonEllipsoidal.datum (point r) = None /\
  (iterations r < cap)%nat.
Proof.
  intros Hd Hr.
  pose proof (direct_fuel_cap this d brg) as H. rewrite Hr in H.
  unfold direct_fuel in H.
  destruct (prepare this d brg) as [[su|]|e] eqn:Hp.
  - destruct (iterate cap su) as [st|]; [|discriminate].
    injection H as H. destruct (finish_Ok this su st r H) as (H1 & H2 & H3).
    auto.
  - exfalso. unfold prepare in Hp. rewrite Hd in Hp.
    destruct (JS.isNaN d); [discriminate|].
    destruct (JS.isNaN brg); [discriminate|].
    destruct (JS.neq (LatLonEllipsoidal.height this) 0); [discriminate|].
    destruct (match LatLonEllipsoidal.datum this with
              | Some d0 => DatumProps.ellipsoid d0
              | None => Some LatLonEllipsoidal.ellipsoids_WGS84
              end); discriminate.
  - discriminate.
Qed.

End Claims.

(** C1 as stated fails: above the surface, a zero distance returns and
    throws no RangeError; with a NaN bearing, a zero distance returns and
    throws no TypeError; above the surface, a NaN distance throws TypeError,
    not RangeError. *)
Lemma direct_guards_counterexample :
  JS.neq (LatLonEllipsoidal.height raised) 0 = true /\
  @direct Ref.math raised 0 9.1419 = Ok (mkResult raised nan 0) /\
  JS.isNaN nan = true /\
  @direct Ref.math landsEnd 0 nan = Ok (mkResult landsEnd nan 0) /\
  @direct Ref.math raised nan 9.1419 = Throw (TypeError "invalid distance").
Proof. repeat split. Qed.

(** The guards of [direct_guard_order] at a NaN distance, a NaN bearing
    and a raised origin. *)
Lemma direct_guard_order_witness :
  @direct Ref.math raised nan 9.1419 = Throw (TypeError "invalid distance") /\
  @direct Ref.math raised 0 nan = Ok (mkResult raised nan 0) /\
  @direct Ref.math raised 1000 nan = Throw (TypeError "invalid bearing") /\
  @direct Ref.math raised 1000 9.1419
  = Throw (RangeError "point must be on the surface of the ellipsoid").
Proof.
  split; [|split; [|split]].
  - apply (proj1 (@direct_guard_order Ref.math raised nan 9.1419)).
    reflexivity.
  - apply (proj1 (proj2 (@direct_guard_order Ref.math raised 0 nan)));
      reflexivity.
  - apply (proj1 (proj2 (proj2
             (@direct_guard_order Ref.math raised 1000 nan))));
      reflexivity.
  - apply (proj2 (proj2 (proj2
             (@direct_guard_order Ref.math raised 1000 9.1419))));
      reflexivity.
Defined.

(** [direct_iteration_cap] on the worked example: the guards are passed,
    and no EvalError is thrown because a pass converges. *)
Lemma direct_iteration_cap_witness :
  @prepare Ref.math landsEnd 969954.166 9.1419 = Ok (Some landsEnd_setup) /\
  (isEvalError (@direct Ref.math landsEnd 969954.166 9.1419) = true <->
   forall k, (k < cap)%nat ->
     unconverged
       (@pass Ref.math (su_s landsEnd_setup) (su_b landsEnd_setup)
              (su_A landsEnd_setup) (su_B landsEnd_setup)
              (su_σ1 landsEnd_setup)
          (@passes Ref.math (su_s landsEnd_setup) (su_b landsEnd_setup)
                   (su_A landsEnd_setup) (su_B landsEnd_setup)
                   (su_σ1 landsEnd_setup) k
             (start (su_s landsEnd_setup
                     / (su_b landsEnd_setup * su_A landsEnd_setup)))))
     = true).
Proof.
  split.
  - vm_compute. reflexivity.
  - apply (proj2 (@direct_iteration_cap Ref.math landsEnd 969954.166 9.1419
                    landsEnd_setup ltac:(vm_compute; reflexivity))).
Defined.

(** C10 at a concrete origin. The origin carries the datum WGS84; the
    direct solution returns, with a destination of height 0 and a final
    bearing in [0, 360), but the destination carries no datum. *)
Theorem direct_drops_datum :
  LatLonEllipsoidal.datum tagged = Some BaseWGS84 /\
  match @direct Ref.math tagged 969954.166 9.1419 with
  | Ok r =>
      LatLonEllipsoidal.datum (point r) = None /\
      LatLonEllipsoidal.height (point r) = 0 /\
      (0 <=? finalBearing r) = true /\ (finalBearing r <? 360) = true
  | Throw _ => False
  end.
Proof. vm_compute. repeat split. Qed.

(** [direct_destination] on the worked example. *)
Lemma direct_destination_witness :
  exists r,
    @direct Ref.math tagged 969954.166 9.1419 = Ok r /\
    LatLonEllipsoidal.height (point r) = 0 /\
    LatLonEllipsoidal.datum (point r) = None /\
    (iterations r < cap)%nat.
Proof.
  destruct (@direct Ref.math tagged 969954.166 9.1419) as [r|e] eqn:E.
  - exists r. split; [reflexivity|].
    apply (@direct_destination Ref.math tagged 969954.166 9.1419 r);
      [reflexivity|exact E].
  - exfalso. vm_compute in E. discriminate.
Defined.

End DirectClaims.

(* ================================================================== *)
(** ** Claims on the inverse-based wrappers *)

Module InverseClaims.
Import VB Samples.

(** C4. When [Inverse] raises EvalError (the iteration failed to
    converge), [DistanceTo], [InitialBearingTo] and [FinalBearingTo] return
    NaN; when it raises any other exception, each of them raises that same
    exception. *)
Theorem inverse_wrappers_absorb_EvalError
        (Point : Type) (Inverse : Point -> Point -> outcome InverseResult)
        (Round : float -> nat -> float) (this point : Point) :
  (forall msg, Inverse this point = Raise (EvalError msg) ->
     DistanceTo Point Inverse Round this point = Return nan /\
     InitialBearingTo Point Inverse Round this point = Return nan /\
     FinalBearingTo Point Inverse Round this point = Return nan) /\
  (forall e, Inverse this point = Raise e -> isEvalError e = false ->
     DistanceTo Point Inverse Round this point = Raise e /\
     InitialBearingTo Point Inverse Round this point = Raise e /\
     FinalBearingTo Point Inverse Round this point = Raise e).
Proof.
  unfold DistanceTo, InitialBearingTo, FinalBearingTo.
  split.
  - intros msg H. rewrite H. simpl. repeat split.
  - intros e H He. rewrite H, He. repeat split.
Qed.

(** [inverse_wrappers_absorb_EvalError] on [stubborn]. *)
Lemma inverse_wrappers_witness :
  (DistanceTo nat stubborn (fun v _ => v) 1%nat 2%nat = Return nan /\
   InitialBearingTo nat stubborn (fun v _ => v) 1%nat 2%nat = Return nan /\
   FinalBearingTo nat stubborn (fun v _ => v) 1%nat 2%nat = Return nan) /\
  (DistanceTo nat stubborn (fun v _ => v) 1%nat 1%nat
   = Raise (ArgumentException "same point") /\
   InitialBearingTo nat stubborn (fun v _ => v) 1%nat 1%nat
   = Raise (ArgumentException "same point") /\
   FinalBearingTo nat stubborn (fun v _ => v) 1%nat 1%nat
   = Raise (ArgumentException "same point")).
Proof.
  split.
  - apply (proj1 (inverse_wrappers_absorb_EvalError
                    nat stubborn (fun v _ => v) 1%nat 2%nat)
             "Vincenty formula failed to converge").
    reflexivity.
  - apply (proj2 (inverse_wrappers_absorb_EvalError
                    nat stubborn (fun v _ => v) 1%nat 1%nat)
             (ArgumentException "same point")); reflexivity.
Defined.

(** A converged [Inverse] is rounded: to 3 places for the distance, to 7
    for the bearings. *)
Lemma inverse_wrappers_round
      (Point : Type) (Inverse : Point -> Point -> outcome InverseResult)
      (Round : float -> nat -> float) (this point : Point)
      (r : InverseResult) :
  Inverse this point = Return r ->
  DistanceTo Point Inverse Round this point = Return (Round (Distance r) 3%nat) /\
  InitialBearingTo Point Inverse Round this point
  = Return (Round (InitialBearing r) 7%nat) /\
  FinalBearingTo Point Inverse Round this point
  = Return (Round (FinalBearing r) 7%nat).
Proof.
  intros H. unfold DistanceTo, InitialBearingTo, FinalBearingTo.
  rewrite H. repeat split.
Qed.

End InverseClaims.

(* ================================================================== *)
(** ** Claims on reference-frame conversion *)

Module FrameClaims.
Import ReferenceFrameModule Samples.

Example station_constructed :
  new 4027893.924 307041.993 4919474.294 (Some ITRF2014) (Some 2012)
  = Ok station.
Proof. vm_compute. reflexivity. Qed.

(** A stored forward entry moves the point and retags it, keeping the
    epoch. *)
Example convert_forward :
  match convertReferenceFrame sampleTable station (Some ITRF2008) with
  | Ok c =>
      Cartesian._referenceFrame c = Some ITRF2008 /\
      Cartesian._epoch c = Some 2012 /\
      (JS.abs (Cartesian.x c - 4027893.924) <? 0.01) = true /\
      JS.neq (Cartesian.x c) 4027893.924 = true
  | Throw _ => False
  end.
Proof. vm_compute. repeat split. Qed.

(** A stored entry is applied negated in the reverse direction. *)
Example convert_reverse :
  match convertReferenceFrame sampleTable
          (Cartesian.mk 4027893.924 307041.993 4919474.294 None
                        (Some ITRF2008) (Some 2012))
          (Some ITRF2014) with
  | Ok c =>
      Cartesian._referenceFrame c = Some ITRF2014 /\
      Cartesian._epoch c = Some 2012
  | Throw _ => False
  end.
Proof. vm_compute. repeat split. Qed.

(** Frames with no entry of their own are chained through a common
    intermediate frame, forwards and backwards. *)
Example convert_chained :
  match convertReferenceFrame sampleTable station (Some ITRF2005),
        convertReferenceFrame sampleTable
          (Cartesian.mk 4027893.924 307041.993 4919474.294 None
                        (Some ITRF2005) None)
          (Some ITRF2014) with
  | Ok c, Ok c' =>
      Cartesian._referenceFrame c = Some ITRF2005 /\
      Cartesian._epoch c = Some 2012 /\
      Cartesian._referenceFrame c' = Some ITRF2014 /\
      Cartesian._epoch c' = Some 2000
  | _, _ => False
  end.
Proof. vm_compute. repeat split. Qed.

(** With no path between the frames the call throws TypeError. *)
Example convert_no_path :
  isTypeError (convertReferenceFrame sampleTable station (Some NAD83)) = true.
Proof. vm_compute. reflexivity. Qed.

(** C8. A Cartesian point tagged with a reference frame, converted to a
    recognised frame of the same name, or from an ITRF-named frame to a
    WGS84-named one or back, is returned as it is, whatever the table of
    transforms holds. *)
Theorem convertReferenceFrame_unchanged
        (txParams : list (string * Tx)) (this : Cartesian.t)
        (oldTrf newTrf : Frame.t) :
  Cartesian._referenceFrame this = Some oldTrf ->
  Frame.epoch newTrf <> None ->
  (Frame.name oldTrf = Frame.name newTrf \/
   (JSString.startsWith "ITRF" (Frame.name oldTrf) = true /\
    JSString.startsWith "WGS84" (Frame.name newTrf) = true) \/
   (JSString.startsWith "WGS84" (Frame.name oldTrf) = true /\
    JSString.startsWith "ITRF" (Frame.name newTrf) = true)) ->
  convertReferenceFrame txParams this (Some newTrf) = Ok this.
Proof.
  intros Hold Hepoch Hnames.
  unfold convertReferenceFrame, unrecognised.
  destruct (Frame.epoch newTrf) as [e|]; [|congruence].
  rewrite Hold.
  destruct Hnames as [Hsame|[[H1 H2]|[H1 H2]]].
  - rewrite Hsame, String.eqb_refl. reflexivity.
  - rewrite H1, H2. simpl.
    destruct (String.eqb (Frame.name oldTrf) (Frame.name newTrf));
      reflexivity.
  - rewrite H1, H2. simpl.
    destruct (String.eqb (Frame.name oldTrf) (Frame.name newTrf));
      [reflexivity|].
    destruct (JSString.startsWith "ITRF" (Frame.name oldTrf)
              && JSString.startsWith "WGS84" (Frame.name newTrf));
      reflexivity.
Qed.

(** [convertReferenceFrame_unchanged] on the station: to its own frame, to
    WGS84(G1762), and back from there to ITRF2008. *)
Lemma convertReferenceFrame_unchanged_witness :
  convertReferenceFrame sampleTable station (Some ITRF2014) = Ok station /\
  convertReferenceFrame sampleTable station (Some WGS84g1762) = Ok station /\
  (let c := Cartesian.mk 1 2 3 None (Some WGS84g1762) None in
   convertReferenceFrame sampleTable c (Some ITRF2008) = Ok c).
Proof.
  split; [|split].
  - apply (convertReferenceFrame_unchanged sampleTable station
             ITRF2014 ITRF2014); [reflexivity|discriminate|].
    left. reflexivity.
  - apply (convertReferenceFrame_unchanged sampleTable station
             ITRF2014 WGS84g1762); [reflexivity|discriminate|].
    right. left. split; reflexivity.
  - apply (convertReferenceFrame_unchanged sampleTable
             (Cartesian.mk 1 2 3 None (Some WGS84g1762) None)
             WGS84g1762 ITRF2008); [reflexivity|discriminate|].
    right. right. split; reflexivity.
Defined.

(** A target that is no recognised frame, or a point with no frame, is
    rejected before any comparison of names. *)
Lemma convertReferenceFrame_guards
      (txParams : list (string * Tx)) (this : Cartesian.t) :
  isTypeError (convertReferenceFrame txParams this None) = true /\
  (forall rf, Frame.epoch rf = None ->
     isTypeError (convertReferenceFrame txParams this (Some rf)) = true) /\
  (forall rf, Cartesian._referenceFrame this = None ->
     isTypeError (convertReferenceFrame txParams this (Some rf)) = true).
Proof.
  unfold convertReferenceFrame, unrecognised. split; [reflexivity|]. split.
  - intros rf H. rewrite H. reflexivity.
  - intros rf H. rewrite H. destruct (Frame.epoch rf); reflexivity.
Qed.

End FrameClaims.

(* ================================================================== *)
(** ** Claims on datum conversion *)

Module DatumClaims.
Import DatumModule Samples.

Example greenwich_constructed :
  new 3980574.247 (-102.127) 4966830.065 (Some OSGB36) = Ok greenwich.
Proof. vm_compute. reflexivity. Qed.

(** [applyTransform] is the seven-parameter formula: shifts as they are,
    scale [s/1e6 + 1], rotations from arcseconds to radians. *)
Lemma applyTransform_formula (this : Cartesian.t)
      (tx ty tz s rx ry rz : float) :
  applyTransform this (Some [tx; ty; tz; s; rx; ry; rz])
  = let S := s / 1e6 + 1 in
    let Rx := JS.toRadians (rx / 3600) in
    let Ry := JS.toRadians (ry / 3600) in
    let Rz := JS.toRadians (rz / 3600) in
    let x := Cartesian.x this in
    let y := Cartesian.y this in
    let z := Cartesian.z this in
    new (tx + x * S - y * Rz + z * Ry)
        (ty + x * Rz + y * S - z * Rx)
        (tz - x * Ry + y * Rx + z * S) None.
Proof. reflexivity. Qed.

(** No entry of the table [datums] can tag a point or be a target: it has
    no [ellipsoid]. *)
Lemma table_entry_unrecognised (key : string) :
  unrecognised (Some (DatumEntry key)) = true.
Proof. reflexivity. Qed.

(** Depth 2 is enough for [convertDatum]. *)
Lemma convertDatum_depth (this : Cartesian.t) (toDatum : option Datum) :
  convertDatum_fuel 2 this toDatum = Some (convertDatum this toDatum).
Proof.
  unfold convertDatum.
  destruct (convertDatum_fuel 2 this toDatum) as [r|] eqn:E; [reflexivity|].
  exfalso. cbn [convertDatum_fuel] in E.
  destruct toDatum as [toD|]; [|discriminate].
  destruct (unrecognised (Some toD)); [discriminate|].
  destruct (Cartesian._datum this) as [thisD|]; [|discriminate].
  destruct (DatumProps.same toD datums_WGS84).
  - destruct (DatumProps.transform thisD); discriminate.
  - destruct (DatumProps.same thisD datums_WGS84).
    + destruct (DatumProps.transform toD); discriminate.
    + discriminate.
Qed.

(** A point whose tag was forced to the table's WGS84 entry gets the
    target's transform applied as stored: the first case of the dispatch is
    in the code. *)
Lemma convertDatum_from_WGS84 (this : Cartesian.t) (toD : Datum)
      (t : list float) :
  Cartesian._datum this = Some datums_WGS84 ->
  unrecognised (Some toD) = false ->
  DatumProps.transform toD = Some t ->
  convertDatum this (Some toD)
  = let* c := applyTransform this (Some t) in set_datum c (Some toD).
Proof.
  intros Hd Hu Ht. unfold convertDatum. cbn [convertDatum_fuel].
  rewrite Hu, Hd.
  destruct toD as [key| |id e tr]; simpl in *; try discriminate.
  rewrite Ht. reflexivity.
Qed.

(** Every datum a constructed point can carry has an ellipsoid, so it is
    not the table's WGS84 entry. *)
Lemma constructed_datum (x y z : float) (datum : option Datum)
      (c : Cartesian.t) :
  new x y z datum = Ok c ->
  Cartesian._datum c = datum /\
  (datum = None \/ unrecognised datum = false).
Proof.
  unfold new, unrecognised. destruct datum as [d|].
  - destruct (DatumProps.ellipsoid d) as [e|]; [|discriminate].
    unfold Cartesian.new.
    destruct (JS.isNaN x || JS.isNaN y || JS.isNaN z); [discriminate|].
    simpl. intros H. injection H as <-. simpl. auto.
  - unfold Cartesian.new.
    destruct (JS.isNaN x || JS.isNaN y || JS.isNaN z); [discriminate|].
    intros H. injection H as <-. simpl. auto.
Qed.

(** On every point the constructor can build, and for every target,
    [convertDatum] throws TypeError. *)
Lemma convertDatum_always_throws (x y z : float) (datum : option Datum)
      (c : Cartesian.t) (toDatum : option Datum) :
  new x y z datum = Ok c ->
  isTypeError (convertDatum c toDatum) = true.
Proof.
  intros Hc. destruct (constructed_datum x y z datum c Hc) as [Hd Hok].
  unfold convertDatum. cbn [convertDatum_fuel].
  destruct toDatum as [toD|]; [|reflexivity].
  destruct (unrecognised (Some toD)) eqn:Hu; [reflexivity|].
  rewrite Hd. destruct datum as [thisD|]; [|reflexivity].
  destruct Hok as [Hnone|Hrec]; [discriminate|].
  assert (Hthis : DatumProps.same thisD datums_WGS84 = false).
  { destruct thisD; simpl in *; try reflexivity; discriminate. }
  assert (Hto : DatumProps.same toD datums_WGS84 = false).
  { destruct toD; simpl in *; try reflexivity; discriminate. }
  rewrite Hthis, Hto. reflexivity.
Qed.

(** C7 on concrete datums. A point tagged OSGB36 is converted neither to
    WGS84 (the table's entry is rejected as unrecognised) nor to ED50
    (the first hop, to WGS84, is rejected likewise); and no point can be
    constructed with the table's WGS84 as its tag. *)
Theorem convertDatum_rejects_WGS84 :
  convertDatum greenwich (Some datums_WGS84)
  = Throw (TypeError "unrecognised datum") /\
  convertDatum greenwich (Some ED50)
  = Throw (TypeError "unrecognised datum") /\
  new 3980574.247 (-102.127) 4966830.065 (Some datums_WGS84)
  = Throw (TypeError "unrecognised datum").
Proof. vm_compute. repeat split. Qed.

(** [convertDatum_always_throws] on the point tagged OSGB36. *)
Lemma convertDatum_always_throws_witness :
  isTypeError (convertDatum greenwich (Some ED50)) = true.
Proof.
  apply (convertDatum_always_throws 3980574.247 (-102.127) 4966830.065
           (Some OSGB36) greenwich (Some ED50)).
  vm_compute. reflexivity.
Defined.

End DatumClaims.

(* ================================================================== *)
(** ** Special values of binary64 arithmetic *)

Module FloatFacts.
Import Samples.

Lemma of_spec (x : float) (s : spec_float) : Prim2SF x = s -> x = SF2Prim s.
Proof. intros H. rewrite <- H. symmetry. apply SF2Prim_Prim2SF. Qed.

(** [x == 0] holds of the two zeros only. *)
Lemma eq_zero (x : float) : JS.eq x 0 = true -> x = zero \/ x = neg_zero.
Proof.
  unfold JS.eq. rewrite eqb_spec.
  change (Prim2SF 0) with (S754_zero false).
  destruct (Prim2SF x) as [s| s| |s m e] eqn:E; simpl; try discriminate.
  - intros _. apply of_spec in E. destruct s; [right|left]; exact E.
  - destruct s; discriminate.
  - destruct s; discriminate.
Qed.

(** The product of anything with a zero is a zero or NaN. *)
Lemma mul_zero (a d : float) :
  d = zero \/ d = neg_zero -> zero_or_nan (a * d).
Proof.
  intros Hd. unfold zero_or_nan.
  assert (H : exists s, Prim2SF d = S754_zero s).
  { destruct Hd as [->| ->]; eexists; reflexivity. }
  destruct H as [sd Hsd].
  pose proof (mul_spec a d) as H. rewrite Hsd in H.
  unfold SF64mul, SFmul in H.
  destruct (Prim2SF a) as [s| s| |s m e];
    apply of_spec in H; simpl in H;
    try (right; right; exact H);
    destruct (xorb s sd); auto.
Qed.

(** A quotient by a zero or by NaN is an infinity or NaN. *)
Lemma div_zero_or_nan (u d : float) :
  zero_or_nan d -> inf_or_nan (u / d).
Proof.
  intros Hd. unfold inf_or_nan.
  assert (H : (exists s, Prim2SF d = S754_zero s) \/ Prim2SF d = S754_nan).
  { destruct Hd as [->|[->| ->]];
      [left; eexists; reflexivity|left; eexists; reflexivity
      |right; reflexivity]. }
  pose proof (div_spec u d) as Hs. unfold SF64div, SFdiv in Hs.
  destruct H as [[sd Hsd]|Hnan].
  - rewrite Hsd in Hs.
    destruct (Prim2SF u) as [s| s| |s m e];
      apply of_spec in Hs; simpl in Hs;
      try (right; right; exact Hs);
      destruct (xorb s sd); auto.
  - rewrite Hnan in Hs.
    destruct (Prim2SF u) as [s| s| |s m e];
      apply of_spec in Hs; simpl in Hs; right; right; exact Hs.
Qed.

(** A product with an infinity or with NaN is an infinity or NaN. *)
Lemma mul_inf_or_nan (t w : float) :
  inf_or_nan t -> inf_or_nan (t * w).
Proof.
  intros Ht. unfold inf_or_nan.
  assert (H : (exists s, Prim2SF t = S754_infinity s)
              \/ Prim2SF t = S754_nan).
  { destruct Ht as [->|[->| ->]];
      [left; eexists; reflexivity|left; eexists; reflexivity
      |right; reflexivity]. }
  pose proof (mul_spec t w) as Hs. unfold SF64mul, SFmul in Hs.
  destruct H as [[st Hst]|Hnan].
  - rewrite Hst in Hs.
    destruct (Prim2SF w) as [s| s| |s m e];
      apply of_spec in Hs; simpl in Hs;
      try (right; right; exact Hs);
      destruct (xorb st s); auto.
  - rewrite Hnan in Hs. apply of_spec in Hs. simpl in Hs.
    right; right; exact Hs.
Qed.

(** The square of a zero, and the sum of two such squares, is [+0]. *)
Lemma hypot_zero (x y : float) :
  (x = zero \/ x = neg_zero) -> (y = zero \/ y = neg_zero) ->
  JS.sqrt (x * x + y * y) = zero.
Proof. intros [->| ->] [->| ->]; reflexivity. Qed.

(** With an infinite or NaN tangent, the cosine the code derives from it is
    NaN. *)
Lemma cos_of_inf_tan (t : float) :
  inf_or_nan t ->
  JS.isNaN (t / JS.sqrt (1 + t * t) / t) = true.
Proof. intros [->|[->| ->]]; reflexivity. Qed.

End FloatFacts.

(* ================================================================== *)
(** ** Claims on the Cartesian to geodetic conversion *)

Module CartesianClaims.
Import FloatFacts Samples.

Section Axis.

Context {M : Math.Lib}.

(** C6, as the code has it. For a Cartesian point on the polar axis
    ([x == 0] and [y == 0]), whatever its [z] and whatever the ellipsoid,
    the latitude of the point that [toLatLon] returns is 0: neither +90 nor
    -90. The tangent of the parametric latitude is infinite there, the
    cosine derived from it is NaN, and the branch meant for [z = 0] sets
    the latitude to 0. *)
Theorem toLatLon_on_axis (this : Cartesian.t) (ellipsoid : option Ellipsoid.t)
        (p : LatLonEllipsoidal.t) :
  JS.eq (Cartesian.x this) 0 = true ->
  JS.eq (Cartesian.y this) 0 = true ->
  toLatLon this ellipsoid = Ok p ->
  LatLonEllipsoidal.lat p = 0.
Proof.
  intros Hx Hy. apply eq_zero in Hx, Hy.
  unfold toLatLon. cbv zeta.
  set (el := match ellipsoid with
             | Some e => e
             | None => LatLonEllipsoidal.ellipsoids_WGS84
             end).
  destruct (negb (JS.truthy (Ellipsoid.a el))); [discriminate|].
  rewrite (hypot_zero _ _ Hx Hy).
  match goal with
  | |- context [JS.isNaN (?t / JS.sqrt (1 + ?t * ?t) / ?t)] =>
      assert (Hnan : JS.isNaN (t / JS.sqrt (1 + t * t) / t) = true)
  end.
  { apply cos_of_inf_tan. apply mul_inf_or_nan. apply div_zero_or_nan.
    apply mul_zero. left. reflexivity. }
  rewrite Hnan.
  unfold LatLonEllipsoidal.new.
  change (JS.isNaN (JS.toDegrees 0)) with false. cbv iota.
  match goal with
  | |- (if ?c then _ else _) = _ -> _ => destruct c; [discriminate|]
  end.
  match goal with
  | |- (if ?c then _ else _) = _ -> _ => destruct c; [discriminate|]
  end.
  intros H. injection H as <-. reflexivity.
Qed.

End Axis.

(** The poles of WGS84 on the reference [Math]: both come back at
    latitude 0, longitude 0, and height [-a]. *)
Example toLatLon_poles :
  @toLatLon Ref.math (Cartesian.mk 0 0 6356752.314245 None None None) None
  = Ok (LatLonEllipsoidal.mk 0 0 (-6378137) None None None) /\
  @toLatLon Ref.math (Cartesian.mk 0 0 (-6356752.314245) None None None) None
  = Ok (LatLonEllipsoidal.mk 0 0 (-6378137) None None None).
Proof. vm_compute. split; reflexivity. Qed.

(** [toLatLon_on_axis] at the north pole of WGS84. *)
Lemma toLatLon_on_axis_witness :
  exists p,
    @toLatLon Ref.math (Cartesian.mk 0 0 6356752.314245 None None None) None
    = Ok p /\
    LatLonEllipsoidal.lat p = 0.
Proof.
  exists (LatLonEllipsoidal.mk 0 0 (-6378137) None None None).
  split; [vm_compute; reflexivity|].
  apply (@toLatLon_on_axis Ref.math
           (Cartesian.mk 0 0 6356752.314245 None None None) None);
    [reflexivity|reflexivity|vm_compute; reflexivity].
Defined.

(** Off the axis the same conversion finds the pole's neighbourhood: a
    point a millimetre from the axis comes back at latitude 90 to within
    1e-6 degrees. *)
Example toLatLon_near_pole :
  match @toLatLon Ref.math
          (Cartesian.mk 0.001 0 6356752.314245 None None None) None with
  | Ok p => (JS.abs (LatLonEllipsoidal.lat p - 90) <? 1e-6) = true
  | Throw _ => False
  end.
Proof. vm_compute. reflexivity. Qed.

(** The round trip of a surface point on the reference [Math]: the worked
    example's origin comes back within 1e-9 degrees and 1e-6 m. *)
Example roundtrip_landsEnd :
  match (let* c := @toCartesian Ref.math landsEnd in
         @toLatLon Ref.math c None) with
  | Ok p =>
      (JS.abs (LatLonEllipsoidal.lat p - 50.06632) <? 1e-9) = true /\
      (JS.abs (LatLonEllipsoidal.lon p - (-5.71475)) <? 1e-9) = true /\
      (JS.abs (LatLonEllipsoidal.height p) <? 1e-6) = true
  | Throw _ => False
  end.
Proof. vm_compute. repeat split. Qed.

(** The round trip of the north pole depends on that one value: on the
    reference [Math] it comes back at latitude 90 and longitude 45, on the
    coarse one at latitude 0 and longitude 0. *)
Example roundtrip_pole :
  (let* q := LatLonEllipsoidal.new 90 45 0 in
   let* c := @toCartesian Ref.math q in
   let* p := @toLatLon Ref.math c None in
   Ok (LatLonEllipsoidal.lat p, LatLonEllipsoidal.lon p)) = Ok (90, 45) /\
  (let* q := LatLonEllipsoidal.new 90 45 0 in
   let* c := @toCartesian coarse q in
   let* p := @toLatLon coarse c None in
   Ok (LatLonEllipsoidal.lat p, LatLonEllipsoidal.lon p)) = Ok (0, 0).
Proof. vm_compute. split; reflexivity. Qed.

(** On the reference [Math] the round trip stays within 1e-9 degrees and
    1e-6 m at every point of the grid, poles and the meridian of 180
    degrees included, on each of the nine ellipsoids. *)
Example roundtrip_grid :
  forallb (fun e => forallb (fun ll => roundtrip_ok (snd e) (fst ll) (snd ll))
                            grid)
          DatumModule.ellipsoids = true.
Proof. vm_compute. reflexivity. Qed.

(** C5 is no property of the code alone: on the coarse [Math], which
    differs from the reference one in the cosine of a single Number, the
    north pole of WGS84 comes back at latitude 0. Whether the round trip
    stays within the bounds on a given [Math] rests on the last bits that
    its functions and every operation of the two conversions return. *)
Theorem roundtrip_needs_its_Math : ~ roundtrip_within coarse.
Proof.
  intros H.
  destruct (H "WGS84" _ 90 45 (or_introl eq_refl) eq_refl eq_refl)
    as (q & E & H1 & _).
  vm_compute in E. injection E as <-.
  vm_compute in H1. discriminate.
Qed.

End CartesianClaims.

(* ================================================================== *)
(** ** Rounding of binary64 arithmetic

    What the specification of the operations gives on finite Numbers:
    the sum and the difference of two of them, and the remainder, are
    computed exactly and rounded once; the rounded value never passes a
    representable bound that the exact value respects; and two finite
    Numbers compare as their scaled values do. The proofs unfold
    [binary_round_aux]: a shift that truncates, one rounding step that
    adds at most one unit in the last place, and a second shift. *)

Module Rounding.
Import Binary64.

Local Open Scope Z_scope.

(** *** Digits *)

Lemma digits2_size p : digits2_pos p = Pos.size p.
Proof. induction p; simpl; congruence. Qed.

Lemma Zdigits2_log2 a : 0 < a -> Zdigits2 a = Z.log2 a + 1.
Proof.
  destruct a as [|p|p]; try lia. intros _. simpl. rewrite digits2_size.
  destruct p; simpl; try reflexivity; rewrite Pos2Z.inj_succ; lia.
Qed.

Lemma Zdigits2_nonneg a : 0 <= Zdigits2 a.
Proof. destruct a; simpl; lia. Qed.

Lemma Zdigits2_le a b : 0 <= a <= b -> Zdigits2 a <= Zdigits2 b.
Proof.
  intros [Ha Hab]. destruct (Z.eq_dec a 0) as [->|Hne].
  - apply Zdigits2_nonneg.
  - rewrite !Zdigits2_log2 by lia.
    pose proof (Z.log2_le_mono a b Hab). lia.
Qed.

Lemma Zdigits2_shift a k : 0 < a -> 0 <= k -> Zdigits2 (a * 2 ^ k) = Zdigits2 a + k.
Proof.
  intros Ha Hk. assert (0 < 2 ^ k) by (apply Z.pow_pos_nonneg; lia).
  rewrite !Zdigits2_log2 by nia.
  rewrite Z.log2_mul_pow2 by lia. lia.
Qed.

Lemma Zdigits2_lt a : 0 < a -> 2 ^ (Zdigits2 a - 1) <= a < 2 ^ Zdigits2 a.
Proof.
  intros Ha. rewrite Zdigits2_log2 by lia.
  replace (Z.log2 a + 1 - 1) with (Z.log2 a) by lia.
  replace (Z.log2 a + 1) with (Z.succ (Z.log2 a)) by lia.
  apply Z.log2_spec. exact Ha.
Qed.

Lemma fexp_le a b : a <= b -> fexp prec emax a <= fexp prec emax b.
Proof. unfold fexp, emin, prec, emax. lia. Qed.

Lemma fexp_val a : fexp prec emax a = Z.max (a - 53) (-1074).
Proof. reflexivity. Qed.

(** *** Shifts *)

Lemma shr_1_m r : 0 <= shr_m r -> shr_m (shr_1 r) = shr_m r / 2 /\ 0 <= shr_m (shr_1 r).
Proof.
  destruct r as [m rr ss]. simpl. intros Hm.
  rewrite <- Z.div2_div.
  destruct m as [|p|p]; [simpl; lia| |lia].
  destruct p; simpl; lia.
Qed.

(** [n] single shifts divide the mantissa by [2^n]. *)
Lemma shr_iter_m n : forall r, 0 <= shr_m r ->
  shr_m (iter_pos shr_1 n r) = shr_m r / 2 ^ Zpos n /\
  0 <= shr_m (iter_pos shr_1 n r).
Proof.
  induction n as [n IH|n IH|]; intros r Hr; cbn [iter_pos].
  - destruct (shr_1_m r Hr) as [E1 P1].
    destruct (IH _ P1) as [E2 P2]. destruct (IH _ P2) as [E3 P3].
    split; [|exact P3]. rewrite E3, E2, E1.
    rewrite !Z.div_div by (try apply Z.pow_pos_nonneg; lia).
    f_equal. rewrite (Pos2Z.inj_xI n).
    rewrite <- Z.pow_add_r by lia. rewrite <- Z.pow_succ_r by lia.
    f_equal. lia.
  - destruct (IH _ Hr) as [E2 P2]. destruct (IH _ P2) as [E3 P3].
    split; [|exact P3]. rewrite E3, E2.
    rewrite !Z.div_div by (try apply Z.pow_pos_nonneg; lia).
    f_equal. rewrite (Pos2Z.inj_xO n).
    rewrite <- Z.pow_add_r by lia. f_equal. lia.
  - destruct (shr_1_m r Hr) as [E1 P1]. split; [|exact P1].
    rewrite E1. reflexivity.
Qed.

Lemma shr_1_clean r : 0 <= shr_m r -> clean r -> shr_m r mod 2 = 0 -> clean (shr_1 r).
Proof.
  destruct r as [m rr ss]. unfold clean. simpl. intros Hm [-> ->] Hmod.
  destruct m as [|p|p]; [split; reflexivity| |lia].
  destruct p; simpl; try (split; reflexivity).
  - rewrite (Pos2Z.inj_xI p) in Hmod.
    rewrite Z.add_comm, Z.mul_comm, Z.mod_add in Hmod by lia. discriminate.
  - discriminate.
Qed.

Lemma mod_pow_split m a b : 0 <= a -> 0 <= b -> m mod 2 ^ (a + b) = 0 ->
  m mod 2 ^ a = 0 /\ (m / 2 ^ a) mod 2 ^ b = 0.
Proof.
  intros Ha Hb H.
  assert (Pa : 0 < 2 ^ a) by (apply Z.pow_pos_nonneg; lia).
  assert (Pb : 0 < 2 ^ b) by (apply Z.pow_pos_nonneg; lia).
  apply Z.mod_divide in H; [|rewrite Z.pow_add_r by lia; nia].
  destruct H as [q Hq]. rewrite Z.pow_add_r in Hq by lia.
  split.
  - apply Z.mod_divide; [lia|]. exists (q * 2 ^ b). lia.
  - apply Z.mod_divide; [lia|]. exists q.
    rewrite Hq. replace (q * (2 ^ a * 2 ^ b)) with (q * 2 ^ b * 2 ^ a) by lia.
    rewrite Z.div_mul by lia. reflexivity.
Qed.

(** A shift that drops zero bits only keeps the record clean. *)
Lemma shr_iter_clean n : forall r, 0 <= shr_m r -> clean r ->
  shr_m r mod 2 ^ Zpos n = 0 -> clean (iter_pos shr_1 n r).
Proof.
  induction n as [n IH|n IH|]; intros r Hr Hc Hmod; cbn [iter_pos].
  - rewrite (Pos2Z.inj_xI n) in Hmod.
    replace (2 * Z.pos n + 1) with (1 + (Z.pos n + Z.pos n)) in Hmod by lia.
    destruct (mod_pow_split (shr_m r) 1 (Z.pos n + Z.pos n)
                ltac:(lia) ltac:(lia) Hmod) as [H1 H2'].
    destruct (mod_pow_split (shr_m r / 2 ^ 1) (Z.pos n) (Z.pos n)
                ltac:(lia) ltac:(lia) H2') as [H2 H3].
    destruct (shr_1_m r Hr) as [E1 P1].
    assert (C1 : clean (shr_1 r)) by (apply shr_1_clean; assumption).
    destruct (shr_iter_m n _ P1) as [E2 P2].
    assert (C2 : clean (iter_pos shr_1 n (shr_1 r))).
    { apply IH; [exact P1|exact C1|]. rewrite E1. exact H2. }
    apply IH; [exact P2|exact C2|]. rewrite E2, E1. exact H3.
  - rewrite (Pos2Z.inj_xO n) in Hmod.
    replace (2 * Z.pos n) with (Z.pos n + Z.pos n) in Hmod by lia.
    destruct (mod_pow_split (shr_m r) (Z.pos n) (Z.pos n)
                ltac:(lia) ltac:(lia) Hmod) as [H1 H2].
    destruct (shr_iter_m n _ Hr) as [E2 P2].
    assert (C2 : clean (iter_pos shr_1 n r)) by (apply IH; assumption).
    apply IH; [exact P2|exact C2|]. rewrite E2. exact H2.
  - apply shr_1_clean; assumption.
Qed.

(** [shr] by [n] places, whatever the sign of [n]. *)
Lemma shr_spec r e n : 0 <= shr_m r ->
  shr_m (fst (shr r e n)) = shr_m r / 2 ^ Z.max n 0 /\
  snd (shr r e n) = e + Z.max n 0 /\
  0 <= shr_m (fst (shr r e n)) /\
  (clean r -> shr_m r mod 2 ^ Z.max n 0 = 0 -> clean (fst (shr r e n))).
Proof.
  intros Hr. destruct n as [|p|p]; simpl.
  - rewrite Z.div_1_r.
    split; [reflexivity|]. split; [lia|]. split; [exact Hr|].
    intros Hc _. exact Hc.
  - destruct (shr_iter_m p r Hr) as [E P].
    split; [exact E|]. split; [reflexivity|]. split; [exact P|].
    intros Hc Hm. apply shr_iter_clean; assumption.
  - rewrite Z.div_1_r.
    split; [reflexivity|]. split; [lia|]. split; [exact Hr|].
    intros Hc _. exact Hc.
Qed.

(** The rounding step adds at most one. *)
Lemma rne_range m l : m <= round_nearest_even m l <= m + 1.
Proof.
  destruct l as [|[]]; simpl; try lia. destruct (Z.even m); lia.
Qed.

Lemma loc_clean r : clean r -> loc_of_shr_record r = loc_Exact.
Proof. destruct r as [m rr ss]. unfold clean. simpl. intros [-> ->]. reflexivity. Qed.

Lemma record_m m l : shr_m (shr_record_of_loc m l) = m.
Proof. destruct l as [|[]]; reflexivity. Qed.

Lemma record_clean m : clean (shr_record_of_loc m loc_Exact).
Proof. split; reflexivity. Qed.

(** *** One rounding *)

Lemma pow2_pos k : 0 <= k -> 0 < 2 ^ k.
Proof. intros. apply Z.pow_pos_nonneg; lia. Qed.

Lemma pow2_split a b : 0 <= a -> 0 <= b -> 2 ^ (a + b) = 2 ^ a * 2 ^ b.
Proof. intros. apply Z.pow_add_r; lia. Qed.

(** The rounded result does not pass a representable bound [C * 2^ec]
    that the exact value [M * 2^e] respects, and does not overflow. *)
Lemma round_aux_bound s M e lx C ec :
  0 <= M -> 0 < C -> Zdigits2 C <= 53 -> e <= ec -> -1074 <= ec <= 971 ->
  (M < C * 2 ^ (ec - e) \/ (lx = loc_Exact /\ M = C * 2 ^ (ec - e))) ->
  match binary_round_aux prec emax s M e lx with
  | S754_zero s' => s' = s
  | S754_finite s' m2 e2 =>
      s' = s /\ -1074 <= e2 /\
      Zpos m2 * 2 ^ (e2 + 1074) <= C * 2 ^ (ec + 1074)
  | _ => False
  end.
Proof.
  intros HM HC HD He Hec Hb.
  assert (HDC : 1 <= Zdigits2 C).
  { destruct C; simpl; lia. }
  assert (F1 : Zdigits2 M + e <= Zdigits2 C + ec).
  { destruct (Z.eq_dec M 0) as [->|HM0]; [simpl; lia|].
    assert (Hle : M <= C * 2 ^ (ec - e)) by (destruct Hb as [?|[_ ?]]; lia).
    pose proof (Zdigits2_le M (C * 2 ^ (ec - e)) ltac:(lia)) as H.
    rewrite Zdigits2_shift in H by lia. lia. }
  unfold binary_round_aux, shr_fexp.
  set (n1 := fexp prec emax (Zdigits2 M + e) - e).
  pose proof (shr_spec (shr_record_of_loc M lx) e n1) as S1.
  rewrite record_m in S1. specialize (S1 HM).
  destruct (shr (shr_record_of_loc M lx) e n1) as [r1 e1].
  cbn [fst snd] in S1. destruct S1 as (Em1 & Ee1 & Pm1 & Cl1).
  set (k := Z.max n1 0) in *.
  assert (Hk : 0 <= k) by (unfold k; lia).
  assert (Hfe : fexp prec emax (Zdigits2 M + e) <= ec).
  { pose proof (fexp_le _ _ F1) as H. rewrite (fexp_val (Zdigits2 C + ec)) in H.
    lia. }
  assert (Hfm : -1074 <= fexp prec emax (Zdigits2 M + e)).
  { rewrite fexp_val. lia. }
  assert (F2 : e1 <= ec) by (unfold k, n1 in *; lia).
  assert (F2' : fexp prec emax (Zdigits2 M + e) <= e1) by (unfold k, n1 in *; lia).
  set (C' := C * 2 ^ (ec - e1)).
  assert (HC' : 0 < C').
  { unfold C'. pose proof (pow2_pos (ec - e1) ltac:(lia)). nia. }
  assert (Hsplit : C * 2 ^ (ec - e) = C' * 2 ^ k).
  { unfold C'. replace (ec - e) with ((ec - e1) + k) by lia.
    rewrite pow2_split by lia. lia. }
  rewrite Hsplit in Hb.
  pose proof (pow2_pos k Hk) as Pk.
  set (m1 := round_nearest_even (shr_m r1) (loc_of_shr_record r1)).
  assert (F3 : shr_m r1 <= m1 <= C').
  { pose proof (rne_range (shr_m r1) (loc_of_shr_record r1)) as R.
    fold m1 in R. split; [lia|].
    destruct Hb as [Hlt|[-> Heq]].
    - assert (shr_m r1 < C'); [|lia].
      rewrite Em1. apply Z.div_lt_upper_bound; lia.
    - assert (Hc1 : clean r1).
      { apply Cl1; [apply record_clean|]. rewrite Heq. apply Z.mod_mul. lia. }
      unfold m1. rewrite (loc_clean _ Hc1). simpl.
      rewrite Em1, Heq, Z.div_mul by lia. lia. }
  set (n2 := fexp prec emax (Zdigits2 m1 + e1) - e1).
  pose proof (shr_spec (shr_record_of_loc m1 loc_Exact) e1 n2) as S2.
  rewrite record_m in S2. specialize (S2 ltac:(lia)).
  destruct (shr (shr_record_of_loc m1 loc_Exact) e1 n2) as [r2 e2].
  cbn [fst snd] in S2. destruct S2 as (Em2 & Ee2 & Pm2 & _).
  set (j := Z.max n2 0) in *.
  assert (Hj : 0 <= j) by (unfold j; lia).
  pose proof (pow2_pos j Hj) as Pj.
  destruct (shr_m r2) as [|p|p] eqn:E2; [reflexivity| |lia].
  assert (Hm1 : 0 < m1).
  { destruct (Z.eq_dec m1 0) as [H0|H0]; [|lia].
    rewrite H0 in Em2. rewrite Z.div_0_l in Em2 by lia. discriminate. }
  assert (F5 : Zdigits2 m1 + e1 <= Zdigits2 C + ec).
  { pose proof (Zdigits2_le m1 C' ltac:(lia)) as H.
    unfold C' in H. rewrite Zdigits2_shift in H by lia. lia. }
  assert (Hf2 : fexp prec emax (Zdigits2 m1 + e1) <= ec).
  { pose proof (fexp_le _ _ F5) as H. rewrite (fexp_val (Zdigits2 C + ec)) in H.
    lia. }
  assert (He2 : e2 <= 971) by (unfold j, n2 in *; lia).
  assert (He2' : e1 <= e2) by lia.
  replace (e2 <=? emax - prec) with true
    by (symmetry; apply Z.leb_le; unfold emax, prec; lia).
  split; [reflexivity|]. split; [lia|].
  assert (Hdiv : Z.pos p * 2 ^ j <= m1).
  { rewrite Em2. rewrite Z.mul_comm. apply Z.mul_div_le. lia. }
  replace (e2 + 1074) with (j + (e1 + 1074)) by lia.
  rewrite pow2_split by lia.
  replace (ec + 1074) with ((ec - e1) + (e1 + 1074)) by lia.
  rewrite (pow2_split (ec - e1)) by lia.
  pose proof (pow2_pos (e1 + 1074) ltac:(lia)) as P1.
  fold C' . 
  assert (Z.pos p * 2 ^ j * 2 ^ (e1 + 1074) <= C' * 2 ^ (e1 + 1074)).
  { apply Z.mul_le_mono_nonneg_r; lia. }
  unfold C' in *. lia.
Qed.

(** *** Normalisation, sums and differences *)

Lemma iter_xO m d : Zpos (Pos.iter xO m d) = Zpos m * 2 ^ Zpos d.
Proof.
  induction d as [|d IH] using Pos.peano_ind.
  - simpl. lia.
  - rewrite Pos.iter_succ, Pos2Z.inj_succ, Z.pow_succ_r by lia.
    rewrite (Pos2Z.inj_xO (Pos.iter xO m d)), IH. lia.
Qed.

Lemma shl_align_spec mx ex ex' :
  snd (shl_align mx ex ex') = Z.min ex ex' /\
  Zpos (fst (shl_align mx ex ex'))
  = Zpos mx * 2 ^ (ex - Z.min ex ex').
Proof.
  unfold shl_align. destruct (ex' - ex) as [|d|d] eqn:E; cbn [fst snd].
  - replace (Z.min ex ex') with ex by lia. rewrite Z.sub_diag. simpl. lia.
  - replace (Z.min ex ex') with ex by lia. rewrite Z.sub_diag. simpl. lia.
  - replace (Z.min ex ex') with ex' by lia.
    rewrite iter_xO. replace (ex - ex') with (Z.pos d) by lia. auto.
Qed.

Lemma representable_nonneg B : representable B -> 0 <= B.
Proof.
  intros [->|(C & ec & -> & HC & _ & Hec)]; [lia|].
  pose proof (pow2_pos (ec + 1074) ltac:(lia)). nia.
Qed.

Lemma digits_scaled m e C ec :
  0 < m -> -1074 <= e -> 0 < C -> -1074 <= ec ->
  m * 2 ^ (e + 1074) <= C * 2 ^ (ec + 1074) ->
  Zdigits2 m + e <= Zdigits2 C + ec.
Proof.
  intros Hm He HC Hec H.
  pose proof (pow2_pos (e + 1074) ltac:(lia)).
  pose proof (Zdigits2_le (m * 2 ^ (e + 1074)) (C * 2 ^ (ec + 1074))
                ltac:(nia)) as D.
  rewrite !Zdigits2_shift in D by lia. lia.
Qed.

(** The same for [binary_round], on scaled values. *)
Lemma round_bound s m e C ec :
  -1074 <= e -> 0 < C -> Zdigits2 C <= 53 -> -1074 <= ec <= 971 ->
  Zpos m * 2 ^ (e + 1074) <= C * 2 ^ (ec + 1074) ->
  match binary_round prec emax s m e with
  | S754_zero s' => s' = s
  | S754_finite s' m2 e2 =>
      s' = s /\ -1074 <= e2 /\
      Zpos m2 * 2 ^ (e2 + 1074) <= C * 2 ^ (ec + 1074)
  | _ => False
  end.
Proof.
  intros He HC HD Hec Hv.
  pose proof (digits_scaled (Zpos m) e C ec ltac:(lia) He HC ltac:(lia) Hv) as F.
  unfold binary_round.
  pose proof (shl_align_spec m e (fexp prec emax (Zpos (digits2_pos m) + e)))
    as [Ez Mz].
  destruct (shl_align m e (fexp prec emax (Zpos (digits2_pos m) + e)))
    as [mz ez].
  cbn [fst snd] in Ez, Mz.
  change (Zpos (digits2_pos m)) with (Zdigits2 (Zpos m)) in *.
  assert (Hf : fexp prec emax (Zdigits2 (Zpos m) + e) <= ec).
  { pose proof (fexp_le _ _ F) as H. rewrite (fexp_val (Zdigits2 C + ec)) in H.
    lia. }
  assert (Hf' : -1074 <= fexp prec emax (Zdigits2 (Zpos m) + e)).
  { rewrite fexp_val. lia. }
  assert (Hez : -1074 <= ez <= ec) by lia.
  assert (Hez' : ez <= e) by lia.
  apply round_aux_bound; try lia.
  assert (Hle : Zpos mz <= C * 2 ^ (ec - ez)).
  { pose proof (pow2_pos (ez + 1074) ltac:(lia)) as P.
    apply Z.mul_le_mono_pos_r with (p := 2 ^ (ez + 1074)); [exact P|].
    rewrite Mz. rewrite <- Ez.
    rewrite <- !Z.mul_assoc, <- !pow2_split by lia.
    replace (e - ez + (ez + 1074)) with (e + 1074) by lia.
    replace (ec - ez + (ez + 1074)) with (ec + 1074) by lia.
    exact Hv. }
  destruct (Z.eq_dec (Zpos mz) (C * 2 ^ (ec - ez))) as [Heq|Hne].
  - right. split; [reflexivity|exact Heq].
  - left. lia.
Qed.

(** [binary_normalize] keeps an exact value inside an interval with
    representable ends around zero. *)
Lemma normalize_span M e L H sz :
  -1074 <= e -> representable L -> representable H ->
  - L <= M * 2 ^ (e + 1074) <= H ->
  fin (binary_normalize prec emax M e sz) = true /\
  - L <= val (binary_normalize prec emax M e sz) <= H.
Proof.
  intros He HL HH Hb.
  pose proof (representable_nonneg _ HL) as PL.
  pose proof (representable_nonneg _ HH) as PH.
  pose proof (pow2_pos (e + 1074) ltac:(lia)) as Pe.
  destruct M as [|m|m]; cbn [binary_normalize].
  - split; [reflexivity|simpl; lia].
  - destruct HH as [->|(C & ec & -> & HC & HD & Hec)]; [nia|].
    pose proof (round_bound false m e C ec He HC HD Hec ltac:(lia)) as R.
    destruct (binary_round prec emax false m e) as [s'|s'| |s' m2 e2];
      try contradiction.
    + split; [reflexivity|simpl; lia].
    + destruct R as (-> & He2 & Hv). cbn [fin val cond_Zopp].
      split; [apply Z.leb_le; exact He2|].
      pose proof (pow2_pos (e2 + 1074) ltac:(lia)). nia.
  - destruct HL as [->|(C & ec & -> & HC & HD & Hec)]; [nia|].
    pose proof (round_bound true m e C ec He HC HD Hec ltac:(lia)) as R.
    destruct (binary_round prec emax true m e) as [s'|s'| |s' m2 e2];
      try contradiction.
    + split; [reflexivity|simpl; lia].
    + destruct R as (-> & He2 & Hv). cbn [fin val cond_Zopp].
      split; [apply Z.leb_le; exact He2|].
      pose proof (pow2_pos (e2 + 1074) ltac:(lia)). nia.
Qed.

(** *** Valid Numbers *)

(** What [valid_binary] says of a finite Number. *)
Lemma valid_finite s m e :
  valid_binary (S754_finite s m e) = true ->
  -1074 <= e <= 971 /\ Zdigits2 (Zpos m) <= 53 /\
  (-1074 < e -> Zdigits2 (Zpos m) = 53).
Proof.
  cbn [valid_binary]. unfold bounded, canonical_mantissa.
  intros H. apply andb_true_iff in H. destruct H as [H1 H2].
  apply Z.eqb_eq in H1. apply Z.leb_le in H2.
  rewrite fexp_val in H1. unfold emax, prec in H2.
  change (Zpos (digits2_pos m)) with (Zdigits2 (Zpos m)) in H1. lia.
Qed.

Lemma valid_fin x : valid_binary x = true ->
  match x with S754_zero _ | S754_finite _ _ _ => True | _ => False end ->
  fin x = true.
Proof.
  destruct x as [s|s| |s m e]; try contradiction; intros Hv _; [reflexivity|].
  apply valid_finite in Hv. cbn [fin]. apply Z.leb_le. lia.
Qed.

Lemma align_val mx ex ez : ez <= ex -> -1074 <= ez ->
  Zpos (fst (shl_align mx ex ez)) * 2 ^ (ez + 1074) = Zpos mx * 2 ^ (ex + 1074).
Proof.
  intros H1 H2. destruct (shl_align_spec mx ex ez) as [_ E]. rewrite E.
  replace (Z.min ex ez) with ez by lia.
  rewrite <- Z.mul_assoc, <- pow2_split by lia. f_equal. f_equal. lia.
Qed.

Lemma cond_Zopp_mul s a b : cond_Zopp s a * b = cond_Zopp s (a * b).
Proof. destruct s; simpl; lia. Qed.

(** Differences and sums of finite Numbers. *)
Lemma SFsub_span x y L H :
  valid_binary x = true -> valid_binary y = true ->
  fin x = true -> fin y = true -> representable L -> representable H ->
  - L <= val x - val y <= H ->
  fin (SFsub prec emax x y) = true /\
  - L <= val (SFsub prec emax x y) <= H.
Proof.
  intros Vx Vy Fx Fy HL HH Hb.
  destruct x as [sx|sx| |sx mx ex]; try discriminate;
    destruct y as [sy|sy| |sy my ey]; try discriminate.
  - cbn [val] in Hb. destruct sx, sy; simpl; split; (reflexivity || lia).
  - cbn [SFsub fin]. split; [exact Fy|].
    cbn [val] in *. destruct sy; simpl in *; lia.
  - cbn [SFsub]. split; [exact Fx|]. cbn [val] in *. lia.
  - cbn [SFsub]. cbv zeta.
    apply valid_finite in Vx, Vy.
    apply normalize_span; try assumption; [lia|].
    rewrite Z.mul_sub_distr_r, !cond_Zopp_mul, !align_val by lia.
    exact Hb.
Qed.

Lemma SFadd_span x y L H :
  valid_binary x = true -> valid_binary y = true ->
  fin x = true -> fin y = true -> representable L -> representable H ->
  - L <= val x + val y <= H ->
  fin (SFadd prec emax x y) = true /\
  - L <= val (SFadd prec emax x y) <= H.
Proof.
  intros Vx Vy Fx Fy HL HH Hb.
  destruct x as [sx|sx| |sx mx ex]; try discriminate;
    destruct y as [sy|sy| |sy my ey]; try discriminate.
  - cbn [val] in Hb. destruct sx, sy; simpl; split; (reflexivity || lia).
  - cbn [SFadd fin]. split; [exact Fy|]. cbn [val] in *. lia.
  - cbn [SFadd]. split; [exact Fx|]. cbn [val] in *. lia.
  - cbn [SFadd]. cbv zeta.
    apply valid_finite in Vx, Vy.
    apply normalize_span; try assumption; [lia|].
    rewrite Z.mul_add_distr_r, !cond_Zopp_mul, !align_val by lia.
    exact Hb.
Qed.

(** *** Comparison *)

(** Of two valid Numbers the one of smaller exponent is the smaller. *)
Lemma canonical_lt s1 m1 e1 s2 m2 e2 :
  valid_binary (S754_finite s1 m1 e1) = true ->
  valid_binary (S754_finite s2 m2 e2) = true ->
  e1 < e2 ->
  Zpos m1 * 2 ^ (e1 + 1074) < Zpos m2 * 2 ^ (e2 + 1074).
Proof.
  intros V1 V2 Hlt.
  apply valid_finite in V1, V2.
  destruct V1 as (He1 & D1 & _). destruct V2 as (He2 & _ & D2).
  specialize (D2 ltac:(lia)).
  pose proof (Zdigits2_lt (Zpos m1) ltac:(lia)) as [_ U1].
  pose proof (Zdigits2_lt (Zpos m2) ltac:(lia)) as [L2 _].
  rewrite D2 in L2.
  assert (U1' : Zpos m1 < 2 ^ 53).
  { eapply Z.lt_le_trans; [exact U1|]. apply Z.pow_le_mono_r; lia. }
  pose proof (pow2_pos (e1 + 1074) ltac:(lia)) as P1.
  assert (A : Zpos m1 * 2 ^ (e1 + 1074) < 2 ^ 53 * 2 ^ (e1 + 1074)).
  { apply Z.mul_lt_mono_pos_r; lia. }
  assert (B : 2 ^ (53 - 1) * 2 ^ (e2 + 1074) <= Zpos m2 * 2 ^ (e2 + 1074)).
  { apply Z.mul_le_mono_nonneg_r; [|exact L2].
    pose proof (pow2_pos (e2 + 1074) ltac:(lia)). lia. }
  rewrite <- pow2_split in A, B by lia.
  assert (C : 2 ^ (53 + (e1 + 1074)) <= 2 ^ (53 - 1 + (e2 + 1074))).
  { apply Z.pow_le_mono_r; lia. }
  lia.
Qed.

(** Finite Numbers compare as their scaled values. *)
Lemma SFcompare_val x y :
  valid_binary x = true -> valid_binary y = true ->
  fin x = true -> fin y = true ->
  SFcompare x y = Some (val x ?= val y).
Proof.
  intros Vx Vy Fx Fy.
  destruct x as [sx|sx| |sx mx ex]; try discriminate;
    destruct y as [sy|sy| |sy my ey]; try discriminate.
  - reflexivity.
  - cbn [SFcompare val].
    pose proof (pow2_pos (ey + 1074)
                  ltac:(apply valid_finite in Vy; lia)) as P.
    destruct sy; cbn [cond_Zopp]; f_equal; symmetry.
    + apply Z.compare_gt_iff. nia.
    + apply Z.compare_lt_iff. nia.
  - cbn [SFcompare val].
    pose proof (pow2_pos (ex + 1074)
                  ltac:(apply valid_finite in Vx; lia)) as P.
    destruct sx; cbn [cond_Zopp]; f_equal; symmetry.
    + apply Z.compare_lt_iff. nia.
    + apply Z.compare_gt_iff. nia.
  - cbn [SFcompare val].
    pose proof (valid_finite _ _ _ Vx) as (Hex & _).
    pose proof (valid_finite _ _ _ Vy) as (Hey & _).
    pose proof (pow2_pos (ex + 1074) ltac:(lia)) as Px.
    pose proof (pow2_pos (ey + 1074) ltac:(lia)) as Py.
    assert (Hcmp :
      (Zpos mx * 2 ^ (ex + 1074) ?= Zpos my * 2 ^ (ey + 1074))
      = match ex ?= ey with
        | Lt => Lt
        | Gt => Gt
        | Eq => Pos.compare_cont Eq mx my
        end).
    { destruct (Z.compare_spec ex ey) as [E|E|E].
      - subst ey. rewrite <- Zmult_compare_compat_r by lia. reflexivity.
      - apply Z.compare_lt_iff. eapply canonical_lt; eassumption.
      - apply Z.compare_gt_iff. eapply canonical_lt; eassumption. }
    destruct sx, sy; cbn [cond_Zopp]; f_equal.
    + rewrite Z.compare_opp.
      rewrite (Z.compare_antisym (Z.pos mx * 2 ^ (ex + 1074))
                                 (Z.pos my * 2 ^ (ey + 1074))).
      rewrite Hcmp. destruct (ex ?= ey); reflexivity.
    + symmetry. apply Z.compare_lt_iff. lia.
    + symmetry. apply Z.compare_gt_iff. lia.
    + symmetry. exact Hcmp.
Qed.

Local Open Scope float_scope.

(** *** Numbers *)

Lemma leb_val x y :
  fin (Prim2SF x) = true -> fin (Prim2SF y) = true ->
  (x <=? y) = (val (Prim2SF x) <=? val (Prim2SF y))%Z.
Proof.
  intros Fx Fy. rewrite leb_spec. unfold SFleb.
  rewrite (SFcompare_val _ _ (Prim2SF_valid x) (Prim2SF_valid y) Fx Fy).
  unfold Z.leb. destruct (val (Prim2SF x) ?= val (Prim2SF y))%Z; reflexivity.
Qed.

(** [is_finite] and [is_nan] on the specification side. *)
Lemma is_finite_fin x : is_finite x = fin (Prim2SF x).
Proof.
  unfold is_finite, is_nan, is_infinity.
  rewrite !eqb_spec, abs_spec.
  change (Prim2SF infinity) with (S754_infinity false).
  pose proof (Prim2SF_valid x) as V.
  destruct (Prim2SF x) as [s|s| |s m e];
    [reflexivity|destruct s; reflexivity|reflexivity|].
  apply valid_finite in V. cbn [fin].
  replace (-1074 <=? e)%Z with true by (symmetry; apply Z.leb_le; lia).
  unfold SFeqb. cbn [SFabs].
  assert (H : forall s, SFcompare (S754_finite s m e) (S754_finite s m e)
                        = Some Eq).
  { intros []; cbn [SFcompare]; rewrite Z.compare_refl;
      change (Pos.compare_cont Eq m m) with (Pos.compare m m);
      rewrite Pos.compare_refl; reflexivity. }
  rewrite H. reflexivity.
Qed.

Lemma is_nan_SF x :
  is_nan x = match Prim2SF x with S754_nan => true | _ => false end.
Proof.
  unfold is_nan. rewrite eqb_spec.
  destruct (Prim2SF x) as [s|s| |s m e];
    [reflexivity|destruct s; reflexivity|reflexivity|].
  unfold SFeqb.
  assert (H : SFcompare (S754_finite s m e) (S754_finite s m e) = Some Eq).
  { destruct s; cbn [SFcompare]; rewrite Z.compare_refl;
      change (Pos.compare_cont Eq m m) with (Pos.compare m m);
      rewrite Pos.compare_refl; reflexivity. }
  rewrite H. reflexivity.
Qed.

Lemma sub_within x y L H :
  fin (Prim2SF x) = true -> fin (Prim2SF y) = true ->
  representable L -> representable H ->
  (- L <= val (Prim2SF x) - val (Prim2SF y) <= H)%Z ->
  within (x - y) (- L) H.
Proof.
  intros Fx Fy HL HH Hb. unfold within. rewrite sub_spec. unfold SF64sub.
  apply SFsub_span; auto using Prim2SF_valid.
Qed.

Lemma add_within x y L H :
  fin (Prim2SF x) = true -> fin (Prim2SF y) = true ->
  representable L -> representable H ->
  (- L <= val (Prim2SF x) + val (Prim2SF y) <= H)%Z ->
  within (x + y) (- L) H.
Proof.
  intros Fx Fy HL HH Hb. unfold within. rewrite add_spec. unfold SF64add.
  apply SFadd_span; auto using Prim2SF_valid.
Qed.

Lemma abs_within x L H :
  within x (- L) H -> within (abs x) 0 (Z.max L H).
Proof.
  unfold within. rewrite abs_spec. intros [F B].
  destruct (Prim2SF x) as [s|s| |s m e]; try discriminate.
  - split; [reflexivity|]. simpl in *. lia.
  - split; [exact F|]. cbn [SFabs val cond_Zopp] in *.
    destruct s; cbn [cond_Zopp] in B; lia.
Qed.

(** A mantissa below [2^53] normalises to a valid Number: it is what
    [ldexp] returns on a Number of that mantissa. *)
Lemma normalize_valid M e sz :
  (Z.abs M < 2 ^ 53)%Z ->
  valid_binary (binary_normalize prec emax M e sz) = true.
Proof.
  intros HM.
  assert (Hb : forall s m, (Zpos m < 2 ^ 53)%Z ->
            valid_binary (binary_round prec emax s m e) = true).
  { intros s m Hm.
    set (f0 := S754_finite s m (-1074)).
    assert (V0 : valid_binary f0 = true).
    { unfold f0. cbn [SpecFloat.valid_binary]. unfold bounded, canonical_mantissa.
      apply andb_true_iff. split; [|reflexivity].
      apply Z.eqb_eq. rewrite fexp_val.
      change (Zpos (digits2_pos m)) with (Zdigits2 (Zpos m)).
      assert (Zdigits2 (Zpos m) <= 53)%Z.
      { rewrite Zdigits2_log2 by lia.
        pose proof (proj1 (Z.log2_lt_pow2 (Zpos m) 53 ltac:(lia)) Hm). lia. }
      lia. }
    pose proof (Z_ldexp_spec (SF2Prim f0) (e + 1074)) as L.
    rewrite (Prim2SF_SF2Prim _ V0) in L. unfold f0 in L. cbn [SFldexp] in L.
    replace (-1074 + (e + 1074))%Z with e in L by lia.
    rewrite <- L. apply Prim2SF_valid. }
  destruct M as [|m|m]; cbn [binary_normalize]; [reflexivity| |];
    apply Hb; lia.
Qed.

(** *** The remainder, and the product with one *)

Lemma representable_float s m e :
  valid_binary (S754_finite s m e) = true ->
  representable (Zpos m * 2 ^ (e + 1074)).
Proof.
  intros V. apply valid_finite in V. right. exists (Zpos m), e.
  repeat split; lia.
Qed.

Lemma representable_int k : (0 <= k < 2 ^ 53)%Z -> representable (k * 2 ^ 1074).
Proof.
  intros Hk. destruct (Z.eq_dec k 0) as [->|Hne]; [left; reflexivity|].
  right. exists k, 0%Z. split; [reflexivity|]. split; [lia|].
  split; [|lia].
  rewrite Zdigits2_log2 by lia.
  pose proof (proj1 (Z.log2_lt_pow2 k 53 ltac:(lia)) ltac:(lia)). lia.
Qed.

(** The remainder of NaN or of an infinity is NaN. *)
Lemma rem_nan x c : fin (Prim2SF x) = false -> x %% c = nan.
Proof.
  intros F. pose proof (Prim2SF_valid x) as V. unfold JS.rem.
  destruct (Prim2SF x) as [s|s| |s m e]; try discriminate.
  - destruct (Prim2SF c); reflexivity.
  - destruct (Prim2SF c); reflexivity.
  - apply valid_finite in V. cbn [fin] in F. apply Z.leb_gt in F. lia.
Qed.

(** The remainder by a finite nonzero [c] is finite, at most [|c|] in
    magnitude, and not negative for a dividend that is not. *)
Lemma rem_within x c sc mc ec :
  Prim2SF c = S754_finite sc mc ec -> fin (Prim2SF x) = true ->
  fin (Prim2SF (x %% c)) = true /\
  (- (Zpos mc * 2 ^ (ec + 1074)) <= val (Prim2SF (x %% c))
   <= Zpos mc * 2 ^ (ec + 1074))%Z /\
  ((0 <= val (Prim2SF x))%Z -> (0 <= val (Prim2SF (x %% c)))%Z).
Proof.
  intros Hc Fx.
  pose proof (Prim2SF_valid c) as Vc. rewrite Hc in Vc.
  pose proof (representable_float _ _ _ Vc) as RB.
  pose proof (representable_nonneg _ RB) as PB.
  pose proof (valid_finite _ _ _ Vc) as (Hec & Dc & _).
  pose proof (Prim2SF_valid x) as Vx.
  unfold JS.rem. rewrite Hc.
  destruct (Prim2SF x) as [sx|sx| |sx mx ex] eqn:Ex; try discriminate.
  - rewrite Ex. split; [reflexivity|]. cbn [val]. split; lia.
  - pose proof (valid_finite _ _ _ Vx) as (Hex & Dx & _).
    cbv zeta.
    set (e := Z.min ex ec).
    assert (He : (-1074 <= e)%Z) by (unfold e; lia).
    rewrite !Z.shiftl_mul_pow2 by (unfold e; lia).
    set (r := ((Z.pos mx * 2 ^ (ex - e)) mod (Z.pos mc * 2 ^ (ec - e)))%Z).
    pose proof (pow2_pos (ex - e) ltac:(unfold e; lia)) as P1.
    pose proof (pow2_pos (ec - e) ltac:(unfold e; lia)) as P2.
    pose proof (pow2_pos (e + 1074) ltac:(lia)) as P3.
    assert (Hr : (0 <= r < Z.pos mc * 2 ^ (ec - e))%Z).
    { unfold r. apply Z.mod_pos_bound. nia. }
    assert (Hr53 : (r < 2 ^ 53)%Z).
    { pose proof (Zdigits2_lt (Zpos mx) ltac:(lia)) as [_ Ux].
      pose proof (Zdigits2_lt (Zpos mc) ltac:(lia)) as [_ Uc].
      assert (Zpos mx < 2 ^ 53)%Z.
      { eapply Z.lt_le_trans; [exact Ux|]. apply Z.pow_le_mono_r; lia. }
      assert (Zpos mc < 2 ^ 53)%Z.
      { eapply Z.lt_le_trans; [exact Uc|]. apply Z.pow_le_mono_r; lia. }
      destruct (Z.le_ge_cases ex ec) as [Hle|Hge].
      - assert (E0 : (ex - e = 0)%Z) by (unfold e; lia).
        assert (Hm : (r <= Z.pos mx * 2 ^ (ex - e))%Z).
        { unfold r. apply Z.mod_le; nia. }
        rewrite E0, Z.pow_0_r in Hm. lia.
      - assert (E0 : (ec - e = 0)%Z) by (unfold e; lia).
        destruct Hr as [_ Hr]. rewrite E0, Z.pow_0_r in Hr. lia. }
    assert (HrB : (r * 2 ^ (e + 1074) < Z.pos mc * 2 ^ (ec + 1074))%Z).
    { replace (ec + 1074)%Z with ((ec - e) + (e + 1074))%Z by lia.
      rewrite (pow2_split (ec - e) (e + 1074)) by (unfold e; lia).
      rewrite Z.mul_assoc.
      apply Z.mul_lt_mono_pos_r; [exact P3|apply Hr]. }
    destruct (r =? 0)%Z eqn:Er0.
    + destruct sx; [change (Prim2SF neg_zero) with (S754_zero true)
                   |change (Prim2SF zero) with (S754_zero false)];
        (split; [reflexivity|cbn [val]; split; lia]).
    + apply Z.eqb_neq in Er0.
      set (M := if sx then (- r)%Z else r).
      assert (VM : valid_binary (binary_normalize prec emax M e false) = true).
      { apply normalize_valid. unfold M. destruct sx; lia. }
      rewrite (Prim2SF_SF2Prim _ VM).
      destruct sx; unfold M.
      * destruct (normalize_span (- r) e (Zpos mc * 2 ^ (ec + 1074)) 0 false
                    He RB (or_introl eq_refl) ltac:(nia)) as [F B].
        split; [exact F|]. split; [lia|].
        cbn [val cond_Zopp]. intros Hx.
        pose proof (pow2_pos (ex + 1074) ltac:(lia)). lia.
      * destruct (normalize_span r e 0 (Zpos mc * 2 ^ (ec + 1074)) false
                    He (or_introl eq_refl) RB ltac:(nia)) as [F B].
        split; [exact F|]. split; [lia|]. intros _. lia.
Qed.

(** A valid Number written with [k] more bits rounds to itself. *)
Lemma round_aux_exact s m e k :
  valid_binary (S754_finite s m e) = true -> (0 <= k)%Z ->
  binary_round_aux prec emax s (Zpos m * 2 ^ k) (e - k) loc_Exact
  = S754_finite s m e.
Proof.
  intros V Hk. pose proof V as V'. apply valid_finite in V'.
  destruct V' as (He & Dm & _).
  cbn [SpecFloat.valid_binary] in V. unfold bounded, canonical_mantissa in V.
  apply andb_true_iff in V. destruct V as [Vc Vb].
  apply Z.eqb_eq in Vc.
  change (Zpos (digits2_pos m)) with (Zdigits2 (Zpos m)) in Vc.
  pose proof (pow2_pos k Hk) as Pk.
  unfold binary_round_aux, shr_fexp.
  rewrite Zdigits2_shift by lia.
  replace (Zdigits2 (Z.pos m) + k + (e - k))%Z
    with (Zdigits2 (Z.pos m) + e)%Z by lia.
  rewrite Vc.
  pose proof (shr_spec (shr_record_of_loc (Z.pos m * 2 ^ k) loc_Exact)
                (e - k) (e - (e - k))) as S1.
  rewrite record_m in S1. specialize (S1 ltac:(lia)).
  destruct (shr (shr_record_of_loc (Z.pos m * 2 ^ k) loc_Exact) (e - k)
              (e - (e - k))) as [r1 e1].
  cbn [fst snd] in S1. destruct S1 as (Em1 & Ee1 & _ & Cl1).
  replace (Z.max (e - (e - k)) 0) with k in * by lia.
  rewrite Z.div_mul in Em1 by lia.
  assert (Hc : clean r1).
  { apply Cl1; [apply record_clean|]. apply Z.mod_mul. lia. }
  rewrite (loc_clean _ Hc). cbn [round_nearest_even].
  rewrite Em1. replace e1 with e by lia.
  rewrite Vc, Z.sub_diag. cbn [shr shr_record_of_loc shr_m].
  rewrite Vb. reflexivity.
Qed.

(** Multiplication by one is exact. *)
Lemma mul_one y : 1 * y = y.
Proof.
  apply Prim2SF_inj. rewrite mul_spec. unfold SF64mul.
  change (Prim2SF 1) with (S754_finite false 4503599627370496 (-52)).
  pose proof (Prim2SF_valid y) as V.
  destruct (Prim2SF y) as [s|s| |s m e]; try reflexivity.
  cbn [SFmul xorb].
  replace (Z.pos (4503599627370496 * m)) with (Z.pos m * 2 ^ 52)%Z
    by (rewrite Pos2Z.inj_mul; change (2 ^ 52)%Z with 4503599627370496%Z; lia).
  replace (-52 + e)%Z with (e - 52)%Z by lia.
  apply round_aux_exact; [exact V|lia].
Qed.

(** *** Numbers that are not finite *)

Lemma mantissa_le m : (Zdigits2 (Zpos m) <= 53)%Z -> (Zpos m <= Zpos max_mantissa)%Z.
Proof.
  intros D. pose proof (Zdigits2_lt (Zpos m) ltac:(lia)) as [_ U].
  assert (Zpos m < 2 ^ 53)%Z.
  { eapply Z.lt_le_trans; [exact U|]. apply Z.pow_le_mono_r; lia. }
  change (2 ^ 53)%Z with 9007199254740992%Z in *. unfold max_mantissa. lia.
Qed.

(** NaN and the infinities, through [-], [/] by a finite Number. *)
Lemma not_fin_cases x :
  fin (Prim2SF x) = false ->
  Prim2SF x = S754_nan \/ exists s, Prim2SF x = S754_infinity s.
Proof.
  intros F. pose proof (Prim2SF_valid x) as V.
  destruct (Prim2SF x) as [s|s| |s m e]; try discriminate.
  - right. exists s. reflexivity.
  - left. reflexivity.
  - apply valid_finite in V. cbn [fin] in F. apply Z.leb_gt in F. lia.
Qed.

Lemma sub_not_fin x c sc mc ec :
  Prim2SF c = S754_finite sc mc ec ->
  fin (Prim2SF x) = false -> fin (Prim2SF (x - c)) = false.
Proof.
  intros Hc F. rewrite sub_spec. unfold SF64sub. rewrite Hc.
  destruct (not_fin_cases x F) as [->|[s ->]]; reflexivity.
Qed.

Lemma div_not_fin x c sc mc ec :
  Prim2SF c = S754_finite sc mc ec ->
  fin (Prim2SF x) = false -> fin (Prim2SF (x / c)) = false.
Proof.
  intros Hc F. rewrite div_spec. unfold SF64div. rewrite Hc.
  destruct (not_fin_cases x F) as [->|[s ->]]; reflexivity.
Qed.

End Rounding.

(* ================================================================== *)
(** ** Claims on the wrapping of latitude and longitude *)

Module WrapClaims.
Import Samples Binary64 Rounding.

Lemma upto_spec (test : Z -> bool) (k : nat) :
  upto k test = true ->
  forall n : Z, (- Z.of_nat k <= n <= Z.of_nat k)%Z -> test n = true.
Proof.
  induction k as [|k IH]; intros H n Hn.
  - simpl in H. assert (n = 0%Z) as -> by lia. exact H.
  - cbn [upto] in H.
    apply andb_true_iff in H. destruct H as [H Hrest].
    apply andb_true_iff in H. destruct H as [Hpos Hneg].
    destruct (Z.eq_dec n (Z.of_nat (S k))) as [->|Hne1]; [exact Hpos|].
    destruct (Z.eq_dec n (- Z.of_nat (S k))%Z) as [->|Hne2]; [exact Hneg|].
    apply IH; [exact Hrest|lia].
Qed.

Lemma wrapped_whole_degrees :
  upto span (fun n => in90 (Dms.wrap90 (degrees n))
                      && in180 (Dms.wrap180 (degrees n))) = true.
Proof. vm_compute. reflexivity. Qed.

(** The remainder operator: truncating, with the sign of the dividend, NaN
    for an infinite dividend or a zero divisor, the dividend itself for an
    infinite divisor. *)
Example rem_examples :
  JS.rem 5.5 2 = 1.5 /\ JS.rem (-5.5) 2 = -1.5 /\ JS.rem 5.5 (-2) = 1.5 /\
  JS.rem (-1) 360 = -1 /\ JS.rem 721 360 = 1 /\ JS.rem 0.5 0.25 = 0 /\
  JS.rem 1 infinity = 1 /\ JS.isNaN (JS.rem infinity 360) = true /\
  JS.isNaN (JS.rem 1 0) = true /\ JS.isNaN (JS.rem nan 1) = true.
Proof. vm_compute. repeat split. Qed.

(** The values the sources quote, and the ends of the ranges. *)
Example wrap_examples :
  Dms.wrap90 91 = 89 /\ Dms.wrap90 (-91) = -89 /\
  Dms.wrap180 181 = -179 /\ Dms.wrap180 (-181) = 179 /\
  Dms.wrap360 (-1) = 359 /\ Dms.wrap360 361 = 1 /\
  Dms.wrap90 270 = -90 /\ Dms.wrap90 (-270) = 90 /\
  Dms.wrap180 180 = 180 /\ Dms.wrap180 (-180) = -180 /\
  Dms.wrap180 540 = -180.
Proof. vm_compute. repeat split. Qed.

(** *** The range of the two wraps

    Both wraps end in [((t % 360) + 360) % 360], which is a Number from 0
    to 360 whenever [t] is finite and NaN otherwise; what follows it
    keeps the result inside the range. *)

(** The constants of the wraps, and their scaled values. *)
Lemma SF_360 : Prim2SF 360 = S754_finite false 6333186975989760 (-44).
Proof. reflexivity. Qed.
Lemma SF_90 : Prim2SF 90 = S754_finite false 6333186975989760 (-46).
Proof. reflexivity. Qed.
Lemma SF_180 : Prim2SF 180 = S754_finite false 6333186975989760 (-45).
Proof. reflexivity. Qed.

Lemma val_360 : val (Prim2SF 360) = deg 360.
Proof. vm_compute. reflexivity. Qed.
Lemma val_180 : val (Prim2SF 180) = deg 180.
Proof. vm_compute. reflexivity. Qed.
Lemma val_90 : val (Prim2SF 90) = deg 90.
Proof. vm_compute. reflexivity. Qed.
Lemma val_m180 : val (Prim2SF (-180)) = deg (-180).
Proof. vm_compute. reflexivity. Qed.
Lemma val_m90 : val (Prim2SF (-90)) = deg (-90).
Proof. vm_compute. reflexivity. Qed.

Lemma representable_deg k : (0 <= k < 2 ^ 53)%Z -> representable (deg k).
Proof. apply representable_int. Qed.

(** The sawtooth [((t % 360) + 360) % 360]. *)
Lemma saw_within t :
  fin (Prim2SF t) = true ->
  within (((t %% 360) + 360) %% 360) (deg 0) (deg 360).
Proof.
  intros Ft.
  destruct (rem_within t 360 _ _ _ SF_360 Ft) as (Fu & Bu & _).
  change (Z.pos 6333186975989760 * 2 ^ (-44 + 1074))%Z
    with (val (Prim2SF 360)) in Bu. rewrite val_360 in Bu.
  assert (Wv : within (t %% 360 + 360) (- deg 0) (deg 720)).
  { apply add_within; [exact Fu|reflexivity| | |].
    - apply representable_deg. vm_compute. split; [discriminate|reflexivity].
    - apply representable_deg. vm_compute. split; [discriminate|reflexivity].
    - rewrite val_360. unfold deg in *. lia. }
  destruct Wv as [Fv Bv].
  destruct (rem_within (t %% 360 + 360) 360 _ _ _ SF_360 Fv) as (Fw & Bw & Pw).
  change (Z.pos 6333186975989760 * 2 ^ (-44 + 1074))%Z
    with (val (Prim2SF 360)) in Bw. rewrite val_360 in Bw.
  split; [exact Fw|]. unfold deg in *. lia.
Qed.

Lemma saw_nan t :
  fin (Prim2SF t) = false -> ((t %% 360) + 360) %% 360 = nan.
Proof. intros Ft. rewrite (rem_nan _ _ Ft). vm_compute. reflexivity. Qed.

(** The range tests, on scaled values. *)
Lemma within_in180 g : within g (deg (-180)) (deg 180) -> in180 g = true.
Proof.
  intros [F B]. unfold in180.
  rewrite !leb_val by (exact F || reflexivity).
  rewrite val_m180, val_180.
  apply andb_true_iff. split; apply Z.leb_le; lia.
Qed.

Lemma within_in90 g : within g (deg (-90)) (deg 90) -> in90 g = true.
Proof.
  intros [F B]. unfold in90.
  rewrite !leb_val by (exact F || reflexivity).
  rewrite val_m90, val_90.
  apply andb_true_iff. split; apply Z.leb_le; lia.
Qed.

Lemma in180_within g : in180 g = true -> within g (deg (-180)) (deg 180).
Proof.
  unfold in180. intros H. apply andb_true_iff in H. destruct H as [H1 H2].
  assert (F : fin (Prim2SF g) = true).
  { rewrite leb_spec in H1, H2. pose proof (Prim2SF_valid g) as V.
    change (Prim2SF (-180)) with (S754_finite true 6333186975989760 (-45)) in H1.
    change (Prim2SF 180) with (S754_finite false 6333186975989760 (-45)) in H2.
    destruct (Prim2SF g) as [s|s| |s m e]; try reflexivity.
    - destruct s; discriminate.
    - discriminate.
    - apply valid_fin; [exact V|exact I]. }
  split; [exact F|].
  rewrite leb_val in H1, H2 by (exact F || reflexivity).
  rewrite val_m180 in H1. rewrite val_180 in H2.
  apply Z.leb_le in H1, H2. lia.
Qed.

Lemma in90_within g : in90 g = true -> within g (deg (-90)) (deg 90).
Proof.
  unfold in90. intros H. apply andb_true_iff in H. destruct H as [H1 H2].
  assert (F : fin (Prim2SF g) = true).
  { rewrite leb_spec in H1, H2. pose proof (Prim2SF_valid g) as V.
    change (Prim2SF (-90)) with (S754_finite true 6333186975989760 (-46)) in H1.
    change (Prim2SF 90) with (S754_finite false 6333186975989760 (-46)) in H2.
    destruct (Prim2SF g) as [s|s| |s m e]; try reflexivity.
    - destruct s; discriminate.
    - discriminate.
    - apply valid_fin; [exact V|exact I]. }
  split; [exact F|].
  rewrite leb_val in H1, H2 by (exact F || reflexivity).
  rewrite val_m90 in H1. rewrite val_90 in H2.
  apply Z.leb_le in H1, H2. lia.
Qed.

(** The tails of the two wraps. *)
Lemma sawtooth_range t :
  fin (Prim2SF t) = true ->
  in180 (((t %% 360) + 360) %% 360 - 180) = true.
Proof.
  intros Ft. destruct (saw_within t Ft) as [Fw Bw].
  apply within_in180.
  replace (deg (-180)) with (- deg 180)%Z by (unfold deg; lia).
  apply sub_within; [exact Fw|reflexivity| | |].
  - apply representable_deg. vm_compute. split; [discriminate|reflexivity].
  - apply representable_deg. vm_compute. split; [discriminate|reflexivity].
  - rewrite val_180. unfold deg in *. lia.
Qed.

Lemma triangle_range t :
  fin (Prim2SF t) = true ->
  in90 (1 * abs (((t %% 360) + 360) %% 360 - 180) - 90) = true.
Proof.
  intros Ft. destruct (saw_within t Ft) as [Fw Bw].
  rewrite mul_one.
  assert (Wd : within (((t %% 360) + 360) %% 360 - 180) (- deg 180) (deg 180)).
  { apply sub_within; [exact Fw|reflexivity| | |].
    - apply representable_deg. vm_compute. split; [discriminate|reflexivity].
    - apply representable_deg. vm_compute. split; [discriminate|reflexivity].
    - rewrite val_180. unfold deg in *. lia. }
  apply abs_within in Wd. rewrite Z.max_id in Wd. destruct Wd as [Fa Ba].
  apply within_in90.
  replace (deg (-90)) with (- deg 90)%Z by (unfold deg; lia).
  apply sub_within; [exact Fa|reflexivity| | |].
  - apply representable_deg. vm_compute. split; [discriminate|reflexivity].
  - apply representable_deg. vm_compute. split; [discriminate|reflexivity].
  - rewrite val_90. unfold deg in *. lia.
Qed.

(** [x - 90] is finite for every finite [x]. *)
Lemma sub90_fin x : fin (Prim2SF x) = true -> fin (Prim2SF (x - 90)) = true.
Proof.
  intros F. pose proof (Prim2SF_valid x) as V.
  destruct (Prim2SF x) as [s|s| |s m e] eqn:E; try discriminate.
  - rewrite sub_spec, E, SF_90. reflexivity.
  - pose proof (valid_finite _ _ _ V) as (He & Dm & _).
    pose proof (mantissa_le m Dm) as Hm.
    destruct (Pos.eq_dec m max_mantissa) as [->|Hne];
      [destruct (Z.eq_dec e 971) as [->|Hne]|].
    + assert (Hx : x = SF2Prim (S754_finite s max_mantissa 971))
        by (rewrite <- E; symmetry; apply SF2Prim_Prim2SF).
      rewrite Hx. destruct s; vm_compute; reflexivity.
    + set (K := (2 ^ 2044)%Z).
      assert (HK : (deg 90 <= K)%Z) by (vm_compute; discriminate).
      assert (Hp : (2 ^ (e + 1074) <= K)%Z)
        by (apply Z.pow_le_mono_r; lia).
      pose proof (pow2_pos (e + 1074) ltac:(lia)) as Pp.
      assert (RB : representable (Zpos max_mantissa * 2 ^ (971 + 1074))).
      { apply (representable_float false). reflexivity. }
      change (2 ^ (971 + 1074))%Z with (2 * K)%Z in RB.
      refine (proj1 (sub_within x 90 _ _ _ _ RB RB _));
        [rewrite E; exact F|reflexivity|].
      rewrite E, val_90. cbn [val].
      assert (Zpos max_mantissa * 2 ^ (e + 1074) <= Zpos max_mantissa * K)%Z
        by (apply Z.mul_le_mono_nonneg_l; lia).
      assert (0 < K)%Z by (apply pow2_pos; lia).
      assert (0 <= deg 90)%Z by (vm_compute; discriminate).
      clearbody K. unfold max_mantissa in *.
      destruct s; cbn [cond_Zopp]; lia.
    + set (K := (2 ^ 2044)%Z).
      assert (HK : (deg 90 <= K)%Z) by (vm_compute; discriminate).
      assert (Hp : (2 ^ (e + 1074) <= 2 * K)%Z).
      { change (2 * K)%Z with (2 ^ (971 + 1074))%Z.
        apply Z.pow_le_mono_r; lia. }
      pose proof (pow2_pos (e + 1074) ltac:(lia)) as Pp.
      assert (RB : representable (Zpos max_mantissa * 2 ^ (971 + 1074))).
      { apply (representable_float false). reflexivity. }
      change (2 ^ (971 + 1074))%Z with (2 * K)%Z in RB.
      refine (proj1 (sub_within x 90 _ _ _ _ RB RB _));
        [rewrite E; exact F|reflexivity|].
      rewrite E, val_90. cbn [val].
      assert (Hm' : (Zpos m <= Zpos max_mantissa - 1)%Z).
      { assert (Zpos m <> Zpos max_mantissa) by congruence. lia. }
      assert (Zpos m * 2 ^ (e + 1074) <= (Zpos max_mantissa - 1) * (2 * K))%Z
        by (apply Z.mul_le_mono_nonneg; lia).
      assert (0 < K)%Z by (apply pow2_pos; lia).
      assert (0 <= deg 90)%Z by (vm_compute; discriminate).
      clearbody K. unfold max_mantissa in *.
      destruct s; cbn [cond_Zopp]; lia.
Qed.

(** A finite Number divided by 360 is finite, below [2^1016]. *)
Lemma div360_within t :
  fin (Prim2SF t) = true ->
  within (t / 360) (- quotient_bound) quotient_bound.
Proof.
  intros F. pose proof (Prim2SF_valid t) as V.
  assert (PB : (0 < quotient_bound)%Z).
  { unfold quotient_bound. pose proof (pow2_pos 52 ltac:(lia)).
    pose proof (pow2_pos (964 + 1074) ltac:(lia)). nia. }
  unfold within. rewrite div_spec. unfold SF64div. rewrite SF_360.
  destruct (Prim2SF t) as [s|s| |s m e]; try discriminate.
  - cbn [SFdiv fin val]. split; [reflexivity|lia].
  - pose proof (valid_finite _ _ _ V) as (He & Dm & _).
    pose proof (mantissa_le m Dm) as Hm.
    cbn [SFdiv]. unfold SFdiv_core_binary.
    change (Zdigits2 (Z.pos 6333186975989760)) with 53%Z.
    set (e' := Z.min (fexp prec emax (Zdigits2 (Z.pos m) + e - (53 + -44)))
                     (e - -44)).
    assert (He' : (e' <= 962)%Z).
    { unfold e'. rewrite fexp_val. lia. }
    assert (He'' : (e' <= e + 44)%Z) by (unfold e'; lia).
    set (s' := (e - -44 - e')%Z).
    assert (Hs' : (0 <= s')%Z) by (unfold s'; lia).
    set (m' := match s' with
               | 0%Z => Z.pos m
               | Z.pos _ => Z.shiftl (Z.pos m) s'
               | Z.neg _ => 0%Z
               end).
    assert (Hm' : m' = (Z.pos m * 2 ^ s')%Z).
    { unfold m'. destruct s' as [|p|p] eqn:Es.
      - simpl. lia.
      - rewrite Z.shiftl_mul_pow2 by lia. reflexivity.
      - lia. }
    destruct (Z.div_eucl m' 6333186975989760) as [q r] eqn:Ediv.
    assert (Hq : q = (m' / 6333186975989760)%Z).
    { unfold Z.div. rewrite Ediv. reflexivity. }
    pose proof (pow2_pos s' Hs') as Ps.
    assert (Hq0 : (0 <= q)%Z).
    { rewrite Hq. apply Z.div_pos; [rewrite Hm'|]; lia. }
    assert (Hqb : (q < 2 ^ 52 * 2 ^ (964 - e'))%Z).
    { rewrite Hq. apply Z.div_lt_upper_bound; [lia|].
      rewrite Hm'.
      assert (A : (Z.pos m * 2 ^ s' < 2 ^ 53 * 2 ^ s')%Z).
      { apply Z.mul_lt_mono_pos_r; [exact Ps|].
        change (2 ^ 53)%Z with 9007199254740992%Z.
        unfold max_mantissa in Hm. lia. }
      assert (B : (2 ^ 53 * 2 ^ s' <= 2 ^ 52 * 2 ^ (1016 - e'))%Z).
      { rewrite <- !pow2_split by lia. apply Z.pow_le_mono_r; unfold s'; lia. }
      assert (C : (2 ^ 52 * 2 ^ (1016 - e')
                   <= 6333186975989760 * (2 ^ 52 * 2 ^ (964 - e')))%Z).
      { replace (1016 - e')%Z with (52 + (964 - e'))%Z by lia.
        rewrite (pow2_split 52 (964 - e')) by lia.
        pose proof (pow2_pos (964 - e') ltac:(lia)) as P1.
        change (2 ^ 52)%Z with 4503599627370496%Z. nia. }
      lia. }
    pose proof (round_aux_bound (xorb s false) q e'
                  (new_location 6333186975989760 r) (2 ^ 52) 964
                  Hq0 ltac:(reflexivity) ltac:(vm_compute; discriminate)
                  ltac:(lia) ltac:(lia) (or_introl Hqb)) as R.
    fold quotient_bound in R.
    destruct (binary_round_aux prec emax (xorb s false) q e'
                (new_location 6333186975989760 r)) as [s2|s2| |s2 m2 e2];
      try contradiction.
    + cbn [fin val]. split; [reflexivity|lia].
    + destruct R as (_ & He2 & Hv). cbn [fin val].
      split; [apply Z.leb_le; exact He2|].
      pose proof (pow2_pos (e2 + 1074) ltac:(lia)).
      destruct s2; cbn [cond_Zopp]; lia.
Qed.

(** The argument of the sawtooth of [wrap180] is finite whenever the
    product [360 * x] is. *)
Lemma saw_argument_fin x :
  fin (Prim2SF (360 * x)) = true ->
  fin (Prim2SF (360 * x / 360 - 180)) = true.
Proof.
  intros F. destruct (div360_within _ F) as [Fq Bq].
  assert (RB : representable (2 ^ 52 * 2 ^ (965 + 1074))).
  { right. exists (2 ^ 52)%Z, 965%Z. split; [reflexivity|].
    split; [reflexivity|]. split; [vm_compute; discriminate|lia]. }
  refine (proj1 (sub_within _ 180 _ _ Fq _ RB RB _)); [reflexivity|].
  rewrite val_180. unfold quotient_bound in Bq.
  assert (H : (deg 180 <= 2 ^ 52 * 2 ^ (964 + 1074))%Z)
    by (vm_compute; discriminate).
  assert (H2 : (2 ^ 52 * 2 ^ (965 + 1074)
                = 2 * (2 ^ 52 * 2 ^ (964 + 1074)))%Z).
  { replace (965 + 1074)%Z with (1 + (964 + 1074))%Z by lia.
    rewrite (pow2_split 1) by lia. change (2 ^ 1)%Z with 2%Z. lia. }
  rewrite H2.
  set (Q := (2 ^ 52 * 2 ^ (964 + 1074))%Z) in *. clearbody Q.
  assert (0 <= deg 180)%Z by (vm_compute; discriminate). lia.
Qed.

(** [360 * x] is finite when the exact product is at most the greatest
    finite Number. *)
Lemma mul360_fin x :
  fin (Prim2SF x) = true ->
  (360 * Z.abs (val (Prim2SF x))
   <= Zpos max_mantissa * 2 ^ (971 + 1074))%Z ->
  fin (Prim2SF (360 * x)) = true.
Proof.
  intros F B. pose proof (Prim2SF_valid x) as V.
  rewrite mul_spec. unfold SF64mul. rewrite SF_360.
  destruct (Prim2SF x) as [s|s| |s m e]; try discriminate; [reflexivity|].
  pose proof (valid_finite _ _ _ V) as (He & Dm & _).
  cbn [SFmul xorb].
  pose proof (pow2_pos (e + 1074) ltac:(lia)) as Pe.
  assert (Hv : (360 * (Z.pos m * 2 ^ (e + 1074))
                <= Zpos max_mantissa * 2 ^ (971 + 1074))%Z).
  { cbn [val] in B. destruct s; cbn [cond_Zopp] in B; lia. }
  assert (Hle : (Z.pos (6333186975989760 * m)
                 <= Zpos max_mantissa * 2 ^ (971 - (-44 + e)))%Z).
  { apply Z.mul_le_mono_pos_r with (p := (2 ^ (e + 1074))%Z); [exact Pe|].
    rewrite <- (Z.mul_assoc (Z.pos max_mantissa)).
    rewrite <- (pow2_split (971 - (-44 + e)) (e + 1074)) by lia.
    replace (971 - (-44 + e) + (e + 1074))%Z with (44 + (971 + 1074))%Z
      by lia.
    rewrite (pow2_split 44 (971 + 1074)) by lia.
    rewrite Pos2Z.inj_mul.
    change (Z.pos 6333186975989760) with (2 ^ 44 * 360)%Z.
    replace (2 ^ 44 * 360 * Z.pos m * 2 ^ (e + 1074))%Z
      with (2 ^ 44 * (360 * (Z.pos m * 2 ^ (e + 1074))))%Z by ring.
    replace (Z.pos max_mantissa * (2 ^ 44 * 2 ^ (971 + 1074)))%Z
      with (2 ^ 44 * (Z.pos max_mantissa * 2 ^ (971 + 1074)))%Z by ring.
    apply Z.mul_le_mono_nonneg_l; [|exact Hv].
    apply Z.pow_nonneg. lia. }
  pose proof (round_aux_bound s (Z.pos (6333186975989760 * m)) (-44 + e)
                loc_Exact (Zpos max_mantissa) 971 ltac:(lia) ltac:(lia)
                ltac:(vm_compute; discriminate) ltac:(lia) ltac:(lia)) as R.
  assert (Hb : (Z.pos (6333186975989760 * m)
                < Zpos max_mantissa * 2 ^ (971 - (-44 + e)) \/
                loc_Exact = loc_Exact /\
                Z.pos (6333186975989760 * m)
                = Zpos max_mantissa * 2 ^ (971 - (-44 + e)))%Z).
  { destruct (Z.eq_dec (Z.pos (6333186975989760 * m))
                       (Zpos max_mantissa * 2 ^ (971 - (-44 + e))))
      as [Heq|Hne].
    - right. split; [reflexivity|exact Heq].
    - left. lia. }
  specialize (R Hb).
  destruct (binary_round_aux prec emax s (Z.pos (6333186975989760 * m))
              (-44 + e) loc_Exact) as [s2|s2| |s2 m2 e2]; try contradiction.
  - reflexivity.
  - destruct R as (_ & He2 & _). cbn [fin]. apply Z.leb_le. exact He2.
Qed.

(** A Number of magnitude at most a finite [c] is finite, between [-c]
    and [c]. *)
Lemma abs_leb_within x c :
  fin (Prim2SF c) = true -> (JS.abs x <=? c) = true ->
  fin (Prim2SF x) = true /\
  (Z.abs (val (Prim2SF x)) <= val (Prim2SF c))%Z.
Proof.
  intros Fc H. unfold JS.abs in H.
  assert (F : fin (Prim2SF x) = true).
  { rewrite leb_spec, abs_spec in H. pose proof (Prim2SF_valid x) as V.
    pose proof (Prim2SF_valid c) as Vc.
    destruct (Prim2SF x) as [s|s| |s m e]; try reflexivity.
    - destruct (Prim2SF c); discriminate.
    - discriminate.
    - apply valid_fin; [exact V|exact I]. }
  split; [exact F|].
  assert (Fa : fin (Prim2SF (abs x)) = true).
  { rewrite abs_spec. destruct (Prim2SF x); try discriminate; exact F. }
  rewrite (leb_val _ _ Fa Fc) in H. apply Z.leb_le in H.
  rewrite abs_spec in H.
  destruct (Prim2SF x) as [s|s| |s m e]; try discriminate.
  - cbn [SFabs val] in *. lia.
  - cbn [SFabs val cond_Zopp] in *.
    apply Z.leb_le in F. pose proof (pow2_pos (e + 1074) ltac:(lia)).
    destruct s; cbn [cond_Zopp]; lia.
Qed.

(** A Number in range is not NaN. *)
Lemma in90_not_nan g : in90 g = true -> JS.isNaN g = false.
Proof.
  intros H. apply in90_within in H. destruct H as [F _].
  unfold JS.isNaN. rewrite is_nan_SF.
  destruct (Prim2SF g); try discriminate; reflexivity.
Qed.

Lemma in180_not_nan g : in180 g = true -> JS.isNaN g = false.
Proof.
  intros H. apply in180_within in H. destruct H as [F _].
  unfold JS.isNaN. rewrite is_nan_SF.
  destruct (Prim2SF g); try discriminate; reflexivity.
Qed.

(** [wrap90] of a finite Number is in [-90, 90]; of any other, NaN. *)
Lemma wrap90_cases (x : float) :
  (is_finite x = true /\ in90 (Dms.wrap90 x) = true) \/
  (is_finite x = false /\ Dms.wrap90 x = nan).
Proof.
  unfold Dms.wrap90.
  change ((-90 <=? x) && (x <=? 90)) with (in90 x).
  rewrite is_finite_fin.
  destruct (in90 x) eqn:G.
  - left. split; [|exact G]. apply in90_within in G. apply G.
  - cbv zeta. change (360 / 4) with 90. change (360 / 2) with 180.
    change (4 * 90 / 360) with 1.
    destruct (fin (Prim2SF x)) eqn:F.
    + left. split; [reflexivity|].
      apply triangle_range. apply sub90_fin. exact F.
    + right. split; [reflexivity|].
      rewrite saw_nan by (apply (sub_not_fin _ _ _ _ _ SF_90 F)).
      reflexivity.
Qed.

(** [wrap180] of a Number whose product with 360 is finite is in
    [-180, 180]; of any other, NaN. *)
Lemma wrap180_cases (x : float) :
  (is_finite (360 * x) = true /\ in180 (Dms.wrap180 x) = true) \/
  (is_finite (360 * x) = false /\ Dms.wrap180 x = nan).
Proof.
  unfold Dms.wrap180.
  change ((-180 <=? x) && (x <=? 180)) with (in180 x).
  rewrite is_finite_fin.
  destruct (in180 x) eqn:G.
  - left. split; [|exact G].
    apply in180_within in G. destruct G as [F B].
    apply mul360_fin; [exact F|].
    assert (H : (360 * deg 180
                 <= Z.pos max_mantissa * 2 ^ (971 + 1074))%Z)
      by (vm_compute; discriminate).
    replace (deg (-180)) with (- deg 180)%Z in B by (unfold deg; lia).
    lia.
  - cbv zeta. change (2 * 180) with 360. change (360 / 2) with 180.
    destruct (fin (Prim2SF (360 * x))) eqn:F.
    + left. split; [reflexivity|].
      apply sawtooth_range. apply saw_argument_fin. exact F.
    + right. split; [reflexivity|].
      rewrite saw_nan; [reflexivity|].
      apply (sub_not_fin _ _ _ _ _ SF_180).
      apply (div_not_fin _ _ _ _ _ SF_360). exact F.
Qed.

(** The two wraps on every Number: in range exactly on the inputs that
    stay finite, NaN on the others. *)
Lemma wrap90_in_range (x : float) :
  in90 (Dms.wrap90 x) = is_finite x /\
  JS.isNaN (Dms.wrap90 x) = negb (is_finite x).
Proof.
  destruct (wrap90_cases x) as [[-> H]|[-> H]].
  - split; [exact H|apply in90_not_nan; exact H].
  - rewrite H. split; reflexivity.
Qed.

Lemma wrap180_in_range (x : float) :
  in180 (Dms.wrap180 x) = is_finite (2 * 180 * x) /\
  JS.isNaN (Dms.wrap180 x) = negb (is_finite (2 * 180 * x)).
Proof.
  change (2 * 180) with 360.
  destruct (wrap180_cases x) as [[-> H]|[-> H]].
  - split; [exact H|apply in180_not_nan; exact H].
  - rewrite H. split; reflexivity.
Qed.

(** The product with 360 is finite up to 4.99e305. *)
Lemma longitude_short_of_overflow (x : float) :
  (JS.abs x <=? 4.99e305) = true -> is_finite (360 * x) = true.
Proof.
  intros H. rewrite is_finite_fin.
  destruct (abs_leb_within x 4.99e305 eq_refl H) as [F B].
  apply mul360_fin; [exact F|].
  assert (Hc : (360 * val (Prim2SF 4.99e305)
                <= Z.pos max_mantissa * 2 ^ (971 + 1074))%Z)
    by (vm_compute; discriminate).
  lia.
Qed.

(** C9 as stated fails. A point constructed at longitude -180 keeps -180,
    which is outside (-180, 180]; the sawtooth itself sends 540 to -180;
    and a point constructed at an infinite latitude holds NaN. *)
Lemma constructor_range_counterexample :
  LatLonEllipsoidal.new 0 (-180) 0
  = Ok (LatLonEllipsoidal.mk 0 (-180) 0 None None None) /\
  in180_open (-180) = false /\
  LatLonEllipsoidal.new 0 540 0
  = Ok (LatLonEllipsoidal.mk 0 (-180) 0 None None None) /\
  LatLonEllipsoidal.new infinity 0 0
  = Ok (LatLonEllipsoidal.mk nan 0 0 None None None) /\
  in90 nan = false.
Proof. vm_compute. repeat split. Qed.

(** C9, as the code has it. A constructed point holds [wrap90] of the
    latitude and [wrap180] of the longitude given. For every Number
    given, the latitude held is in [-90, 90] exactly when the latitude
    given is finite, and is NaN otherwise; the longitude held is in
    [-180, 180], both ends included, exactly when [2 * 180 * lon] is
    finite, as it is for every longitude up to 4.99e305 either way, and
    is NaN otherwise. A latitude in [-90, 90] and a longitude in
    [-180, 180] are kept as they are; 91 becomes 89 and 181 becomes -179.
    The setters wrap a Number with the same two functions, so within the
    same ranges, and throw TypeError when the wrapped value is NaN. *)
Theorem constructor_wraps (lat lon height : float) (p : LatLonEllipsoidal.t) :
  LatLonEllipsoidal.new lat lon height = Ok p ->
  (LatLonEllipsoidal.lat p = Dms.wrap90 lat /\
   LatLonEllipsoidal.lon p = Dms.wrap180 lon /\
   LatLonEllipsoidal.height p = height) /\
  (in90 (LatLonEllipsoidal.lat p) = is_finite lat /\
   JS.isNaN (LatLonEllipsoidal.lat p) = negb (is_finite lat)) /\
  (in180 (LatLonEllipsoidal.lon p) = is_finite (2 * 180 * lon) /\
   JS.isNaN (LatLonEllipsoidal.lon p) = negb (is_finite (2 * 180 * lon))) /\
  ((JS.abs lon <=? 4.99e305) = true ->
   in180 (LatLonEllipsoidal.lon p) = true) /\
  (in90 lat = true ->
   LatLonEllipsoidal.lat p = lat /\ in90 (LatLonEllipsoidal.lat p) = true) /\
  (in180 lon = true ->
   LatLonEllipsoidal.lon p = lon /\ in180 (LatLonEllipsoidal.lon p) = true) /\
  (Dms.wrap90 91 = 89 /\ Dms.wrap180 181 = -179) /\
  (forall n : Z, (-3600 <= n <= 3600)%Z ->
     in90 (Dms.wrap90 (degrees n)) = true /\
     in180 (Dms.wrap180 (degrees n)) = true) /\
  (forall (q : LatLonEllipsoidal.t) (v : float), JS.isNaN v = false ->
     LatLonEllipsoidal.set_lat q v
     = (LatLonEllipsoidal.with_lat q (Dms.wrap90 v),
        if JS.isNaN (Dms.wrap90 v) then Some (TypeError "invalid lat")
        else None) /\
     LatLonEllipsoidal.set_lon q v
     = (LatLonEllipsoidal.with_lon q (Dms.wrap180 v),
        if JS.isNaN (Dms.wrap180 v) then Some (TypeError "invalid lon")
        else None) /\
     in90 (Dms.wrap90 v) = is_finite v /\
     in180 (Dms.wrap180 v) = is_finite (2 * 180 * v)).
Proof.
  intros Hnew.
  assert (Hp : p = LatLonEllipsoidal.mk (Dms.wrap90 lat) (Dms.wrap180 lon)
                      height None None None).
  { unfold LatLonEllipsoidal.new in Hnew.
    destruct (JS.isNaN lat); [discriminate|].
    destruct (JS.isNaN lon); [discriminate|].
    destruct (JS.isNaN height); [discriminate|].
    congruence. }
  subst p. simpl.
  split; [repeat split|].
  split; [apply wrap90_in_range|].
  split; [apply wrap180_in_range|].
  split.
  { intros H. apply longitude_short_of_overflow in H.
    destruct (wrap180_cases lon) as [[_ H']|[H' _]]; [exact H'|congruence]. }
  split.
  { intros H. unfold Dms.wrap90. unfold in90 in H. rewrite H.
    split; [reflexivity|exact H]. }
  split.
  { intros H. unfold Dms.wrap180. unfold in180 in H. rewrite H.
    split; [reflexivity|exact H]. }
  split; [split; reflexivity|].
  split.
  { intros n Hn.
    pose proof (upto_spec _ span wrapped_whole_degrees n) as H.
    apply andb_true_iff. apply H. unfold span. lia. }
  intros q v Hv. unfold LatLonEllipsoidal.set_lat, LatLonEllipsoidal.set_lon.
  rewrite Hv.
  split; [destruct (JS.isNaN (Dms.wrap90 v)); reflexivity|].
  split; [destruct (JS.isNaN (Dms.wrap180 v)); reflexivity|].
  split; [apply wrap90_in_range|apply wrap180_in_range].
Qed.

(** [constructor_wraps] on a point given 91 and 181 degrees. *)
Lemma constructor_wraps_witness :
  LatLonEllipsoidal.new 91 181 0
  = Ok (LatLonEllipsoidal.mk 89 (-179) 0 None None None) /\
  LatLonEllipsoidal.lat (LatLonEllipsoidal.mk 89 (-179) 0 None None None)
  = Dms.wrap90 91 /\
  LatLonEllipsoidal.lon (LatLonEllipsoidal.mk 89 (-179) 0 None None None)
  = Dms.wrap180 181 /\
  LatLonEllipsoidal.height (LatLonEllipsoidal.mk 89 (-179) 0 None None None)
  = 0.
Proof.
  split; [vm_compute; reflexivity|].
  apply (proj1 (constructor_wraps 91 181 0
                  (LatLonEllipsoidal.mk 89 (-179) 0 None None None)
                  ltac:(vm_compute; reflexivity))).
Defined.

(** Between whole degrees, and at the greatest and the least finite
    Number. *)
Example constructor_wraps_between_degrees :
  LatLonEllipsoidal.new 90.5 180.5 0
  = Ok (LatLonEllipsoidal.mk 89.5 (-179.5) 0 None None None) /\
  LatLonEllipsoidal.new (-90.5) (-180.5) 0
  = Ok (LatLonEllipsoidal.mk (-89.5) 179.5 0 None None None) /\
  in90 (Dms.wrap90 1.7976931348623157e308) = true /\
  in90 (Dms.wrap90 (-1.7976931348623157e308)) = true /\
  Dms.wrap180 4.99e305 = -20.
Proof. vm_compute. repeat split; reflexivity. Qed.

(** A setter given an infinity assigns NaN and throws, where the
    constructor returns a point holding NaN. *)
Example setter_rejects_infinity :
  LatLonEllipsoidal.set_lat landsEnd infinity
  = (LatLonEllipsoidal.with_lat landsEnd nan,
     Some (TypeError "invalid lat")) /\
  LatLonEllipsoidal.set_lat landsEnd nan
  = (LatLonEllipsoidal.with_lat landsEnd nan,
     Some (TypeError "invalid lat")).
Proof. vm_compute. split; reflexivity. Qed.

(** Multiplying by 360 before dividing overflows for a finite longitude of
    great magnitude, and the wrapped value is NaN. *)
Example wrap180_overflow :
  is_finite 1e306 = true /\ JS.isNaN (Dms.wrap180 1e306) = true.
Proof. vm_compute. split; reflexivity. Qed.

End WrapClaims.

(* ================================================================== *)
(** ** Algebra of binary64 arithmetic

    Laws of [+ - * abs ==] that hold for every Number, read off the
    specification of the operations: the sign and the special values are
    computed apart from the rounding, and the rounding sees the same
    integers on both sides. *)

Module FloatAlgebra.
Import FloatFacts.

Lemma float_ext (x y : float) : Prim2SF x = Prim2SF y -> x = y.
Proof.
  intros H. rewrite <- (SF2Prim_Prim2SF x), <- (SF2Prim_Prim2SF y).
  now rewrite H.
Qed.

Lemma SFmul_comm (x y : spec_float) :
  SFmul prec emax x y = SFmul prec emax y x.
Proof.
  destruct x as [sx|sx| |sx mx ex], y as [sy|sy| |sy my ey]; simpl;
    try reflexivity; try (now rewrite xorb_comm).
  now rewrite xorb_comm, Pos.mul_comm, Z.add_comm.
Qed.

Lemma mul_comm (x y : float) : x * y = y * x.
Proof. apply float_ext. rewrite !mul_spec. apply SFmul_comm. Qed.

Lemma SFadd_comm (x y : spec_float) :
  SFadd prec emax x y = SFadd prec emax y x.
Proof.
  destruct x as [sx|sx| |sx mx ex], y as [sy|sy| |sy my ey]; simpl;
    try reflexivity; try (destruct sx, sy; reflexivity).
  now rewrite Z.min_comm, Z.add_comm.
Qed.

Lemma add_comm (x y : float) : x + y = y + x.
Proof. apply float_ext. rewrite !add_spec. apply SFadd_comm. Qed.

Lemma opp_involutive (x : float) : - - x = x.
Proof.
  apply float_ext. rewrite !opp_spec.
  destruct (Prim2SF x) as [s|s| |s m e]; simpl; now rewrite ?negb_involutive.
Qed.

Lemma compare_cont_refl (m : positive) (c : comparison) :
  Pos.compare_cont c m m = c.
Proof. revert c. induction m; simpl; auto. Qed.

Lemma SFeqb_refl (x : spec_float) :
  SFeqb x x = match x with S754_nan => false | _ => true end.
Proof.
  destruct x as [s|s| |s m e]; simpl; try reflexivity.
  - destruct s; reflexivity.
  - unfold SFeqb, SFcompare.
    destruct s; rewrite Z.compare_refl, compare_cont_refl; reflexivity.
Qed.

Lemma is_nan_spec (x : float) :
  PrimFloat.is_nan x
  = match Prim2SF x with S754_nan => true | _ => false end.
Proof.
  unfold PrimFloat.is_nan. rewrite eqb_spec, SFeqb_refl.
  destruct (Prim2SF x); reflexivity.
Qed.

Lemma is_nan_nan (x : float) : PrimFloat.is_nan x = true -> x = nan.
Proof.
  rewrite is_nan_spec. destruct (Prim2SF x) eqn:E; try discriminate.
  intros _. apply of_spec in E. exact E.
Qed.

Lemma eqb_refl (x : float) : (x =? x) = negb (PrimFloat.is_nan x).
Proof.
  rewrite is_nan_spec, eqb_spec, SFeqb_refl.
  destruct (Prim2SF x); reflexivity.
Qed.

Lemma SFcompare_antisym (x y : spec_float) :
  SFcompare y x = option_map CompOpp (SFcompare x y).
Proof.
  destruct x as [sx|sx| |sx mx ex], y as [sy|sy| |sy my ey]; simpl;
    try reflexivity;
    try (destruct sx; reflexivity); try (destruct sy; reflexivity);
    try (destruct sx, sy; reflexivity).
  destruct sx, sy; simpl; try reflexivity.
  - rewrite (Z.compare_antisym ex ey).
    destruct (ex ?= ey)%Z; simpl; try reflexivity.
    rewrite (Pos.compare_cont_antisym mx my Eq). reflexivity.
  - rewrite (Z.compare_antisym ex ey).
    destruct (ex ?= ey)%Z; simpl; try reflexivity.
    rewrite (Pos.compare_cont_antisym mx my Eq). reflexivity.
Qed.

Lemma eqb_sym (x y : float) : (x =? y) = (y =? x).
Proof.
  rewrite !eqb_spec. unfold SFeqb.
  rewrite (SFcompare_antisym (Prim2SF x) (Prim2SF y)).
  destruct (SFcompare (Prim2SF x) (Prim2SF y)) as [[| |]|]; reflexivity.
Qed.

Lemma is_nan_opp (x : float) : PrimFloat.is_nan (- x) = PrimFloat.is_nan x.
Proof.
  rewrite !is_nan_spec, opp_spec.
  destruct (Prim2SF x); reflexivity.
Qed.

(** A Number minus itself is [+0], or [NaN] when the Number is infinite or
    [NaN]. *)
Lemma sub_self (x : float) : x - x = zero \/ x - x = nan.
Proof.
  pose proof (sub_spec x x) as H. unfold SF64sub, SFsub in H.
  destruct (Prim2SF x) as [s|s| |s m e]; apply of_spec in H.
  - left. rewrite H. destruct s; reflexivity.
  - right. rewrite H. destruct s; reflexivity.
  - right. rewrite H. reflexivity.
  - left. rewrite H. rewrite Z.sub_diag. reflexivity.
Qed.

Lemma SFabs_round_aux (s s' : bool) (m e : Z) (l : location) :
  SFabs (binary_round_aux prec emax s m e l)
  = SFabs (binary_round_aux prec emax s' m e l).
Proof.
  unfold binary_round_aux.
  destruct (shr_fexp prec emax m e l) as [mrs' e'].
  destruct (shr_fexp prec emax _ e' loc_Exact) as [mrs'' e''].
  destruct (shr_m mrs''); try reflexivity.
  destruct (e'' <=? emax - prec)%Z; reflexivity.
Qed.

Lemma SFabs_normalize_opp (m e : Z) :
  SFabs (binary_normalize prec emax (- m) e false)
  = SFabs (binary_normalize prec emax m e false).
Proof.
  destruct m as [|p|p]; simpl; try reflexivity;
    unfold binary_round;
    destruct (shl_align p e _) as [mz ez]; apply SFabs_round_aux.
Qed.

Lemma SFabs_sub_sym (x y : spec_float) :
  SFabs (SFsub prec emax x y) = SFabs (SFsub prec emax y x).
Proof.
  destruct x as [sx|sx| |sx mx ex], y as [sy|sy| |sy my ey]; simpl;
    try reflexivity; try (destruct sx, sy; reflexivity).
  rewrite (Z.min_comm ey ex).
  rewrite <- SFabs_normalize_opp. f_equal. f_equal. lia.
Qed.

Lemma abs_sub_sym (x y : float) : abs (x - y) = abs (y - x).
Proof.
  apply float_ext. rewrite !abs_spec, !sub_spec. apply SFabs_sub_sym.
Qed.

(** A sum of zeros and [NaN]s is a zero or [NaN]. *)
Lemma add_zero_or_nan (a b : float) :
  Samples.zero_or_nan a -> Samples.zero_or_nan b ->
  Samples.zero_or_nan (a + b).
Proof.
  unfold Samples.zero_or_nan.
  intros [->|[->| ->]] [->|[->| ->]]; vm_compute; auto.
Qed.

End FloatAlgebra.

(* ================================================================== *)
(** ** Properties of Vector3d *)

Module VectorFacts.
Import FloatFacts FloatAlgebra Vector3d.

(** What the constructor returns. *)
Lemma vector_new_Ok (x y z : float) (v : t) :
  new x y z = Ok v -> v = mk x y z /\ numeric v = true.
Proof.
  unfold new, numeric.
  destruct (JS.isNaN x || JS.isNaN y || JS.isNaN z) eqn:E; [discriminate|].
  intros H. injection H as <-. simpl. rewrite E. auto.
Qed.

Lemma new_numeric (x y z : float) :
  numeric (mk x y z) = true -> new x y z = Ok (mk x y z).
Proof.
  unfold new, numeric. simpl.
  destruct (JS.isNaN x || JS.isNaN y || JS.isNaN z); [discriminate|].
  reflexivity.
Qed.


Lemma dot_comm (a b : t) : dot a b = dot b a.
Proof.
  unfold dot.
  rewrite (mul_comm (x a)), (mul_comm (y a)), (mul_comm (z a)).
  reflexivity.
Qed.

(** X1. [a.plus(b)] and [b.plus(a)] are the same vector or the same
    exception, and [a.dot(b)] is [b.dot(a)], for all vectors: the sums and
    products of binary64 commute, although they do not associate. *)
Theorem plus_dot_commute (a b : t) :
  plus a b = plus b a /\ dot a b = dot b a.
Proof.
  split.
  - unfold plus.
    rewrite (add_comm (x a)), (add_comm (y a)), (add_comm (z a)).
    reflexivity.
  - apply dot_comm.
Qed.

(** X2. Negating a vector twice gives the vector back: whenever
    [v.negate()] returns [w], [w.negate()] returns [v], zeros and
    infinities included. *)
Theorem negate_twice (v w : t) :
  negate v = Ok w -> negate w = Ok v.
Proof.
  unfold negate. intros H. apply vector_new_Ok in H. destruct H as [-> Hn].
  simpl. rewrite !opp_involutive.
  destruct v as [vx vy vz]. simpl in *.
  apply new_numeric. unfold numeric in *. simpl in *.
  unfold JS.isNaN in *. rewrite !is_nan_opp in Hn. exact Hn.
Qed.

Lemma negate_twice_witness :
  negate (mk 3 (-0) infinity) = Ok (mk (-3) 0 neg_infinity) /\
  negate (mk (-3) 0 neg_infinity) = Ok (mk 3 (-0) infinity).
Proof.
  split; [reflexivity|].
  apply (negate_twice (mk 3 (-0) infinity) (mk (-3) 0 neg_infinity)).
  reflexivity.
Defined.

(** A difference of equal Numbers leaves a zero vector or none. *)
Lemma zero_or_throw (p q r : float) :
  (p - p = zero \/ p - p = nan) ->
  (q - q = zero \/ q - q = nan) ->
  (r - r = zero \/ r - r = nan) ->
  new (p - p) (q - q) (r - r) = Ok (mk 0 0 0)
  \/ isTypeError (new (p - p) (q - q) (r - r)) = true.
Proof.
  intros [-> | ->] [-> | ->] [-> | ->]; vm_compute; auto.
Qed.

(** X3. A vector minus itself, and the cross product of a vector with
    itself, is the zero vector [[+0, +0, +0]] whenever it is a vector at
    all: the call throws TypeError when a component, or a product of two
    components, is infinite or [NaN], and returns no other vector. *)
Theorem minus_cross_self (v : t) :
  (minus v v = Ok (mk 0 0 0) \/ isTypeError (minus v v) = true) /\
  (cross v v = Ok (mk 0 0 0) \/ isTypeError (cross v v) = true).
Proof.
  split.
  - unfold minus. apply zero_or_throw; apply sub_self.
  - unfold cross. cbv zeta.
    rewrite (mul_comm (z v) (y v)), (mul_comm (x v) (z v)),
            (mul_comm (y v) (x v)).
    apply zero_or_throw; apply sub_self.
Qed.

Section Built.

Context {M : Math.Lib}.

(** X4. No vector that the constructor and the methods return has a
    [NaN] component: the constructor rejects one, every method that makes
    a vector goes through the constructor, and [unit] returns either a
    new vector or its receiver. *)
Theorem built_numeric (v : t) : built v -> numeric v = true.
Proof.
  induction 1 as [x y z v H|a b v _ _ _ _ H|a b v _ _ _ _ H|a s v _ _ H
                 |a s v _ _ H|a b v _ _ _ _ H|a v _ _ H|a v _ IH H
                 |a axis angle v _ _ _ _ H].
  - apply vector_new_Ok in H. tauto.
  - unfold plus in H. apply vector_new_Ok in H. tauto.
  - unfold minus in H. apply vector_new_Ok in H. tauto.
  - unfold times in H. destruct (JS.isNaN s); [discriminate|].
    apply vector_new_Ok in H. tauto.
  - unfold dividedBy in H. destruct (JS.isNaN s); [discriminate|].
    apply vector_new_Ok in H. tauto.
  - unfold cross in H. apply vector_new_Ok in H. tauto.
  - unfold negate in H. apply vector_new_Ok in H. tauto.
  - unfold unit in H. cbv zeta in H.
    destruct (JS.eq (length a) 1); [injection H as <-; exact IH|].
    destruct (JS.eq (length a) 0); [injection H as <-; exact IH|].
    apply vector_new_Ok in H. tauto.
  - unfold rotateAround in H. cbv zeta in H.
    destruct (unit a) as [p|e]; [|discriminate]. simpl in H.
    destruct (unit axis) as [q|e]; [|discriminate]. simpl in H.
    apply vector_new_Ok in H. tauto.
Qed.

End Built.

Lemma built_numeric_witness :
  @built Ref.math (mk 0 0 1) /\ numeric (mk 0 0 1) = true.
Proof.
  assert (H : @built Ref.math (mk 0 0 1)).
  { apply (built_unit (mk 0 0 1)); [|reflexivity].
    apply (built_new 0 0 1). reflexivity. }
  split; [exact H|].
  apply (@built_numeric Ref.math (mk 0 0 1)). exact H.
Defined.






Section Angle.

Context {M : Math.Lib}.


End Angle.

End VectorFacts.

(* ================================================================== *)
(** ** Properties of the equality of points *)

Module EqualsFacts.
Import FloatFacts FloatAlgebra LatLonEllipsoidalMethods.

(** Frame objects told apart by their names, as those of the table
    [referenceFrames] are. *)
Definition frames_by_name : Identity.Frames :=
  {| Identity.same := fun f g => String.eqb (Frame.name f) (Frame.name g);
     Identity.same_refl := fun f => String.eqb_refl (Frame.name f);
     Identity.same_sym :=
       fun f g => String.eqb_sym (Frame.name f) (Frame.name g) |}.

Lemma gap_sym (a b : float) :
  JS.gt (JS.abs (a - b)) EPSILON = JS.gt (JS.abs (b - a)) EPSILON.
Proof. unfold JS.abs. rewrite (abs_sub_sym a b). reflexivity. Qed.

Lemma gap_self (a : float) : JS.gt (JS.abs (a - a)) EPSILON = false.
Proof. destruct (sub_self a) as [-> | ->]; reflexivity. Qed.

Lemma gap_nan (a b : float) :
  JS.isNaN a = true -> JS.gt (JS.abs (a - b)) EPSILON = false.
Proof.
  intros H. apply is_nan_nan in H. subst a.
  assert (E : nan - b = nan).
  { apply float_ext. rewrite sub_spec. reflexivity. }
  rewrite E. reflexivity.
Qed.

Lemma same_datum_sym (d e : Datum) :
  DatumProps.same d e = DatumProps.same e d.
Proof.
  destruct d, e; simpl; try reflexivity.
  - apply String.eqb_sym.
  - apply Nat.eqb_sym.
Qed.

Lemma same_datum_refl (d : Datum) : DatumProps.same d d = true.
Proof.
  destruct d; simpl; try reflexivity.
  - apply String.eqb_refl.
  - apply Nat.eqb_refl.
Qed.

Lemma differ_datum_sym (a b : option Datum) :
  differ_datum a b = differ_datum b a.
Proof.
  destruct a, b; simpl; try reflexivity. now rewrite same_datum_sym.
Qed.

Lemma differ_datum_refl (a : option Datum) : differ_datum a a = false.
Proof. destruct a; simpl; [now rewrite same_datum_refl|reflexivity]. Qed.

Lemma differ_epoch_sym (a b : option float) :
  ReferenceFrameModule.differ a b = ReferenceFrameModule.differ b a.
Proof.
  destruct a, b; simpl; try reflexivity.
  unfold JS.neq. now rewrite eqb_sym.
Qed.

Lemma differ_epoch_refl (a : option float) :
  ReferenceFrameModule.differ a a
  = match a with Some e => JS.isNaN e | None => false end.
Proof.
  destruct a; simpl; [|reflexivity].
  unfold JS.neq, JS.isNaN. rewrite eqb_refl. apply negb_involutive.
Qed.

Section Frames.

Context {I : Identity.Frames}.

Lemma differ_frame_sym (a b : option Frame.t) :
  differ_frame a b = differ_frame b a.
Proof.
  destruct a, b; simpl; try reflexivity. now rewrite Identity.same_sym.
Qed.

Lemma differ_frame_refl (a : option Frame.t) : differ_frame a a = false.
Proof. destruct a; simpl; [now rewrite Identity.same_refl|reflexivity]. Qed.

(** X6. [p.equals(q)] is [q.equals(p)], for all points: each of the six
    comparisons is symmetric, the three on coordinates because
    [|a - b|] and [|b - a|] are the same Number. *)
Theorem equals_symmetric (p q : LatLonEllipsoidal.t) :
  equals p q = equals q p.
Proof.
  unfold equals.
  rewrite (gap_sym (LatLonEllipsoidal.lat p)),
          (gap_sym (LatLonEllipsoidal.lon p)),
          (gap_sym (LatLonEllipsoidal.height p)),
          (differ_datum_sym (LatLonEllipsoidal.datum p)),
          (differ_frame_sym (referenceFrame p)),
          (differ_epoch_sym (epoch p)).
  reflexivity.
Qed.

(** X7. A point equals itself, even one whose coordinates are [NaN] or
    infinite, unless its epoch is [NaN]: [p.equals(p)] is false exactly
    when [p.epoch] is [NaN]. *)
Theorem equals_reflexive (p : LatLonEllipsoidal.t) :
  equals p p
  = match epoch p with Some e => negb (JS.isNaN e) | None => true end.
Proof.
  unfold equals.
  rewrite !gap_self, differ_datum_refl, differ_frame_refl,
          differ_epoch_refl.
  destruct (epoch p) as [e|]; [|reflexivity].
  destruct (JS.isNaN e); reflexivity.
Qed.

(** X8. A [NaN] latitude is equal to every latitude: when the latitude of
    [p] is [NaN] (the constructor stores one for an infinite argument),
    [p.equals(q)] is what it would be with the latitude of [q] in its
    place. *)
Theorem equals_NaN_latitude (p q : LatLonEllipsoidal.t) :
  JS.isNaN (LatLonEllipsoidal.lat p) = true ->
  equals p q
  = equals (LatLonEllipsoidal.with_lat p (LatLonEllipsoidal.lat q)) q.
Proof.
  intros H. unfold equals.
  rewrite (gap_nan _ (LatLonEllipsoidal.lat q) H).
  change (LatLonEllipsoidal.lat
            (LatLonEllipsoidal.with_lat p (LatLonEllipsoidal.lat q)))
    with (LatLonEllipsoidal.lat q).
  rewrite gap_self. reflexivity.
Qed.

End Frames.

Lemma equals_NaN_latitude_witness :
  LatLonEllipsoidal.new infinity 10 0
  = Ok (LatLonEllipsoidal.mk nan 10 0 None None None) /\
  @equals frames_by_name
          (LatLonEllipsoidal.mk nan 10 0 None None None)
          (LatLonEllipsoidal.mk 45 10 0 None None None) = true.
Proof.
  split; [reflexivity|].
  rewrite (@equals_NaN_latitude frames_by_name
             (LatLonEllipsoidal.mk nan 10 0 None None None)
             (LatLonEllipsoidal.mk 45 10 0 None None None));
    reflexivity.
Defined.

End EqualsFacts.

(* ================================================================== *)
(** ** Properties of the datum classes *)

Module DatumFacts.
Import DatumModule.

Section Facts.

Context {M : Math.Lib}.

(** [LatLonEllipsoidal.prototype.toCartesian] throws nothing but
    TypeError. *)
Lemma toCartesian_throws (p : LatLonEllipsoidal.t) (e : exn) :
  toCartesian p = Throw e -> isTypeError (@Throw Cartesian.t e) = true.
Proof.
  unfold toCartesian. cbv zeta.
  destruct (match LatLonEllipsoidal._datum p with
            | Some d => DatumProps.ellipsoid d
            | None =>
                match LatLonEllipsoidal._referenceFrame p with
                | Some rf => Frame.ellipsoid rf
                | None => Some LatLonEllipsoidal.ellipsoids_WGS84
                end
            end) as [el|].
  - unfold Cartesian.new.
    match goal with
    | |- (if ?c then _ else _) = _ -> _ => destruct c; [|discriminate]
    end.
    intros H. injection H as <-. reflexivity.
  - intros H. injection H as <-. reflexivity.
Qed.

(** What the constructor of [LatLonEllipsoidal_Datum] returns. *)
Lemma datum_new_Ok (lat lon h : float) (datum : option Datum)
      (p : LatLonEllipsoidal.t) :
  LatLonEllipsoidal_Datum.new lat lon h datum = Ok p ->
  LatLonEllipsoidal.datum p = datum /\ unrecognised datum = false.
Proof.
  unfold LatLonEllipsoidal_Datum.new. cbv zeta.
  destruct datum as [d|].
  - destruct (unrecognised (Some d)) eqn:E; [discriminate|].
    destruct (LatLonEllipsoidal.new lat lon h) as [q|e]; [|discriminate].
    simpl. intros H. injection H as <-. auto.
  - discriminate.
Qed.

(** A coordinate whose tag is absent or has an ellipsoid is converted to
    no datum. *)
Lemma convertDatum_throws (c : Cartesian.t) (toDatum : option Datum) :
  Cartesian._datum c = None \/ unrecognised (Cartesian._datum c) = false ->
  isTypeError (convertDatum c toDatum) = true.
Proof.
  intros Hc. unfold convertDatum. cbn [convertDatum_fuel].
  destruct toDatum as [toD|]; [|reflexivity].
  destruct (unrecognised (Some toD)) eqn:Hu; [reflexivity|].
  destruct (Cartesian._datum c) as [thisD|]; [|reflexivity].
  destruct Hc as [Hnone|Hrec]; [discriminate|].
  assert (Hthis : DatumProps.same thisD datums_WGS84 = false).
  { destruct thisD; simpl in *; try reflexivity; discriminate. }
  assert (Hto : DatumProps.same toD datums_WGS84 = false).
  { destruct toD; simpl in *; try reflexivity; discriminate. }
  rewrite Hthis, Hto. reflexivity.
Qed.

(** What [toCartesian] of the class returns. *)
Lemma datum_toCartesian_Ok (p : LatLonEllipsoidal.t) (c : Cartesian.t) :
  LatLonEllipsoidal_Datum.toCartesian p = Ok c ->
  Cartesian._datum c = LatLonEllipsoidal.datum p /\
  (LatLonEllipsoidal.datum p = None
   \/ unrecognised (LatLonEllipsoidal.datum p) = false).
Proof.
  unfold LatLonEllipsoidal_Datum.toCartesian.
  destruct (toCartesian p) as [c0|e]; [|discriminate]. simpl.
  unfold new, LatLonEllipsoidal.datum.
  destruct (LatLonEllipsoidal._datum p) as [d|].
  - unfold unrecognised.
    destruct (DatumProps.ellipsoid d); [|discriminate].
    destruct (Cartesian.new _ _ _) as [c1|e]; [|discriminate].
    simpl. intros H. injection H as <-. simpl. auto.
  - unfold Cartesian.new.
    match goal with
    | |- (if ?b then _ else _) = _ -> _ => destruct b; [discriminate|]
    end.
    intros H. injection H as <-. simpl. auto.
Qed.

(** What [toLatLon] of [Cartesian_Datum] returns. *)
Lemma datum_toLatLon_Ok (c : Cartesian.t) (q : LatLonEllipsoidal.t) :
  LatLonEllipsoidal_Datum.toLatLon c None = Ok q ->
  LatLonEllipsoidal.datum q = Cartesian._datum c /\
  unrecognised (Cartesian._datum c) = false.
Proof.
  unfold LatLonEllipsoidal_Datum.toLatLon. cbn [bind]. cbv zeta.
  destruct (Cartesian._datum c) as [d|]; [|discriminate].
  destruct (unrecognised (Some d)) eqn:Hu; [discriminate|].
  destruct (toLatLon c _) as [ll|e]; [|discriminate]. cbn [bind].
  intros H. apply datum_new_Ok in H. destruct H as [H1 H2]. auto.
Qed.

(** X9. The constructor of [LatLonEllipsoidal_Datum] returns exactly
    when a datum is given that has an ellipsoid and the constructor of
    [LatLonEllipsoidal] accepts the coordinates; the point is then the
    one of that constructor with the datum set. With the default datum
    and with any datum of the table [datums], whose entries have no
    [ellipsoid], it throws TypeError for all coordinates. *)
Theorem datum_constructor (lat lon h : float) (datum : option Datum)
        (p : LatLonEllipsoidal.t) (key : string) :
  (LatLonEllipsoidal_Datum.new lat lon h datum = Ok p <->
   exists d q,
     datum = Some d /\ DatumProps.ellipsoid d <> None /\
     LatLonEllipsoidal.new lat lon h = Ok q /\
     p = LatLonEllipsoidal.with_datum q (Some d)) /\
  LatLonEllipsoidal_Datum.new lat lon h None
  = Throw (TypeError "unrecognised datum") /\
  LatLonEllipsoidal_Datum.new lat lon h (Some (DatumEntry key))
  = Throw (TypeError "unrecognised datum").
Proof.
  split; [|split; reflexivity].
  unfold LatLonEllipsoidal_Datum.new. cbv zeta. split.
  - destruct datum as [d|]; [|discriminate].
    unfold unrecognised.
    destruct (DatumProps.ellipsoid d) as [el|] eqn:E; [|discriminate].
    destruct (LatLonEllipsoidal.new lat lon h) as [q|e]; [|discriminate].
    cbn [bind]. intros H. injection H as <-.
    exists d, q. rewrite E. repeat split. discriminate.
  - intros (d & q & -> & Hd & Hq & ->). unfold unrecognised.
    destruct (DatumProps.ellipsoid d); [|contradiction].
    rewrite Hq. reflexivity.
Qed.

(** X10. The datum survives the conversions between geodetic and
    Cartesian coordinates: when [p.toCartesian()] returns [c] and
    [c.toLatLon()] returns [q], both [c] and [q] carry the datum of
    [p]. *)
Theorem datum_kept (p q : LatLonEllipsoidal.t) (c : Cartesian.t) :
  LatLonEllipsoidal_Datum.toCartesian p = Ok c ->
  LatLonEllipsoidal_Datum.toLatLon c None = Ok q ->
  Cartesian._datum c = LatLonEllipsoidal.datum p /\
  LatLonEllipsoidal.datum q = LatLonEllipsoidal.datum p.
Proof.
  intros Hc Hq. apply datum_toCartesian_Ok in Hc. apply datum_toLatLon_Ok in Hq.
  destruct Hc as [Hc _]. destruct Hq as [Hq _].
  split; [exact Hc|]. rewrite Hq. exact Hc.
Qed.

(** X11. [convertDatum] of [LatLonEllipsoidal_Datum] returns for no
    point that the constructor of the class can build and for no target:
    it throws TypeError, at the target (a table entry is not recognised)
    or inside the conversion of the Cartesian coordinate, where neither
    the point's datum nor the target is [datums.WGS84]. *)
Theorem latlon_convertDatum_throws (lat lon h : float)
        (datum toDatum : option Datum) (p : LatLonEllipsoidal.t) :
  LatLonEllipsoidal_Datum.new lat lon h datum = Ok p ->
  isTypeError (LatLonEllipsoidal_Datum.convertDatum p toDatum) = true.
Proof.
  intros Hp. apply datum_new_Ok in Hp. destruct Hp as [Hd Hrec].
  unfold LatLonEllipsoidal_Datum.convertDatum.
  destruct (unrecognised toDatum); [reflexivity|].
  destruct (LatLonEllipsoidal_Datum.toCartesian p) as [c|e] eqn:Hc.
  - simpl. apply datum_toCartesian_Ok in Hc. destruct Hc as [Hc _].
    pose proof (convertDatum_throws c toDatum) as H.
    rewrite Hc, Hd in H. specialize (H (or_intror Hrec)).
    destruct (convertDatum c toDatum) as [c'|e']; [discriminate|].
    simpl. exact H.
  - simpl. unfold LatLonEllipsoidal_Datum.toCartesian in Hc.
    destruct (toCartesian p) as [c0|e0] eqn:H0.
    + simpl in Hc. unfold new in Hc.
      destruct (LatLonEllipsoidal.datum p) as [d|].
      * destruct (DatumProps.ellipsoid d).
        -- unfold Cartesian.new in Hc. simpl in Hc.
           match type of Hc with
           | (let* _ := if ?b then _ else _ in _) = _ => destruct b
           end; simpl in Hc; [|discriminate].
           injection Hc as <-. reflexivity.
        -- injection Hc as <-. reflexivity.
      * unfold Cartesian.new in Hc.
        match type of Hc with
        | (if ?b then _ else _) = _ => destruct b
        end; [|discriminate].
        injection Hc as <-. reflexivity.
    + simpl in Hc. injection Hc as <-.
      apply (toCartesian_throws p e0 H0).
Qed.

End Facts.

Lemma datum_kept_witness :
  @LatLonEllipsoidal_Datum.toCartesian Ref.math Fixtures.greenwich_point
  = Ok Fixtures.greenwich_xyz /\
  @LatLonEllipsoidal_Datum.toLatLon Ref.math Fixtures.greenwich_xyz None
  = Ok Fixtures.greenwich_back /\
  Cartesian._datum Fixtures.greenwich_xyz = Some Samples.OSGB36 /\
  LatLonEllipsoidal.datum Fixtures.greenwich_back = Some Samples.OSGB36.
Proof.
  assert (H1 : @LatLonEllipsoidal_Datum.toCartesian
                 Ref.math Fixtures.greenwich_point
               = Ok Fixtures.greenwich_xyz) by (vm_compute; reflexivity).
  assert (H2 : @LatLonEllipsoidal_Datum.toLatLon
                 Ref.math Fixtures.greenwich_xyz None
               = Ok Fixtures.greenwich_back) by (vm_compute; reflexivity).
  split; [exact H1|]. split; [exact H2|].
  exact (@datum_kept Ref.math Fixtures.greenwich_point
           Fixtures.greenwich_back Fixtures.greenwich_xyz H1 H2).
Defined.

Lemma latlon_convertDatum_throws_witness :
  LatLonEllipsoidal_Datum.new 51.4778 (-0.0016) 0 (Some Samples.OSGB36)
  = Ok Fixtures.greenwich_point /\
  isTypeError (@LatLonEllipsoidal_Datum.convertDatum
                 Ref.math Fixtures.greenwich_point (Some Samples.ED50))
  = true.
Proof.
  assert (H : LatLonEllipsoidal_Datum.new 51.4778 (-0.0016) 0
                (Some Samples.OSGB36) = Ok Fixtures.greenwich_point)
    by (vm_compute; reflexivity).
  split; [exact H|].
  exact (@latlon_convertDatum_throws Ref.math 51.4778 (-0.0016) 0
           (Some Samples.OSGB36) (Some Samples.ED50)
           Fixtures.greenwich_point H).
Defined.

End DatumFacts.

(* ================================================================== *)
(** ** Properties of the reference-frame classes *)

Module FrameFacts.
Import ReferenceFrameModule.

(** What the constructor of [Cartesian_ReferenceFrame] returns. *)
Lemma cartesian_new_Ok (x y z : float) (rf : option Frame.t)
      (e : option float) (c : Cartesian.t) :
  new x y z rf e = Ok c ->
  Cartesian._referenceFrame c = rf /\
  Cartesian._epoch c = (if truthy e then e else None) /\
  Cartesian._datum c = None.
Proof.
  unfold new. cbv zeta.
  match goal with
  | |- (if ?b then _ else _) = _ -> _ => destruct b; [discriminate|]
  end.
  match goal with
  | |- (if ?b then _ else _) = _ -> _ => destruct b; [discriminate|]
  end.
  destruct (Cartesian.new x y z) as [c0|e0]; [|discriminate].
  cbn [bind]. intros H. injection H as <-. simpl. auto.
Qed.

(** A transformed coordinate carries no frame, epoch or datum yet. *)
Lemma applyTransform_Ok (c : Cartesian.t) (params rates : list float)
      (δt : float) (c' : Cartesian.t) :
  applyTransform c params rates δt = Ok c' ->
  Cartesian._referenceFrame c' = None /\
  Cartesian._epoch c' = None /\
  Cartesian._datum c' = None.
Proof.
  unfold applyTransform. cbv zeta. intros H.
  apply cartesian_new_Ok in H. simpl in H. exact H.
Qed.

(** The two setters that end [convertReferenceFrame], on a fresh
    coordinate. *)
Lemma tag_Ok (newC : Cartesian.t) (target : option Frame.t)
      (e : option float) (c' : Cartesian.t) :
  Cartesian._referenceFrame newC = None ->
  Cartesian._epoch newC = None ->
  Cartesian._datum newC = None ->
  (let* c1 := set_referenceFrame newC target in set_epoch c1 e) = Ok c' ->
  Cartesian._referenceFrame c' = target /\
  Cartesian._epoch c' = Some (number e) /\
  Cartesian._datum c' = None.
Proof.
  intros Hf He Hd. unfold set_referenceFrame.
  destruct (unrecognised target) eqn:Hu; [discriminate|].
  cbn [bind]. unfold set_epoch.
  destruct (JS.isNaN (number e)); [discriminate|].
  cbn [Cartesian._referenceFrame Cartesian._epoch].
  destruct target as [rf|]; [|discriminate].
  unfold unrecognised in Hu.
  destruct (Frame.epoch rf) as [t0|] eqn:Ht; [|discriminate].
  rewrite He. cbn [differ].
  intros H. injection H as <-. simpl. auto.
Qed.

Lemma map_opp_twice (l : list float) :
  map (fun p => - p) (map (fun p => - p) l) = l.
Proof.
  induction l as [|a l IH]; simpl; [reflexivity|].
  rewrite FloatAlgebra.opp_involutive, IH. reflexivity.
Qed.

(** X12. Reversing a transform twice restores it: the parameters and the
    rates that [reverseTransform] negates, and the datum parameters that
    [convertDatum] negates for the way back to WGS84, come back bit for
    bit when negated again, zeros and infinities included. *)
Theorem reverse_twice (tx : Tx) (t : list float) :
  (let* r := reverseTransform (Some tx) in reverseTransform (Some r))
  = Ok tx /\
  DatumModule.negate (DatumModule.negate t) = t.
Proof.
  split.
  - destruct tx as [e ps rs]. cbn [reverseTransform bind tx_epoch tx_params
                                   tx_rates].
    rewrite !map_opp_twice. reflexivity.
  - unfold DatumModule.negate. apply map_opp_twice.
Qed.

Section Table.

Variable txParams : list (string * Tx).

(** What [convertReferenceFrame] returns. *)
Lemma convert_Ok (this c' : Cartesian.t)
        (target : option Frame.t) :
  convertReferenceFrame txParams this target = Ok c' ->
  c' = this \/
  (Cartesian._referenceFrame c' = target /\
   Cartesian._epoch c' = Some (number (epoch this)) /\
   Cartesian._datum c' = None).
Proof.
  unfold convertReferenceFrame.
  destruct target as [newTrf|]; [|discriminate].
  destruct (unrecognised (Some newTrf)); [discriminate|].
  destruct (Cartesian._referenceFrame this) as [oldTrf|]; [|discriminate].
  destruct (String.eqb _ _); [intros H; injection H as <-; auto|].
  destruct (_ && _); [intros H; injection H as <-; auto|].
  destruct (_ && _); [intros H; injection H as <-; auto|].
  cbv zeta.
  match goal with
  | |- (let* newC := ?r in _) = _ -> _ =>
      assert (Hr : forall n, r = Ok n ->
                Cartesian._referenceFrame n = None /\
                Cartesian._epoch n = None /\ Cartesian._datum n = None);
      [|destruct r as [newC|e0]; [|discriminate]]
  end.
  { intros n.
    destruct (lookup txParams _) as [f|]; [|destruct (lookup txParams _) as [r|]].
    - cbn [bind]. apply applyTransform_Ok.
    - cbn [bind reverseTransform]. apply applyTransform_Ok.
    - destruct (JSString.truthy _).
      + cbn [bind].
        destruct (defined _) as [tx1|]; [|discriminate]. cbn [bind].
        destruct (applyTransform this _ _ _) as [c1|]; [|discriminate].
        cbn [bind].
        destruct (defined _) as [tx2|]; [|discriminate]. cbn [bind].
        apply applyTransform_Ok.
      + destruct (reverseTransform _) as [r2|]; [|discriminate]. cbn [bind].
        destruct (reverseTransform _) as [r1|]; [|discriminate].
        cbn [bind defined].
        destruct (applyTransform this _ _ _) as [c1|]; [|discriminate].
        cbn [bind].
        apply applyTransform_Ok. }
  intros H. right.
  destruct (Hr newC eq_refl) as (H1 & H2 & H3).
  cbn [bind] in H.
  apply (tag_Ok newC (Some newTrf) (epoch this) c' H1 H2 H3 H).
Qed.

(** X13. A coordinate that [convertReferenceFrame] returns is the
    receiver itself (equal names, or ITRF against WGS84), or a new
    coordinate tagged with the target frame, without datum, whose stored
    epoch is the observation epoch of the receiver, so that its [epoch]
    is that of the receiver whenever that one is a nonzero Number; this
    for every table of transforms, whichever of the direct, reverse or
    two-step paths was taken. *)
Theorem convertReferenceFrame_tags (this c' : Cartesian.t)
        (target : option Frame.t) :
  convertReferenceFrame txParams this target = Ok c' ->
  c' = this \/
  (Cartesian._referenceFrame c' = target /\
   Cartesian._epoch c' = Some (number (epoch this)) /\
   Cartesian._datum c' = None /\
   (truthy (epoch this) = true -> epoch c' = epoch this)).
Proof.
  intros H. apply convert_Ok in H. destruct H as [H|(H1 & H2 & H3)].
  - left. exact H.
  - right. repeat split; try assumption.
    intros Ht. unfold epoch at 1. rewrite H2.
    destruct (epoch this) as [v|]; [|discriminate].
    cbn [number]. cbn [truthy] in *. rewrite Ht. reflexivity.
Qed.

End Table.

Section Methods.

Context {M : Math.Lib}.

(** The epoch read off a coordinate whose [_epoch] is the truthy part of
    [e], [e] being truthy or the epoch of the coordinate's frame. *)
Lemma epoch_of (c : Cartesian.t) (e : option float) (rf : Frame.t) :
  Cartesian._epoch c = (if truthy e then e else None) ->
  truthy e = true
  \/ (Cartesian._referenceFrame c = Some rf /\ Frame.epoch rf = e) ->
  epoch c = e.
Proof.
  intros H Hc. unfold epoch. rewrite H.
  destruct (truthy e) eqn:Ht.
  - rewrite Ht. reflexivity.
  - destruct Hc as [Hc|[Hf He]]; [discriminate|].
    cbn [truthy]. rewrite Hf. exact He.
Qed.

(** What the constructor of [LatLonEllipsoidal_ReferenceFrame] returns. *)
Lemma latlon_new_Ok (lat lon h : float) (rf : Frame.t) (e : option float)
      (p : LatLonEllipsoidal.t) :
  LatLonEllipsoidal_ReferenceFrame.new lat lon h (Some rf) e = Ok p ->
  LatLonEllipsoidal._referenceFrame p = Some rf /\
  LatLonEllipsoidal._epoch p = (if truthy e then e else None).
Proof.
  unfold LatLonEllipsoidal_ReferenceFrame.new. cbv zeta.
  destruct (unrecognised (Some rf)); [discriminate|].
  match goal with
  | |- (if ?b then _ else _) = _ -> _ => destruct b; [discriminate|]
  end.
  destruct (LatLonEllipsoidal.new lat lon h) as [p0|e0]; [|discriminate].
  cbn [bind]. intros H. injection H as <-. simpl. auto.
Qed.

(** What [toLatLon] of [Cartesian_ReferenceFrame] returns. *)
Lemma frame_toLatLon_Ok (c : Cartesian.t) (p : LatLonEllipsoidal.t) :
  LatLonEllipsoidal_ReferenceFrame.toLatLon c = Ok p ->
  LatLonEllipsoidal._referenceFrame p = Cartesian._referenceFrame c /\
  LatLonEllipsoidal_ReferenceFrame.epoch p = Ok (epoch c).
Proof.
  unfold LatLonEllipsoidal_ReferenceFrame.toLatLon.
  destruct (Cartesian._referenceFrame c) as [rf|] eqn:Hf; [|discriminate].
  destruct (toLatLon c _) as [ll|e0]; [|discriminate]. cbn [bind].
  intros H. apply latlon_new_Ok in H. destruct H as [H1 H2].
  split; [exact H1|].
  unfold LatLonEllipsoidal_ReferenceFrame.epoch. rewrite H1, H2.
  unfold epoch. rewrite Hf.
  destruct (truthy (Cartesian._epoch c)) eqn:Ht.
  - rewrite Ht, Ht. reflexivity.
  - cbn [truthy].
    destruct (truthy (Frame.epoch rf)) eqn:Ht'.
    + rewrite Ht'. reflexivity.
    + reflexivity.
Qed.

(** What [toCartesian] of [LatLonEllipsoidal_ReferenceFrame] returns. *)
Lemma frame_toCartesian_Ok (p : LatLonEllipsoidal.t) (c : Cartesian.t) :
  LatLonEllipsoidal_ReferenceFrame.toCartesian p = Ok c ->
  Cartesian._referenceFrame c = LatLonEllipsoidal._referenceFrame p /\
  LatLonEllipsoidal_ReferenceFrame.epoch p = Ok (epoch c).
Proof.
  unfold LatLonEllipsoidal_ReferenceFrame.toCartesian.
  destruct (toCartesian p) as [c0|e0]; [|discriminate]. cbn [bind].
  destruct (LatLonEllipsoidal_ReferenceFrame.epoch p) as [e|e1] eqn:He;
    [|discriminate].
  cbn [bind]. intros H. apply cartesian_new_Ok in H.
  destruct H as (H1 & H2 & _). split; [exact H1|]. f_equal. symmetry.
  unfold LatLonEllipsoidal_ReferenceFrame.epoch in He.
  destruct (truthy (LatLonEllipsoidal._epoch p)) eqn:Ht.
  - injection He as <-. unfold epoch. rewrite H2, Ht, Ht. reflexivity.
  - destruct (LatLonEllipsoidal._referenceFrame p) as [rf|] eqn:Hf;
      [|discriminate].
    injection He as <-.
    apply (epoch_of c (Frame.epoch rf) rf H2). right. auto.
Qed.

(** X14. The reference frame and the observation epoch survive the
    conversions between geodetic and Cartesian coordinates: when
    [p.toCartesian()] returns [c] and [c.toLatLon()] returns [q], [q] is
    on the frame of [p] and [q.epoch] is [p.epoch]. *)
Theorem frame_and_epoch_kept (p q : LatLonEllipsoidal.t) (c : Cartesian.t) :
  LatLonEllipsoidal_ReferenceFrame.toCartesian p = Ok c ->
  LatLonEllipsoidal_ReferenceFrame.toLatLon c = Ok q ->
  LatLonEllipsoidal._referenceFrame q = LatLonEllipsoidal._referenceFrame p
  /\ LatLonEllipsoidal_ReferenceFrame.epoch q
     = LatLonEllipsoidal_ReferenceFrame.epoch p.
Proof.
  intros Hc Hq. apply frame_toCartesian_Ok in Hc. apply frame_toLatLon_Ok in Hq.
  destruct Hc as [Hc1 Hc2]. destruct Hq as [Hq1 Hq2].
  split; [congruence|]. rewrite Hq2, Hc2. reflexivity.
Qed.

Section LatLonTable.

Variable txParams : list (string * Tx).

(** X15. A frame conversion of a point keeps its observation epoch: when
    [p.epoch] is a nonzero Number [e] and [p.convertReferenceFrame(t)]
    returns [q], then [q.epoch] is [e], and [q] is on the frame of [p]
    (the conversion was a no-op) or on the target frame; this for every
    table of transforms. *)
Theorem latlon_convert_keeps_epoch (p q : LatLonEllipsoidal.t)
        (target : option Frame.t) (e : option float) :
  LatLonEllipsoidal_ReferenceFrame.epoch p = Ok e ->
  truthy e = true ->
  LatLonEllipsoidal_ReferenceFrame.convertReferenceFrame txParams p target
  = Ok q ->
  LatLonEllipsoidal_ReferenceFrame.epoch q = Ok e /\
  (LatLonEllipsoidal._referenceFrame q = LatLonEllipsoidal._referenceFrame p
   \/ LatLonEllipsoidal._referenceFrame q = target).
Proof.
  intros He Ht.
  unfold LatLonEllipsoidal_ReferenceFrame.convertReferenceFrame.
  destruct (unrecognised target); [discriminate|].
  destruct (LatLonEllipsoidal_ReferenceFrame.toCartesian p) as [c|e0] eqn:Hc;
    [|discriminate].
  cbn [bind]. apply frame_toCartesian_Ok in Hc. destruct Hc as [Hc1 Hc2].
  assert (Hec : epoch c = e) by congruence.
  destruct (convertReferenceFrame txParams c target) as [c'|e1] eqn:Hc';
    [|discriminate].
  cbn [bind]. intros Hq. apply frame_toLatLon_Ok in Hq. destruct Hq as [Hq1 Hq2].
  apply convert_Ok in Hc'. destruct Hc' as [->|(H1 & H2 & H3)].
  - split; [congruence|]. left. congruence.
  - split; [|right; congruence].
    rewrite Hq2. f_equal. rewrite Hec in H2.
    unfold epoch. rewrite H2.
    destruct e as [v|]; [|discriminate]. cbn [number].
    cbn [truthy] in *. rewrite Ht. reflexivity.
Qed.

End LatLonTable.

End Methods.

Lemma convertReferenceFrame_tags_witness :
  convertReferenceFrame Samples.sampleTable Samples.station
                        (Some Samples.ITRF2008)
  = Ok Fixtures.station_2008 /\
  Cartesian._referenceFrame Fixtures.station_2008 = Some Samples.ITRF2008 /\
  Cartesian._epoch Fixtures.station_2008 = Some 2012.
Proof.
  assert (H : convertReferenceFrame Samples.sampleTable Samples.station
                (Some Samples.ITRF2008) = Ok Fixtures.station_2008)
    by (vm_compute; reflexivity).
  split; [exact H|].
  destruct (convertReferenceFrame_tags Samples.sampleTable Samples.station
              Fixtures.station_2008 (Some Samples.ITRF2008) H)
    as [E|(H1 & H2 & _ & _)].
  - exfalso. vm_compute in E. discriminate.
  - split; [exact H1|exact H2].
Defined.

Lemma frame_and_epoch_kept_witness :
  @LatLonEllipsoidal_ReferenceFrame.toCartesian
    Ref.math Fixtures.station_point = Ok Fixtures.station_xyz /\
  @LatLonEllipsoidal_ReferenceFrame.toLatLon
    Ref.math Fixtures.station_xyz = Ok Fixtures.station_back /\
  LatLonEllipsoidal._referenceFrame Fixtures.station_back
  = Some Samples.ITRF2014 /\
  LatLonEllipsoidal_ReferenceFrame.epoch Fixtures.station_back
  = Ok (Some 2012).
Proof.
  assert (H1 : @LatLonEllipsoidal_ReferenceFrame.toCartesian
                 Ref.math Fixtures.station_point
               = Ok Fixtures.station_xyz) by (vm_compute; reflexivity).
  assert (H2 : @LatLonEllipsoidal_ReferenceFrame.toLatLon
                 Ref.math Fixtures.station_xyz
               = Ok Fixtures.station_back) by (vm_compute; reflexivity).
  split; [exact H1|]. split; [exact H2|].
  exact (@frame_and_epoch_kept Ref.math Fixtures.station_point
           Fixtures.station_back Fixtures.station_xyz H1 H2).
Defined.

Lemma latlon_convert_keeps_epoch_witness :
  @LatLonEllipsoidal_ReferenceFrame.convertReferenceFrame
    Ref.math Samples.sampleTable Fixtures.station_point
    (Some Samples.ITRF2008)
  = Ok Fixtures.station_point_2008 /\
  LatLonEllipsoidal_ReferenceFrame.epoch Fixtures.station_point_2008
  = Ok (Some 2012) /\
  LatLonEllipsoidal._referenceFrame Fixtures.station_point_2008
  = Some Samples.ITRF2008.
Proof.
  assert (H : @LatLonEllipsoidal_ReferenceFrame.convertReferenceFrame
                Ref.math Samples.sampleTable Fixtures.station_point
                (Some Samples.ITRF2008)
              = Ok Fixtures.station_point_2008) by (vm_compute; reflexivity).
  split; [exact H|].
  destruct (@latlon_convert_keeps_epoch Ref.math Samples.sampleTable
              Fixtures.station_point Fixtures.station_point_2008
              (Some Samples.ITRF2008) (Some 2012)
              eq_refl eq_refl H) as [H1 _].
  split; [exact H1|reflexivity].
Defined.


End FrameFacts.

(* ================================================================== *)
(** ** Properties of the wraps, the compass points and the grid
       constructors *)

Module GridFacts.
Import Samples Fixtures.

Lemma wraps_checked : upto span wraps_exact = true.
Proof. vm_compute. reflexivity. Qed.

Lemma compass_checked : upto turns compass_exact = true.
Proof. vm_compute. reflexivity. Qed.

(** X16. On every whole number of degrees from -3600 to 3600 the three
    wraps are exact: [wrap360] gives [n mod 360]; [wrap180] gives [n]
    inside [-180, 180] and [(n + 180) mod 360 - 180] outside; [wrap90]
    gives [n] inside [-90, 90] and [|(n - 90) mod 360 - 180| - 90]
    outside; no rounding of the intermediate Numbers shows. *)
Theorem wraps_exact_on_whole_degrees (n : Z) :
  (-3600 <= n <= 3600)%Z ->
  Dms.wrap360 (degrees n) = degrees (saw360 n) /\
  Dms.wrap180 (degrees n) = degrees (saw180 n) /\
  Dms.wrap90 (degrees n) = degrees (tri90 n).
Proof.
  intros Hn.
  assert (Hs : Z.of_nat span = 3600%Z) by reflexivity.
  pose proof (WrapClaims.upto_spec _ span wraps_checked n) as H.
  rewrite Hs in H. specialize (H Hn). unfold wraps_exact in H.
  apply andb_true_iff in H. destruct H as [H H3].
  apply andb_true_iff in H. destruct H as [H1 H2].
  apply FloatAxioms.Leibniz.eqb_spec in H1, H2, H3. auto.
Qed.

Lemma wraps_exact_witness :
  Dms.wrap360 (-1) = 359 /\ Dms.wrap180 (-1) = -1 /\ Dms.wrap90 (-1) = -1.
Proof.
  apply (wraps_exact_on_whole_degrees (-1)). lia.
Defined.

Lemma compass_same_spec (precision : float) (points n : Z) :
  compass_same precision points n = true ->
  exists c : string,
    DmsCompass.compassPoint (degrees n) precision = Ok (Some c) /\
    nth_error DmsCompass.cardinals (sector points n) = Some c.
Proof.
  unfold compass_same.
  destruct (DmsCompass.compassPoint (degrees n) precision) as [[c|]|e];
    try discriminate.
  destruct (nth_error DmsCompass.cardinals (sector points n)) as [d|];
    [|discriminate].
  intros H. apply String.eqb_eq in H. subst d. exists c. auto.
Qed.

(** X17. For every whole number of degrees from -720 to 720 and each
    precision 1, 2 and 3, [compassPoint] returns the name of the sector
    nearest to the bearing out of 4, 8 and 16, a bearing halfway between
    two sectors going to the clockwise one; it is never undefined
    there. *)
Theorem compassPoint_on_whole_degrees (n : Z) :
  (-720 <= n <= 720)%Z ->
  exists c4 c8 c16 : string,
    DmsCompass.compassPoint (degrees n) 1 = Ok (Some c4) /\
    nth_error DmsCompass.cardinals (sector 4 n) = Some c4 /\
    DmsCompass.compassPoint (degrees n) 2 = Ok (Some c8) /\
    nth_error DmsCompass.cardinals (sector 8 n) = Some c8 /\
    DmsCompass.compassPoint (degrees n) 3 = Ok (Some c16) /\
    nth_error DmsCompass.cardinals (sector 16 n) = Some c16.
Proof.
  intros Hn.
  assert (Hs : Z.of_nat turns = 720%Z) by reflexivity.
  pose proof (WrapClaims.upto_spec _ turns compass_checked n) as H.
  rewrite Hs in H. specialize (H Hn). unfold compass_exact in H.
  apply andb_true_iff in H. destruct H as [H H3].
  apply andb_true_iff in H. destruct H as [H1 H2].
  apply compass_same_spec in H1, H2, H3.
  destruct H1 as (c4 & A1 & B1). destruct H2 as (c8 & A2 & B2).
  destruct H3 as (c16 & A3 & B3).
  exists c4, c8, c16. auto 10.
Qed.

Lemma compassPoint_witness :
  exists c4 c8 c16 : string,
    DmsCompass.compassPoint 24 1 = Ok (Some c4) /\
    nth_error DmsCompass.cardinals 0 = Some c4 /\
    DmsCompass.compassPoint 24 2 = Ok (Some c8) /\
    nth_error DmsCompass.cardinals 2 = Some c8 /\
    DmsCompass.compassPoint 24 3 = Ok (Some c16) /\
    nth_error DmsCompass.cardinals 1 = Some c16.
Proof.
  apply (compassPoint_on_whole_degrees 24). lia.
Defined.

Lemma check_last (b : bool) (m : string) (errors : list string) :
  b = true -> (errors ++ Mgrs.check b m)%list <> [].
Proof.
  intros ->. simpl. destruct errors; discriminate.
Qed.

(** X18. Neither a UTM coordinate nor an MGRS grid reference can be
    constructed on the default datum or on any datum of the table
    [datums]: for all zones, letters, eastings and northings the
    constructors throw, since the entry has no [ellipsoid]. *)
Theorem grid_constructors_throw
        (zone easting northing : float) (hemisphere band e100k n100k : string)
        (convergence scale : option float) (verifyEN : bool) (key : string) :
  isOk (Utm.new zone hemisphere easting northing None
                convergence scale verifyEN) = false /\
  isOk (Utm.new zone hemisphere easting northing (Some (DatumEntry key))
                convergence scale verifyEN) = false /\
  isOk (Mgrs.new zone band e100k n100k easting northing None) = false /\
  isOk (Mgrs.new zone band e100k n100k easting northing
                 (Some (DatumEntry key))) = false.
Proof.
  assert (HU : forall d, DatumModule.unrecognised (Some d) = true ->
             isOk (Utm.new zone hemisphere easting northing (Some d)
                           convergence scale verifyEN) = false
             /\ isOk (Mgrs.new zone band e100k n100k easting northing
                               (Some d)) = false).
  { intros d Hd. split.
    - unfold Utm.new. cbv zeta. rewrite Hd.
      repeat match goal with
             | |- isOk (if ?b then _ else _) = false =>
                 destruct b; [reflexivity|]
             end.
      reflexivity.
    - unfold Mgrs.new. cbv zeta. rewrite Hd.
      repeat match goal with
             | |- isOk (if ?b then _ else _) = false =>
                 destruct b; [reflexivity|]
             end.
      destruct (Mgrs.column_check _ _) as [bad|e]; [|reflexivity].
      cbn [bind].
      match goal with
      | |- isOk (match ?l with [] => _ | _ :: _ => _ end) = false =>
          destruct l eqn:E; [|reflexivity]
      end.
      exfalso. rewrite !app_assoc in E.
      exact (check_last true _ _ eq_refl E). }
  destruct (HU DatumModule.datums_WGS84 eq_refl) as [H1 H3].
  destruct (HU (DatumEntry key) eq_refl) as [H2 H4].
  auto.
Qed.

(** A UTM coordinate and an MGRS grid reference on a datum that has an
    ellipsoid. *)
Example grid_constructors_return :
  Utm.new 31 "n" 448251 5411932 (Some BaseWGS84) None None true
  = Ok (Utm.mk 31 "N" 448251 5411932 BaseWGS84 None None) /\
  Mgrs.new 31 "U" "D" "Q" 48251.7 11932 (Some BaseWGS84)
  = Ok (Mgrs.mk 31 "U" "D" "Q" 48251 11932 BaseWGS84) /\
  isRangeError (Utm.new 31.5 "N" 448251 5411932 (Some BaseWGS84)
                        None None true) = true /\
  isRangeError (Utm.new 31 "N" 448251 9500000 (Some BaseWGS84)
                        None None true) = true /\
  isOk (Utm.new 31 "N" 448251 9500000 (Some BaseWGS84)
                None None false) = true /\
  Mgrs.new 31 "I" "J" "Q" 48251 (-1) (Some BaseWGS84)
  = Throw (RangeError
             "invalid MGRS band, invalid MGRS 100km grid square column, invalid MGRS northing").
Proof. vm_compute. repeat split. Qed.

End GridFacts.

(* ================================================================== *)
(** ** Properties of destinationPoint and of the Visual Basic Direct *)

Module DirectFacts.
Import Samples Fixtures.

Section Destination.

Context {M : Math.Lib}.

(** X19. [destinationPoint] returns the origin itself when the distance
    is 0, and otherwise a point on the surface (height exactly 0) that
    carries no datum, whatever the datum of the origin. *)
Theorem destinationPoint_result (this q : LatLonEllipsoidal.t)
        (d brg : float) :
  Vincenty.destinationPoint this d brg = Ok q ->
  (JS.eq d 0 = true /\ q = this) \/
  (JS.eq d 0 = false /\ LatLonEllipsoidal.height q = 0 /\
   LatLonEllipsoidal.datum q = None).
Proof.
  unfold Vincenty.destinationPoint.
  destruct (Vincenty.direct this d brg) as [r|e] eqn:Hr; [|discriminate].
  cbn [bind]. intros H. injection H as <-.
  destruct (JS.eq d 0) eqn:Hd.
  - left. split; [reflexivity|].
    unfold Vincenty.direct, Vincenty.direct_fuel, Vincenty.prepare in Hr.
    rewrite Hd in Hr.
    destruct (JS.isNaN d); [discriminate|].
    injection Hr as <-. reflexivity.
  - right. split; [reflexivity|].
    destruct (DirectClaims.direct_destination this d brg r Hd Hr)
      as (H1 & H2 & _).
    auto.
Qed.

End Destination.

Lemma destinationPoint_witness :
  match @Vincenty.destinationPoint Ref.math tagged 969954.166 9.1419 with
  | Ok q => LatLonEllipsoidal.height q = 0
            /\ LatLonEllipsoidal.datum q = None
  | Throw _ => False
  end.
Proof.
  destruct (@Vincenty.destinationPoint Ref.math tagged 969954.166 9.1419)
    as [q|e] eqn:E.
  - destruct (@destinationPoint_result Ref.math tagged q 969954.166 9.1419 E)
      as [[H _]|(_ & H1 & H2)].
    + exfalso. vm_compute in H. discriminate.
    + auto.
  - vm_compute in E. discriminate.
Defined.

Section VisualBasic.

Context {M : Math.Lib}.

Variables (s b A B σ1 : float).

Local Abbreviation pass := (VBDirect.pass s b A B σ1).
Local Abbreviation loop := (VBDirect.loop s b A B σ1).

(** The loop leaves with the count it started with, and only on a pass
    whose test is false. *)
Lemma loop_Some (fuel : nat) : forall st st' : VBDirect.Loop,
  loop fuel st = Some st' ->
  VBDirect.iterations st' = VBDirect.iterations st /\
  VBDirect.continues st' = false.
Proof.
  induction fuel as [|fuel IH]; intros st st'; [discriminate|].
  cbn [VBDirect.loop].
  destruct (VBDirect.continues (pass st)) eqn:Hc.
  - intros H. apply IH in H. destruct H as [H1 H2].
    split; [rewrite H1; reflexivity|exact H2].
  - intros H. injection H as <-. split; [reflexivity|exact Hc].
Qed.

End VisualBasic.

Section VisualBasicDirect.

Context {M : Math.Lib}.

Variable New : float -> float -> float -> option VBDirect.Datum
               -> VBDirect.outcome VBDirect.Point.

(** X20. The Visual Basic [Direct] has no iteration cap in effect: its
    loop never assigns [iterations], so whenever the call returns, the
    [Iterations] it reports is 0, and the EvalException written after the
    loop is never raised (an exception of that type can only come out of
    the constructor of the destination). The JavaScript [direct] counts
    its passes and throws at 100. *)
Theorem VB_Direct_never_counts (fuel : nat) (Me : VBDirect.Point)
        (distance initialBearing : float)
        (o : VBDirect.outcome VBDirect.DirectResult) :
  VBDirect.Direct New fuel Me distance initialBearing = Some o ->
  match o with
  | VBDirect.Return r => VBDirect.Iterations r = 0%Z
  | VBDirect.Raise e =>
      VBDirect.isEvalException e = true ->
      exists φ λ h d, New φ λ h d = VBDirect.Raise e
  end.
Proof.
  unfold VBDirect.Direct.
  destruct (JS.isNaN distance).
  { intros H. injection H as <-. discriminate. }
  destruct (JS.eq distance 0).
  { intros H. injection H as <-. reflexivity. }
  destruct (JS.isNaN initialBearing).
  { intros H. injection H as <-. discriminate. }
  destruct (JS.neq (VBDirect.Height Me) 0).
  { intros H. injection H as <-. discriminate. }
  cbv zeta.
  destruct (match VBDirect.Datum_ Me with
            | Some d => VBDirect.Ellipsoid d
            | None => Some VBDirect.Ellipsoids_WGS84
            end) as [el|].
  2: { intros H. injection H as <-. discriminate. }
  match goal with
  | |- match VBDirect.loop ?s ?b ?A ?B ?σ1 fuel ?st0 with _ => _ end = _ -> _ =>
      destruct (VBDirect.loop s b A B σ1 fuel st0) as [st|] eqn:Hl;
      [apply loop_Some in Hl; destruct Hl as [Hl _]; simpl in Hl
      |discriminate]
  end.
  rewrite Hl. cbn [Z.leb Z.compare].
  match goal with
  | |- match New ?a ?b ?c ?d with _ => _ end = _ -> _ =>
      destruct (New a b c d) as [p|e] eqn:Hn
  end.
  - intros H. injection H as <-. reflexivity.
  - intros H. injection H as <-. intros _. eauto.
Qed.

End VisualBasicDirect.

Lemma VB_Direct_never_counts_witness :
  exists r,
    @VBDirect.Direct Ref.math vb_New 10 vb_landsEnd 969954.166 9.1419
    = Some (VBDirect.Return r) /\ VBDirect.Iterations r = 0%Z.
Proof.
  destruct (@VBDirect.Direct Ref.math vb_New 10 vb_landsEnd 969954.166 9.1419)
    as [[r|e]|] eqn:E.
  - exists r. split; [reflexivity|].
    exact (@VB_Direct_never_counts Ref.math vb_New 10 vb_landsEnd
             969954.166 9.1419 (VBDirect.Return r) E).
  - exfalso. vm_compute in E. discriminate.
  - exfalso. vm_compute in E. discriminate.
Defined.

End DirectFacts.

(* ================================================================== *)
(** ** Properties of n-vectors and local deltas *)

Module NvectorFacts.
Import Samples FloatFacts FloatAlgebra.

(** A call that returns or throws TypeError, and nothing else. *)
Definition only_TypeError {A : Type} (r : result A) : Prop :=
  match r with
  | Ok _ => True
  | Throw e => exists m, e = TypeError m
  end.

Lemma bind_only {A B : Type} (r : result A) (k : A -> result B)
      (Q : result B -> Prop) :
  only_TypeError r ->
  (forall m, Q (Throw (TypeError m))) ->
  (forall a, r = Ok a -> Q (k a)) ->
  Q (bind r k).
Proof.
  intros Hr Ht Hk. destruct r as [a|e]; cbn [bind].
  - apply Hk. reflexivity.
  - destruct Hr as [m ->]. apply Ht.
Qed.

Lemma vector_new_only (x y z : float) : only_TypeError (Vector3d.new x y z).
Proof.
  unfold Vector3d.new.
  destruct (JS.isNaN x || JS.isNaN y || JS.isNaN z); simpl; eauto.
Qed.

Lemma cartesian_new_only (x y z : float) :
  only_TypeError (Cartesian.new x y z).
Proof.
  unfold Cartesian.new.
  destruct (JS.isNaN x || JS.isNaN y || JS.isNaN z); simpl; eauto.
Qed.

Lemma unit_only (v : Vector3d.t) : only_TypeError (Vector3d.unit v).
Proof.
  unfold Vector3d.unit. cbv zeta.
  destruct (JS.eq (Vector3d.length v) 1); [exact I|].
  destruct (JS.eq (Vector3d.length v) 0); [exact I|].
  apply vector_new_only.
Qed.

Lemma nvector_new_only (x y z : float) (h : option float)
      (datum : option Datum) : only_TypeError (Nvector.new x y z h datum).
Proof.
  unfold Nvector.new. cbv zeta.
  apply bind_only; [apply vector_new_only|simpl; eauto|intros v _].
  apply bind_only; [apply unit_only|simpl; eauto|intros u _].
  apply bind_only; [apply vector_new_only|simpl; eauto|intros s _].
  exact I.
Qed.

(** What the constructor of the n-vector returns. *)
Lemma nvector_new_Ok (x y z : float) (h : option float)
      (datum : option Datum) (n : Nvector.t) :
  Nvector.new x y z h datum = Ok n ->
  Nvector.h n = match h with Some v => v | None => 0 end.
Proof.
  unfold Nvector.new. cbv zeta.
  destruct (Vector3d.new x y z) as [v|]; [|discriminate]. cbn [bind].
  destruct (Vector3d.unit v) as [u|]; [|discriminate]. cbn [bind].
  destruct (Vector3d.new _ _ _) as [s|]; [|discriminate]. cbn [bind].
  intros H. injection H as <-. reflexivity.
Qed.

(** A rotated zero vector is a zero vector, or no vector. *)
Lemma zero_row (a b c : float) :
  zero_or_nan (a * 0 + b * 0 + c * 0).
Proof.
  apply add_zero_or_nan; [apply add_zero_or_nan|];
    apply mul_zero; left; reflexivity.
Qed.

Lemma cartesian_new_zero (x y z : float) :
  zero_or_nan x -> zero_or_nan y -> zero_or_nan z ->
  match Cartesian.new x y z with
  | Ok c => JS.eq (Cartesian.x c) 0 = true /\
            JS.eq (Cartesian.y c) 0 = true /\
            JS.eq (Cartesian.z c) 0 = true
  | Throw e => exists m, e = TypeError m
  end.
Proof.
  unfold zero_or_nan.
  intros [->|[->| ->]] [->|[->| ->]] [->|[->| ->]]; vm_compute; eauto.
Qed.

Section Facts.

Context {M : Math.Lib}.

Lemma toCartesian_only (p : LatLonEllipsoidal.t) :
  only_TypeError (Nvector.toCartesian p).
Proof.
  unfold Nvector.toCartesian.
  apply bind_only; [|simpl; eauto|intros c _; apply cartesian_new_only].
  destruct (toCartesian p) as [c|e] eqn:E; [exact I|].
  pose proof (DatumFacts.toCartesian_throws p e E) as H.
  destruct e; try discriminate. simpl. eauto.
Qed.

(** X22. The height and the datum of a point are lost on the way through
    its n-vector: [toNvector] passes [this.h], which no point has, so the
    n-vector has [h = 0] whatever the height of the point, and the point
    that [toLatLon] makes of it has height 0 and no datum. *)
Theorem nvector_loses_height (p q : LatLonEllipsoidal.t) (n : Nvector.t) :
  Nvector.toNvector p = Ok n ->
  Nvector.toLatLon n = Ok q ->
  Nvector.h n = 0 /\
  LatLonEllipsoidal.height q = 0 /\
  LatLonEllipsoidal.datum q = None.
Proof.
  unfold Nvector.toNvector. cbv zeta. intros Hn.
  apply nvector_new_Ok in Hn. cbn iota in Hn.
  unfold Nvector.toLatLon. cbv zeta. rewrite Hn.
  unfold LatLonEllipsoidal.new.
  repeat match goal with
         | |- (if ?b then _ else _) = _ -> _ => destruct b; [discriminate|]
         end.
  intros H. injection H as <-. simpl. auto.
Qed.

(** X23. The delta from a point to itself is the zero vector: whenever
    [p.deltaTo(p)] returns, its north, east and down components are all
    zero, for every point and every [Math]; otherwise it throws
    TypeError. *)
Theorem deltaTo_self (p : LatLonEllipsoidal.t) :
  match Nvector.deltaTo p p with
  | Ok d => JS.eq (Nvector.north d) 0 = true /\
            JS.eq (Nvector.east d) 0 = true /\
            JS.eq (Nvector.down d) 0 = true
  | Throw e => exists m, e = TypeError m
  end.
Proof.
  unfold Nvector.deltaTo.
  set (Q := fun r : result Nvector.Ned =>
              match r with
              | Ok d => JS.eq (Nvector.north d) 0 = true /\
                        JS.eq (Nvector.east d) 0 = true /\
                        JS.eq (Nvector.down d) 0 = true
              | Throw e => exists m, e = TypeError m
              end).
  assert (Qt : forall m, Q (Throw (TypeError m))) by (simpl; eauto).
  apply (bind_only _ _ Q); [apply toCartesian_only|exact Qt|intros c1 Hc1].
  rewrite Hc1. cbn [bind].
  apply (bind_only _ _ Q); [apply vector_new_only|exact Qt|intros δc Hδ].
  assert (Hz : δc = Vector3d.mk 0 0 0).
  { unfold Vector3d.minus in Hδ.
    destruct (VectorFacts.zero_or_throw
                (Vector3d.x (Nvector.vector_of c1))
                (Vector3d.y (Nvector.vector_of c1))
                (Vector3d.z (Nvector.vector_of c1))
                (sub_self _) (sub_self _) (sub_self _)) as [H|H].
    - congruence.
    - rewrite Hδ in H. discriminate. }
  subst δc. cbn [Vector3d.x Vector3d.y Vector3d.z].
  apply (bind_only _ _ Q); [|exact Qt|intros n1 _].
  { unfold Nvector.toNvector. cbv zeta. apply nvector_new_only. }
  apply (bind_only _ _ Q); [apply vector_new_only|exact Qt|intros a _].
  apply (bind_only _ _ Q); [apply vector_new_only|exact Qt|intros d _].
  apply (bind_only _ _ Q); [apply vector_new_only|exact Qt|intros e0 _].
  apply (bind_only _ _ Q); [apply unit_only|exact Qt|intros e _].
  apply (bind_only _ _ Q); [apply vector_new_only|exact Qt|intros n _].
  cbv zeta.
  match goal with
  | |- Q (let* δn := Cartesian.new ?x ?y ?z in _) =>
      pose proof (cartesian_new_zero x y z (zero_row _ _ _)
                    (zero_row _ _ _) (zero_row _ _ _)) as H;
      destruct (Cartesian.new x y z) as [δn|e1]
  end.
  - cbn [bind]. exact H.
  - cbn [bind]. exact H.
Qed.

End Facts.

Lemma nvector_loses_height_witness :
  exists n q,
    @Nvector.toNvector Ref.math raised = Ok n /\
    @Nvector.toLatLon Ref.math n = Ok q /\
    LatLonEllipsoidal.height raised = 5 /\
    Nvector.h n = 0 /\ LatLonEllipsoidal.height q = 0.
Proof.
  destruct (@Nvector.toNvector Ref.math raised) as [n|e] eqn:En.
  - destruct (@Nvector.toLatLon Ref.math n) as [q|e] eqn:Eq.
    + exists n, q.
      destruct (@nvector_loses_height Ref.math raised q n En Eq)
        as (H1 & H2 & _).
      repeat split; assumption.
    + exfalso. revert Eq. vm_compute in En. injection En as <-.
      vm_compute. discriminate.
  - exfalso. vm_compute in En. discriminate.
Defined.

(** The delta between two distinct points, on the reference [Math]: from
    Land's End to John o' Groats it points north-east and down. *)
Example deltaTo_landsEnd :
  match @Nvector.deltaTo Ref.math landsEnd
          (LatLonEllipsoidal.mk 58.64402 (-3.07009) 0 None None None) with
  | Ok d => (950000 <? Nvector.north d) = true /\
            (150000 <? Nvector.east d) = true /\
            (70000 <? Nvector.down d) = true
  | Throw _ => False
  end.
Proof. vm_compute. repeat split. Qed.

End NvectorFacts.

(* ================================================================== *)
(** ** Properties of the Ordnance Survey grid references *)

Module OsGridFacts.
Import Samples Fixtures.

(** The tables of the datum module hold the ellipsoid of the grid and no
    datum of its name. *)
Lemma grid_tables :
  OsGridRef.nationalGrid_ellipsoid = Some airy /\
  OsGridRef.datums_OSGB36 = None /\
  OsGridRef.datums_WGS84 = Some DatumModule.datums_WGS84.
Proof. repeat split; reflexivity. Qed.

(** The point of the grid's datum is never made: its datum is undefined,
    the default takes its place, and the default has no ellipsoid. *)
Lemma osgb_point_throws (lat lon h : float) :
  OsGridRef.newLatLon lat lon h OsGridRef.datums_OSGB36
  = Throw (TypeError "unrecognised datum").
Proof. reflexivity. Qed.

(** More fuel changes no result of the loop. *)
Lemma iterate_more {M : Math.Lib} (fuel : nat) :
  forall (a b F0 n n2 n3 φ0 N N0 φ M_ : float) (r : float * float),
  OsGridRef.iterate fuel a b F0 n n2 n3 φ0 N N0 φ M_ = Some r ->
  OsGridRef.iterate (S fuel) a b F0 n n2 n3 φ0 N N0 φ M_ = Some r.
Proof.
  induction fuel as [|fuel IH]; intros a b F0 n n2 n3 φ0 N N0 φ M_ r H;
    [discriminate|].
  cbn [OsGridRef.iterate] in H. cbv zeta in H.
  remember (S fuel) as m eqn:Hm.
  cbn [OsGridRef.iterate]. cbv zeta.
  destruct (0.00001 <=? JS.abs _); [|exact H].
  subst m. apply IH. exact H.
Qed.

Lemma iterate_mono {M : Math.Lib} (fuel more : nat)
      (a b F0 n n2 n3 φ0 N N0 φ M_ : float) (r : float * float) :
  OsGridRef.iterate fuel a b F0 n n2 n3 φ0 N N0 φ M_ = Some r ->
  OsGridRef.iterate (more + fuel) a b F0 n n2 n3 φ0 N N0 φ M_ = Some r.
Proof.
  intros H. induction more as [|more IH]; [exact H|].
  apply iterate_more. exact IH.
Qed.

(** The angles are computed exactly when the loop leaves. *)
Lemma angles_leave (pow : float -> float -> float) (fuel : nat)
      (g : OsGridRef.t) (r : float * float) :
  grid_loop fuel (OsGridRef.northing g) = Some r ->
  exists φλ, @OsGridRef.angles Ref.math pow fuel g airy = Some φλ.
Proof.
  unfold grid_loop, OsGridRef.angles. cbv zeta. intros H.
  rewrite H. destruct r as [φ m]. eexists. reflexivity.
Qed.

Lemma grid_loop_checked : upto grid_length grid_loop_leaves = true.
Proof. vm_compute. reflexivity. Qed.

(** X24. [toOsGrid] returns no grid reference for a point that the
    constructor of its class has made: the point has a datum, the table
    has no [OSGB36] to compare it with, so the point is converted to an
    undefined datum, and [convertDatum] throws TypeError. *)
Theorem toOsGrid_throws {M : Math.Lib} (pow : float -> float -> float)
        (lat lon h : float) (datum : option Datum)
        (p : LatLonEllipsoidal.t) :
  OsGridRef.newLatLon lat lon h datum = Ok p ->
  OsGridRef.convertDatum p OsGridRef.datums_OSGB36
  = Throw (TypeError "unrecognised datum") /\
  OsGridRef.toOsGrid pow p = Throw (TypeError "unrecognised datum").
Proof.
  intros Hp. unfold OsGridRef.newLatLon in Hp.
  apply DatumFacts.datum_new_Ok in Hp. destruct Hp as [Hd Hrec].
  assert (Hc : OsGridRef.convertDatum p OsGridRef.datums_OSGB36
               = Throw (TypeError "unrecognised datum")) by reflexivity.
  split; [exact Hc|].
  unfold OsGridRef.toOsGrid. rewrite Hd.
  destruct datum as [d|]; [|discriminate].
  change (OsGridRef.differ (Some d) OsGridRef.datums_OSGB36) with true.
  cbv iota. rewrite Hc. reflexivity.
Qed.

Lemma toOsGrid_throws_witness :
  OsGridRef.newLatLon 52.65757030139 1.71792158333 0 (Some airy_datum)
  = Ok caister /\
  @OsGridRef.convertDatum Ref.math caister OsGridRef.datums_OSGB36
  = Throw (TypeError "unrecognised datum") /\
  @OsGridRef.toOsGrid Ref.math pow_root caister
  = Throw (TypeError "unrecognised datum").
Proof.
  assert (H : OsGridRef.newLatLon 52.65757030139 1.71792158333 0
                (Some airy_datum) = Ok caister) by (vm_compute; reflexivity).
  split; [exact H|].
  exact (@toOsGrid_throws Ref.math pow_root _ _ _ _ caister H).
Defined.

(** X25. [toLatLon] of a grid reference returns no point, whatever the
    reference, the datum asked for and the functions of [Math]: when its
    loop leaves, the point on [datums.OSGB36] is made first, and the
    constructor throws TypeError. *)
Theorem toLatLon_no_point {M : Math.Lib} (pow : float -> float -> float)
        (fuel : nat) (g : OsGridRef.t) (datum : option Datum) :
  OsGridRef.toLatLon pow fuel g datum = None \/
  OsGridRef.toLatLon pow fuel g datum
  = Some (Throw (TypeError "unrecognised datum")).
Proof.
  unfold OsGridRef.toLatLon.
  destruct grid_tables as [-> _].
  destruct (OsGridRef.angles pow fuel g airy) as [[φ λ]|];
    [right|left; reflexivity].
  rewrite osgb_point_throws. reflexivity.
Qed.

(** X26. On the reference [Math], [toLatLon] throws TypeError within
    four passes of its loop for every grid reference whose northing is a
    whole number of kilometres of the grid, 0 to 1300. *)
Theorem toLatLon_throws_on_the_grid (pow : float -> float -> float)
        (more : nat) (k : Z) (g : OsGridRef.t) (datum : option Datum) :
  (0 <= k <= 1300)%Z ->
  OsGridRef.northing g = kilometres k ->
  @OsGridRef.toLatLon Ref.math pow (more + 4) g datum
  = Some (Throw (TypeError "unrecognised datum")).
Proof.
  intros Hk HN.
  pose proof (WrapClaims.upto_spec _ grid_length grid_loop_checked k) as H.
  assert (Hs : Z.of_nat grid_length = 1300%Z) by reflexivity.
  rewrite Hs in H. specialize (H ltac:(lia)).
  unfold grid_loop_leaves in H.
  destruct (k <? 0)%Z eqn:Hneg; [apply Z.ltb_lt in Hneg; lia|].
  destruct (grid_loop 4 (kilometres k)) as [r|] eqn:Hr; [|discriminate].
  assert (Hm : grid_loop (more + 4) (OsGridRef.northing g) = Some r).
  { rewrite HN. unfold grid_loop in *. cbv zeta in *.
    apply iterate_mono. exact Hr. }
  destruct (angles_leave pow _ g r Hm) as [[φ λ] Ha].
  unfold OsGridRef.toLatLon.
  destruct grid_tables as [-> _]. rewrite Ha.
  rewrite osgb_point_throws. reflexivity.
Qed.

Lemma toLatLon_throws_witness :
  (0 <= 313 <= 1300)%Z /\
  OsGridRef.northing (OsGridRef.mk 651409 313000) = kilometres 313 /\
  @OsGridRef.toLatLon Ref.math pow_root 4 (OsGridRef.mk 651409 313000) None
  = Some (Throw (TypeError "unrecognised datum")).
Proof.
  assert (Hk : (0 <= 313 <= 1300)%Z) by lia.
  assert (HN : OsGridRef.northing (OsGridRef.mk 651409 313000)
               = kilometres 313) by (vm_compute; reflexivity).
  split; [exact Hk|]. split; [exact HN|].
  exact (toLatLon_throws_on_the_grid pow_root 0 313
           (OsGridRef.mk 651409 313000) None Hk HN).
Defined.

(** The worked example of the Ordnance Survey: the grid reference of
    52°39′27.2531″N, 1°43′4.5177″E, and the angles of that reference, on
    the reference [Math]. *)
Example grid_worked_example :
  @OsGridRef.grid Ref.math pow_root caister_bare airy
  = (651409.903, 313177.270) /\
  @OsGridRef.toOsGrid Ref.math pow_root caister_bare = Ok caister_grid /\
  match @OsGridRef.angles Ref.math pow_root 4 caister_grid airy with
  | Some (φ, λ) =>
      JSMath.toFixed (JS.toDegrees φ) 7 = 52.6575703
      /\ JSMath.toFixed (JS.toDegrees λ) 7 = 1.7179216
  | None => False
  end.
Proof. vm_compute. repeat split; reflexivity. Qed.

End OsGridFacts.
